(** * SSH connection engine of [pkg/remote/sshclient.go]

    A shallow embedding of the connection establishment code: configuration
    merging ([combineSshKeywords]), the public-key / password /
    keyboard-interactive callbacks, the known-hosts verifier
    ([createHostKeyCallback]) and the recursive proxy-jump driver
    ([ConnectToClient]).

    Go values are modelled as follows.
    - [string] is Rocq's [string]; [int] and [int32] are [Z] (the only
      arithmetic on [int32], the saturating increment of the jump counter,
      is written out);
    - slices are lists, Go maps are [gmap]s;
    - [error] is an inductive type with one constructor per error type the
      code builds or inspects with a type assertion;
    - functions that prompt, touch the file system or the network are
      written in a state monad over a [World] that records every observable
      action in a trace;
    - closures that capture mutable variables take and return the captured
      state explicitly. *)

From stdpp Require Import base strings list gmap pretty.
From Stdlib Require Import ZArith Lia Ascii.

Local Open Scope Z_scope.
Local Open Scope string_scope.
Local Open Scope list_scope.

(** ** Constants *)

Definition SshProxyJumpMaxDepth : Z := 10.

(** [math.MaxInt32] *)
Definition MaxInt32 : Z := 2147483647.
Definition MinInt32 : Z := -2147483648.

(** ** Data model *)

(** [wshrpc.ConnKeywords], restricted to the fields this file reads or
    writes. *)
Record ConnKeywords := mkConnKeywords {
  SshUser : string;
  SshHostName : string;
  SshPort : string;
  SshIdentityFile : list string;
  SshBatchMode : bool;
  SshPubkeyAuthentication : bool;
  SshPasswordAuthentication : bool;
  SshKbdInteractiveAuthentication : bool;
  SshPreferredAuthentications : list string;
  SshAddKeysToAgent : bool;
  SshIdentityAgent : string;
  SshProxyJump : list string;
  SshUserKnownHostsFile : list string;
  SshGlobalKnownHostsFile : list string;
}.

(** The zero value [wshrpc.ConnKeywords{}]. *)
Definition emptyConnKeywords : ConnKeywords :=
  mkConnKeywords "" "" "" [] false false false false [] false "" [] [] [].

Record SSHOpts := mkSSHOpts {
  SSHHost : string;
  SSHUser : string;
  SSHPort : Z;
}.

(** [*ssh.Client]: an established transport, identified by the address it
    was dialled at and the addresses of the transports it is tunnelled
    through (innermost first). *)
Record Client := mkClient {
  clientAddr : string;
  clientVia : list string;
}.

Record ConnectionDebugInfo := mkDebugInfo {
  CurrentClient : option Client;
  NextOpts : SSHOpts;
  JumpNum : Z;
}.

(** [ssh.PublicKey]: [Type()] and the base64 encoding of [Marshal()]. *)
Record PublicKey := mkPublicKey {
  keyType : string;
  keyMarshal : string;
}.

(** [xknownhosts.KnownKey] *)
Record KnownKey := mkKnownKey {
  kkKey : PublicKey;
  kkFilename : string;
  kkLine : Z;
}.

(** Go [error] values.  [Errorf] keeps the format string and the arguments
    of a [fmt.Errorf] call apart, so no number formatting is needed to
    compare two errors. *)
Inductive error :=
| Errorf (format : string) (args : list fmtarg)
| PathError (path : string)
| KeyError (want : list KnownKey)
| RevokedError (revoked : KnownKey)
| PassphraseMissingError
| UserInputCancelError (err : error)
| ConnectionError (info : ConnectionDebugInfo) (err : error)
with fmtarg :=
| FInt (n : Z)
| FStr (s : string)
| FErr (e : error).

(** [context.Context]: the background context, a cancellable root context
    and contexts derived with [context.WithTimeout]. *)
Inductive Context :=
| Background
| CancelCtx (id : nat)
| WithTimeout (parent : Context) (seconds : Z).

Record UserInputRequest := mkRequest {
  ResponseType : string;
  QueryText : string;
  Title : string;
  Markdown : bool;
  PublicText : bool;
}.

Record UserInputResponse := mkResponse {
  RespType : string;
  Text : string;
  Confirm : bool;
}.

(** [crypto.PrivateKey], identified by its key material, and [ssh.Signer]:
    a signer held by the agent or one built from a private key. *)
Definition PrivateKey := string.

Inductive Signer :=
| AgentSigner (comment : string)
| KeySigner (key : PrivateKey).

(** What the human does at one prompt: answer it, or leave it unanswered
    or dismiss it (the request then ends in an error). *)
Inductive HumanReply :=
| Answer (resp : UserInputResponse)
| NoAnswer (reason : string).

(** Observable actions, in the order they happen. *)
Inductive Event :=
| EvReloadConfigs (hostPattern : string)
| EvPrompt (ctx : Context) (req : UserInputRequest)
| EvMkdirAll (path : string)
| EvOpenFile (path : string)
| EvWriteString (path : string) (data : string)
| EvAgentDial (sock : string)
| EvAgentAdd (key : PrivateKey)
| EvDial (addr : string) (via : option Client)
| EvHandshake (addr : string)
| EvLog (msg : string).

(** The world a connection attempt runs in. *)
Record World := mkWorld {
  fs : gmap string string;
  human : list HumanReply;
  cancelled : list nat;
  trace : list Event;
}.

(** ** The state monad *)

Definition M (A : Type) : Type := World → A * World.

#[global] Instance M_ret : MRet M := λ A a w, (a, w).
#[global] Instance M_bind : MBind M := λ A B f m w,
  let (a, w') := m w in f a w'.

Definition getWorld : M World := λ w, (w, w).
Definition emit (e : Event) : M unit := λ w,
  (tt, mkWorld (fs w) (human w) (cancelled w) (trace w ++ [e])).

(** Go's result pairs [(v, err)]: [inl err] when [err != nil]. *)
Abbreviation result A := (error + A)%type.

(** ** [SSHOpts.String] *)

Definition SSHOpts_String (opts : SSHOpts) : string :=
  let stringRepr := if decide (SSHUser opts ≠ "") then SSHUser opts +:+ "@" else "" in
  let stringRepr := stringRepr +:+ SSHHost opts in
  if decide (SSHPort opts ≠ 0) then stringRepr +:+ ":" +:+ pretty (SSHPort opts)
  else stringRepr.

(** ** [combineSshKeywords]

    [osUser] is the result of [user.Current()] (its [Username]). *)
Definition combineSshKeywords (osUser : result string)
    (userProvidedOpts configKeywords : ConnKeywords)
    (savedKeywords : option ConnKeywords) : result ConnKeywords :=
  let user :=
    if decide (SshUser userProvidedOpts ≠ "") then inr (SshUser userProvidedOpts)
    else if decide (SshUser configKeywords ≠ "") then inr (SshUser configKeywords)
    else match osUser with
         | inl err => inl (Errorf "failed to get user for ssh: %+v" [FErr err])
         | inr name => inr name
         end in
  match user with
  | inl err => inl err
  | inr user =>
    let hostName :=
      if decide (SshHostName configKeywords ≠ "") then SshHostName configKeywords
      else SshHostName userProvidedOpts in
    let port :=
      if decide (SshPort userProvidedOpts ≠ "0" ∧ SshPort userProvidedOpts ≠ "22")
      then SshPort userProvidedOpts
      else if decide (SshPort configKeywords ≠ "" ∧ SshPort configKeywords ≠ "22")
      then SshPort configKeywords
      else "22" in
    let identityFile :=
      match savedKeywords with
      | Some saved => SshIdentityFile saved
      | None => []
      end in
    let identityFile := identityFile ++ SshIdentityFile userProvidedOpts in
    let identityFile := identityFile ++ SshIdentityFile configKeywords in
    inr {| SshUser := user;
           SshHostName := hostName;
           SshPort := port;
           SshIdentityFile := identityFile;
           SshBatchMode := SshBatchMode configKeywords;
           SshPubkeyAuthentication := SshPubkeyAuthentication configKeywords;
           SshPasswordAuthentication := SshPasswordAuthentication configKeywords;
           SshKbdInteractiveAuthentication := SshKbdInteractiveAuthentication configKeywords;
           SshPreferredAuthentications := SshPreferredAuthentications configKeywords;
           SshAddKeysToAgent := SshAddKeysToAgent configKeywords;
           SshIdentityAgent := SshIdentityAgent configKeywords;
           SshProxyJump := SshProxyJump configKeywords;
           SshUserKnownHostsFile := SshUserKnownHostsFile configKeywords;
           SshGlobalKnownHostsFile := SshGlobalKnownHostsFile configKeywords |}
  end.

(** ** Captured state of the closures and the client configuration *)

(** The two slices the public-key callback pops from
    ([*authSockSignersPtr] and [*identityFilesPtr]). *)
Record PubKeyState := mkPubKeyState {
  authSockSigners : list Signer;
  identityFiles : list string;
}.

(** [ssh.HostKeyCallback] of a loaded known-hosts database: a function of
    the host name, the remote address and the presented key. *)
Definition HostKeyCallbackFn : Type := string → string → PublicKey → option error.

(** What [createHostKeyCallback] leaves in the variables its closure
    captures.  Only [knownHostsFiles] is assigned to by the closure, so it
    is threaded through the calls separately. *)
Record HostKeyVerifier := mkVerifier {
  basicCallback : HostKeyCallbackFn;
  unreadableFiles : list string;
  knownHostsFiles : list string;
}.

Inductive AuthMethod :=
| RetryablePublicKeys
    (callback : PubKeyState → M (result (list Signer) * PubKeyState))
    (init : PubKeyState) (maxTries : nat)
| RetryableKeyboardInteractive
    (challenge : string → string → list string → list bool → M (result (list string)))
    (maxTries : nat)
| RetryablePassword (prompt : M (result string)) (maxTries : nat).

Record ClientConfig := mkClientConfig {
  User : string;
  Auth : list AuthMethod;
  HostKeyCallback : list string → string → string → PublicKey → M (option error * list string);
  HostKeyFiles : list string;
  HostKeyAlgorithms : list string;
}.

(** ** The environment: the operating system and the libraries the code
    calls ([os], [os/user], [net], [golang.org/x/crypto/ssh] and its
    [agent] and [knownhosts] packages, [skeema/knownhosts],
    [kevinburke/ssh_config]) and the functions of this repository that
    live in other packages ([wavebase.ExpandHomeDir],
    [trimquotes.TryTrimQuotes], [wconfig.ReadFullConfig], [ParseOpts]).
    Every theorem below holds for an arbitrary environment. *)
Record Env := mkEnv {
  user_Current : result string;
  ExpandHomeDir : string → result string;
  filepath_Split : string → string * string;
  os_MkdirAll : string → option error;
  os_OpenFile : string → option error;
  file_WriteString : string → string → option error;
  file_Close : string → option error;
  ParseRawPrivateKey : string → result PrivateKey;
  ParseRawPrivateKeyWithPassphrase : string → string → result PrivateKey;
  NewSignerFromKey : PrivateKey → result Signer;
  rsa_GenerateKey : result PrivateKey;
  agent_Dial : string → option error;
  agent_Signers : string → list Signer;
  knownhosts_NewDB : gmap string string → list string →
                     result (HostKeyCallbackFn * (string → list string));
  xknownhosts_New : gmap string string → list string → result HostKeyCallbackFn;
  xknownhosts_Line : list string → PublicKey → string;
  xknownhosts_Normalize : string → string;
  GetStrict : string → string → result string;
  GetAll : string → string → list string;
  TryTrimQuotes : string → string;
  strings_ToLower : string → string;
  strings_Split : string → string → list string;
  strings_TrimSpace : string → string;
  strings_Fields : string → list string;
  authSockCommand_Output : result string;
  Connections : gmap string ConnKeywords;
  ParseOpts : string → result SSHOpts;
  net_Dial : string → option Client → option error;
  ssh_NewClientConn : string → ClientConfig → M (option error);
}.

(** ** World primitives *)

(** Is [ctx] done because a context it derives from was cancelled? *)
Fixpoint ctxDone (cancelledIds : list nat) (ctx : Context) : bool :=
  match ctx with
  | Background => false
  | CancelCtx id => bool_decide (id ∈ cancelledIds)
  | WithTimeout parent _ => ctxDone cancelledIds parent
  end.

(** [ctx] is [root] or was derived from it. *)
Fixpoint derivesFrom (root ctx : Context) : Prop :=
  ctx = root ∨
  match ctx with
  | WithTimeout parent _ => derivesFrom root parent
  | _ => False
  end.

(** Modelled from the spec: [userinput.GetUserInput], which is not part of
    the sources at hand.  The request is shown to the human (one [EvPrompt]
    event); it ends in an error when its context is done, when the human
    leaves it unanswered until the deadline or dismisses it; otherwise the
    human's response is returned. *)
Definition GetUserInput (ctx : Context) (request : UserInputRequest)
  : M (result UserInputResponse) := λ w,
  let tr := trace w ++ [EvPrompt ctx request] in
  if ctxDone (cancelled w) ctx
  then (inl (Errorf "Timed out waiting for user input" []),
        mkWorld (fs w) (human w) (cancelled w) tr)
  else match human w with
       | [] => (inl (Errorf "Timed out waiting for user input" []),
                mkWorld (fs w) [] (cancelled w) tr)
       | NoAnswer reason :: rest =>
           (inl (Errorf reason []), mkWorld (fs w) rest (cancelled w) tr)
       | Answer resp :: rest =>
           (inr resp, mkWorld (fs w) rest (cancelled w) tr)
       end.

(** Opening with [O_APPEND|O_WRONLY|O_CREATE] creates a missing file. *)
Definition fsCreated (path : string) (fsys : gmap string string) : gmap string string :=
  match fsys !! path with
  | Some _ => fsys
  | None => <[path := ""]> fsys
  end.

Definition fsAppended (path data : string) (fsys : gmap string string)
  : gmap string string :=
  <[path := default "" (fsys !! path) +:+ data]> fsys.

Definition fsCreate (path : string) : M unit := λ w,
  (tt, mkWorld (fsCreated path (fs w)) (human w) (cancelled w) (trace w)).

Definition fsAppend (path data : string) : M unit := λ w,
  (tt, mkWorld (fsAppended path data (fs w)) (human w) (cancelled w) (trace w)).

(** Sequencing of Go calls that return [(value, err)] and whose caller
    returns on [err != nil]. *)
Definition bindMR {A B} (m : M (result A)) (k : A → M (result B)) : M (result B) :=
  r ← m;
  match r with
  | inl err => mret (inl err)
  | inr a => k a
  end.

Notation "x ←? y ; z" := (bindMR y (λ x, z))
  (at level 20, y at level 100, z at level 200, only parsing, right associativity).

(** ** [int32] arithmetic *)

(** Two's complement wrap-around of a 32-bit signed integer. *)
Definition wrap32 (z : Z) : Z := (z + 2 ^ 31) `mod` 2 ^ 32 - 2 ^ 31.

Definition int32_add (a b : Z) : Z := wrap32 (a + b).

Definition is_int32 (z : Z) : Prop := (MinInt32 ≤ z ≤ MaxInt32)%Z.

(** [if jumpNum < math.MaxInt32 { jumpNum += 1 }] *)
Definition nextJump (jumpNum : Z) : Z :=
  if decide (jumpNum < MaxInt32) then int32_add jumpNum 1 else jumpNum.

(** The [userinput.UserInputRequest] the public-key callback builds for an
    encrypted identity file. *)
Definition passphraseRequest (identityFile : string) : UserInputRequest :=
  mkRequest "text" ("Enter passphrase for the SSH key: " +:+ identityFile)
    "Publickey Auth + Passphrase" false false.

Section Model.
Context (E : Env).

(** ** [createDummySigner] *)
Definition createDummySigner : result (list Signer) :=
  match rsa_GenerateKey E with
  | inl err => inl err
  | inr dummyKey =>
    match NewSignerFromKey E dummyKey with
    | inl err => inl err
    | inr dummySigner => inr [dummySigner]
    end
  end.

(** ** [createPublicKeyCallback] *)

(** One iteration of the loop that reads the identity files ahead of
    time; [acc] holds [existingKeys] and [identityFiles], and [os.ReadFile]
    is the lookup in the file system [fsys]. *)
Definition readIdentityFile (fsys : gmap string string)
    (acc : gmap string string * list string) (identityFile : string)
  : gmap string string * list string :=
  match ExpandHomeDir E identityFile with
  | inl _ => acc
  | inr filePath =>
    match fsys !! filePath with
    | None => acc
    | Some privateKey =>
        (<[identityFile := privateKey]> acc.1, acc.2 ++ [identityFile])
    end
  end.

Definition readIdentityFiles (fsys : gmap string string) (files : list string)
  : gmap string string * list string :=
  foldl (readIdentityFile fsys) (∅, []) files.

(** [agentClient.Add] when [AddKeysToAgent] is set and there is an agent. *)
Definition addToAgent (sshKeywords : ConnKeywords) (agentClient : option string)
    (key : PrivateKey) : M unit :=
  if SshAddKeysToAgent sshKeywords && bool_decide (agentClient ≠ None)
  then emit (EvAgentAdd key) else mret tt.

(** The closure returned by [createPublicKeyCallback]; [st] holds the two
    captured slices. *)
Definition publicKeyCallback (connCtx : Context) (sshKeywords : ConnKeywords)
    (agentClient : option string) (debugInfo : ConnectionDebugInfo)
    (existingKeys : gmap string string) (st : PubKeyState)
  : M (result (list Signer) * PubKeyState) :=
  match authSockSigners st with
  | authSockSigner :: rest =>
      mret (inr [authSockSigner], mkPubKeyState rest (identityFiles st))
  | [] =>
    match identityFiles st with
    | [] => mret (inl (ConnectionError debugInfo
                         (Errorf "no identity files remaining" [])), st)
    | identityFile :: rest =>
      let st' := mkPubKeyState [] rest in
      match existingKeys !! identityFile with
      | None =>
          _ ← emit (EvLog "error with existingKeys, this should never happen");
          mret (createDummySigner, st')
      | Some privateKey =>
        match ParseRawPrivateKey E privateKey with
        | inr unencryptedPrivateKey =>
          match NewSignerFromKey E unencryptedPrivateKey with
          | inr signer =>
              _ ← addToAgent sshKeywords agentClient unencryptedPrivateKey;
              mret (inr [signer], st')
          | inl _ => mret (createDummySigner, st')
          end
        | inl PassphraseMissingError =>
          if SshBatchMode sshKeywords then mret (createDummySigner, st')
          else
            let request := passphraseRequest identityFile in
            let ctx := WithTimeout connCtx 60 in
            response ← GetUserInput ctx request;
            match response with
            | inl err =>
                mret (inl (ConnectionError debugInfo (UserInputCancelError err)), st')
            | inr response =>
              match ParseRawPrivateKeyWithPassphrase E privateKey (Text response) with
              | inl _ => mret (createDummySigner, st')
              | inr unencryptedPrivateKey =>
                match NewSignerFromKey E unencryptedPrivateKey with
                | inl _ => mret (createDummySigner, st')
                | inr signer =>
                    _ ← addToAgent sshKeywords agentClient unencryptedPrivateKey;
                    mret (inr [signer], st')
                end
              end
            end
        | inl _ => mret (createDummySigner, st')
        end
      end
    end
  end.

(** [createPublicKeyCallback]: the callback together with the initial
    contents of the variables it captures. *)
Definition createPublicKeyCallback (connCtx : Context) (sshKeywords : ConnKeywords)
    (authSockSignersExt : list Signer) (agentClient : option string)
    (debugInfo : ConnectionDebugInfo)
  : M ((PubKeyState → M (result (list Signer) * PubKeyState)) * PubKeyState) :=
  w ← getWorld;
  let '(existingKeys, identityFiles) :=
    readIdentityFiles (fs w) (SshIdentityFile sshKeywords) in
  mret (publicKeyCallback connCtx sshKeywords agentClient debugInfo existingKeys,
        mkPubKeyState authSockSignersExt identityFiles).

(** ** Password and keyboard-interactive prompts *)

Definition createInteractivePasswordCallbackPrompt (connCtx : Context)
    (remoteDisplayName : string) (debugInfo : ConnectionDebugInfo)
  : M (result string) :=
  let ctx := WithTimeout connCtx 60 in
  let queryText :=
    "Password Authentication requested from connection  " +:+ "
" +:+ remoteDisplayName +:+ "

" +:+ "Password:" in
  let request := mkRequest "text" queryText "Password Authentication" true false in
  response ← GetUserInput ctx request;
  match response with
  | inl err => mret (inl (ConnectionError debugInfo err))
  | inr response => mret (inr (Text response))
  end.

Definition promptChallengeQuestion (connCtx : Context) (question : string)
    (echo : bool) (remoteName : string) : M (result string) :=
  let ctx := WithTimeout connCtx 60 in
  let queryText :=
    "Keyboard Interactive Authentication requested from connection  " +:+ "
" +:+ remoteName +:+ "

" +:+ question in
  let request :=
    mkRequest "text" queryText "Keyboard Interactive Authentication" true echo in
  response ← GetUserInput ctx request;
  match response with
  | inl err => mret (inl err)
  | inr response => mret (inr (Text response))
  end.

(** The [for i, question := range questions] loop; the lengths of the two
    slices were compared before, so [echos[i]] exists. *)
Fixpoint challengeLoop (connCtx : Context) (remoteName : string)
    (debugInfo : ConnectionDebugInfo) (questions : list string) (echos : list bool)
    (answers : list string) : M (result (list string)) :=
  match questions with
  | [] => mret (inr answers)
  | question :: questions' =>
    let echo := default false (head echos) in
    answer ← promptChallengeQuestion connCtx question echo remoteName;
    match answer with
    | inl err => mret (inl (ConnectionError debugInfo err))
    | inr answer =>
        challengeLoop connCtx remoteName debugInfo questions' (tail echos)
                      (answers ++ [answer])
    end
  end.

Definition createInteractiveKbdInteractiveChallenge (connCtx : Context)
    (remoteName : string) (debugInfo : ConnectionDebugInfo)
    (name instruction : string) (questions : list string) (echos : list bool)
  : M (result (list string)) :=
  if decide (length questions ≠ length echos)
  then mret (inl (Errorf "bad response from server: questions has len %d, echos has len %d"
                    [FInt (Z.of_nat (length questions)); FInt (Z.of_nat (length echos))]))
  else challengeLoop connCtx remoteName debugInfo questions echos [].

(** ** Writing to a known-hosts file *)

(** [writeToKnownHosts]; the result is the returned [error] ([None] for
    [nil]).  [getUserVerification] is [None] for a [nil] function value. *)
Definition writeToKnownHosts (knownHostsFile newLine : string)
    (getUserVerification : option (M (result UserInputResponse)))
  : M (option error) :=
  let getUserVerification :=
    match getUserVerification with
    | Some f => f
    | None => mret (inr (mkResponse "confirm" "" true))
    end in
  let path := (filepath_Split E knownHostsFile).1 in
  _ ← emit (EvMkdirAll path);
  match os_MkdirAll E path with
  | Some err => mret (Some err)
  | None =>
    _ ← emit (EvOpenFile knownHostsFile);
    match os_OpenFile E knownHostsFile with
    | Some err => mret (Some err)
    | None =>
      _ ← fsCreate knownHostsFile;
      response ← getUserVerification;
      match response with
      | inl err => mret (Some (UserInputCancelError err))
      | inr response =>
        if negb (Confirm response)
        then mret (Some (UserInputCancelError (Errorf "canceled by the user" [])))
        else
          _ ← emit (EvWriteString knownHostsFile (newLine +:+ "
"));
          match file_WriteString E knownHostsFile (newLine +:+ "
") with
          | Some err => mret (Some err)
          | None =>
            _ ← fsAppend knownHostsFile (newLine +:+ "
");
            mret (file_Close E knownHostsFile)
          end
      end
    end
  end.

Definition unknownKeyRequest (knownHostsFile hostname remote : string)
    (key : PublicKey) : UserInputRequest :=
  let base64Key := keyMarshal key in
  let queryText :=
    "The authenticity of host '" +:+ hostname +:+ " (" +:+ remote +:+
    ")' can't be established " +:+
    "as it **does not exist in any checked known_hosts files**. " +:+
    "The host you are attempting to connect to provides this " +:+ keyType key +:+
    " key:  " +:+ "
" +:+ base64Key +:+ "." +:+ "

" +:+ "**Would you like to continue connecting?** If so, the key will be permanently " +:+
    "added to the file " +:+ knownHostsFile +:+ " " +:+
    "to protect from future man-in-the-middle attacks." in
  mkRequest "confirm" queryText "Known Hosts Key Missing" true false.

Definition missingKnownHostsRequest (knownHostsFile hostname remote : string)
    (key : PublicKey) : UserInputRequest :=
  let base64Key := keyMarshal key in
  let queryText :=
    "The authenticity of host '" +:+ hostname +:+ " (" +:+ remote +:+
    ")' can't be established " +:+
    "as **no known_hosts files could be found**. " +:+
    "The host you are attempting to connect to provides this " +:+ keyType key +:+
    " key:  " +:+ "
" +:+ base64Key +:+ "." +:+ "

" +:+ "**Would you like to continue connecting?** If so:  " +:+ "
" +:+ "- " +:+ knownHostsFile +:+ " will be created  " +:+ "
" +:+ "- the key will be added to " +:+ knownHostsFile +:+ "

" +:+ "This will protect from future man-in-the-middle attacks." in
  mkRequest "confirm" queryText "Known Hosts File Missing" true false.

(** The closure both verifier constructors return. *)
Definition confirmPrompt (request : UserInputRequest) : M (result UserInputResponse) :=
  let ctx := WithTimeout Background 60 in
  resp ← GetUserInput ctx request;
  match resp with
  | inl err => mret (inl err)
  | inr resp =>
    if negb (Confirm resp) then mret (inl (Errorf "user selected no" []))
    else mret (inr resp)
  end.

Definition createUnknownKeyVerifier (knownHostsFile hostname remote : string)
    (key : PublicKey) : M (result UserInputResponse) :=
  confirmPrompt (unknownKeyRequest knownHostsFile hostname remote key).

Definition createMissingKnownHostsVerifier (knownHostsFile hostname remote : string)
    (key : PublicKey) : M (result UserInputResponse) :=
  confirmPrompt (missingKnownHostsRequest knownHostsFile hostname remote key).

(** ** [createHostKeyCallback] *)

(** The loop that expands the home directory in every file name. *)
Definition expandKnownHostsFiles (unexpanded : list string) : list string :=
  foldl (λ knownHostsFiles filename,
           match ExpandHomeDir E filename with
           | inl _ => knownHostsFiles
           | inr filePath => knownHostsFiles ++ [filePath]
           end) [] unexpanded.

(** What the database loop leaves behind: the callback and algorithm
    function of the database (if one could be built), [knownHostsFiles] and
    [unreadableFiles]. *)
Definition LoadedDB : Type :=
  option (HostKeyCallbackFn * (string → list string)) * list string * list string.

(** The loop [for basicCallback == nil && len(knownHostsFiles) > 0].  Every
    iteration that continues removes at least one file, so [fuel] bounds
    the iterations by the number of files; [None] is fuel running out. *)
Fixpoint loadKnownHosts (fuel : nat) (fsys : gmap string string)
    (knownHostsFiles unreadableFiles : list string) : option (result LoadedDB) :=
  match knownHostsFiles with
  | [] => Some (inr (None, [], unreadableFiles))
  | _ :: _ =>
    match fuel with
    | O => None
    | S fuel' =>
      match knownhosts_NewDB E fsys knownHostsFiles with
      | inl (PathError badFile) =>
        let unreadableFiles := unreadableFiles ++ [badFile] in
        let okFiles := filter (λ filename, filename ≠ badFile) knownHostsFiles in
        if decide (length knownHostsFiles ≤ length okFiles)%nat
        then Some (inl (Errorf "problem file (%s) doesn't exist. this should not be possible"
                          [FStr badFile]))
        else loadKnownHosts fuel' fsys okFiles unreadableFiles
      | inl err => Some (inl (Errorf "known_hosts formatting error: %+v" [FErr err]))
      | inr db => Some (inr (Some db, knownHostsFiles, unreadableFiles))
      end
    end
  end.

(** [createHostKeyCallback] up to the construction of the closure: the
    variables the closure captures and the algorithm function. *)
Definition createHostKeyCallback (sshKeywords : ConnKeywords)
  : M (result (HostKeyVerifier * (string → list string))) :=
  let globalKnownHostsFiles := SshGlobalKnownHostsFile sshKeywords in
  let userKnownHostsFiles := SshUserKnownHostsFile sshKeywords in
  match user_Current E with
  | inl err => mret (inl err)
  | inr osUser =>
    let unexpandedKnownHostsFiles :=
      if decide (osUser = "root") then globalKnownHostsFiles
      else userKnownHostsFiles ++ globalKnownHostsFiles in
    let knownHostsFiles := expandKnownHostsFiles unexpandedKnownHostsFiles in
    if decide (length knownHostsFiles = 0%nat)
    then mret (inl (Errorf "no known_hosts files provided by ssh. defaults are overridden" []))
    else
      w ← getWorld;
      match loadKnownHosts (length knownHostsFiles) (fs w) knownHostsFiles [] with
      | None => mret (inl (Errorf "loadKnownHosts: out of fuel" []))
      | Some (inl err) => mret (inl err)
      | Some (inr (Some (callback, algorithms), knownHostsFiles, unreadableFiles)) =>
          mret (inr (mkVerifier callback unreadableFiles knownHostsFiles, algorithms))
      | Some (inr (None, knownHostsFiles, unreadableFiles)) =>
          mret (inr (mkVerifier (λ _ _ _, Some (KeyError [])) unreadableFiles knownHostsFiles,
                     λ _, []))
      end
  end.

(** How one of the two write loops of the closure ends: with a [return]
    out of the closure, or at its end (or [break]) with the current value
    of [err] and the file that was written, if any. *)
Inductive LoopExit :=
| LoopReturn (serr : error)
| LoopEnd (err : option error) (written : option string).

(** [for _, filename := range files { err = writeToKnownHosts(...) ... }] *)
Fixpoint writeLoop (getUserVerification : string → M (result UserInputResponse))
    (newLine : string) (files : list string) (err : option error) : M LoopExit :=
  match files with
  | [] => mret (LoopEnd err None)
  | filename :: files' =>
    err ← writeToKnownHosts filename newLine (Some (getUserVerification filename));
    match err with
    | None => mret (LoopEnd None (Some filename))
    | Some (UserInputCancelError cause) => mret (LoopReturn (UserInputCancelError cause))
    | Some _ => writeLoop getUserVerification newLine files' err
    end
  end.

(** [strings.Join] *)
Fixpoint strings_Join (elems : list string) (sep : string) : string :=
  match elems with
  | [] => ""
  | [s] => s
  | s :: rest => s +:+ sep +:+ strings_Join rest sep
  end.

Definition hostChangedMessage (knownHostsFiles : list string) (want : list KnownKey)
    (key : PublicKey) : string :=
  let correctKeyFingerprint := keyMarshal key in
  let bulletListKnownHosts := (λ knownHostName, "- " +:+ knownHostName) <$> knownHostsFiles in
  let offendingKeysFmt := (λ badKey, "- " +:+ keyMarshal (kkKey badKey)) <$> want in
  "**WARNING: REMOTE HOST IDENTIFICATION HAS CHANGED!**" +:+ "

" +:+ "If this is not expected, it is possible that someone could be trying to " +:+
  "eavesdrop on you via a man-in-the-middle attack. " +:+
  "Alternatively, the host you are connecting to may have changed its key. " +:+
  "The " +:+ keyType key +:+ " key sent by the remote hist has the fingerprint:  " +:+ "
" +:+ correctKeyFingerprint +:+ "

" +:+ "If you are sure this is correct, please update your known_hosts files to " +:+
  "remove the lines with the offending before trying to connect again.  " +:+ "
" +:+ "**Known Hosts Files**  " +:+ "
" +:+ strings_Join bulletListKnownHosts ("  " +:+ "
") +:+ "

" +:+ "**Offending Keys**  " +:+ "
" +:+ strings_Join offendingKeysFmt ("  " +:+ "
").

(** The closure [waveHostKeyCallback].  [knownHostsFiles] is the current
    value of the captured variable; its value after the call is returned
    next to the error. *)
Definition waveHostKeyCallback (v : HostKeyVerifier) (knownHostsFiles : list string)
    (hostname remote : string) (key : PublicKey) : M (option error * list string) :=
  match basicCallback v hostname remote key with
  | None => mret (None, knownHostsFiles)
  | Some (RevokedError k) => mret (Some (RevokedError k), knownHostsFiles)
  | Some (KeyError []) =>
    let newLine := xknownhosts_Line E [xknownhosts_Normalize E hostname] key in
    first ← writeLoop (λ filename, createUnknownKeyVerifier filename hostname remote key)
              newLine knownHostsFiles
              (Some (Errorf "placeholder, should not be returned" []));
    match first with
    | LoopReturn serr => mret (Some serr, knownHostsFiles)
    | LoopEnd err _ =>
      second ← match err with
               | Some _ =>
                   writeLoop (λ filename,
                                createMissingKnownHostsVerifier filename hostname remote key)
                             newLine (unreadableFiles v) err
               | None => mret (LoopEnd None None)
               end;
      match second with
      | LoopReturn serr => mret (Some serr, knownHostsFiles)
      | LoopEnd err written =>
        let knownHostsFiles :=
          match written with
          | Some filename => [filename]
          | None => knownHostsFiles
          end in
        match err with
        | Some err =>
            mret (Some (Errorf "unable to create new knownhost key: %e" [FErr err]),
                  knownHostsFiles)
        | None =>
          w ← getWorld;
          match xknownhosts_New E (fs w) knownHostsFiles with
          | inl err => mret (Some err, knownHostsFiles)
          | inr updatedCallback =>
              mret (updatedCallback hostname remote key, knownHostsFiles)
          end
        end
      end
    end
  | Some (KeyError want) =>
    _ ← emit (EvLog (hostChangedMessage knownHostsFiles want key));
    mret (Some (Errorf "remote host identification has changed" []), knownHostsFiles)
  | Some err => mret (Some err, knownHostsFiles)
  end.

(** ** [findSshConfigKeywords] *)

Definition yes (raw : string) : bool :=
  bool_decide (strings_ToLower E (TryTrimQuotes E raw) = "yes").

Definition notNo (raw : string) : bool :=
  bool_decide (strings_ToLower E (TryTrimQuotes E raw) ≠ "no").

(** The loop over the comma-separated [ProxyJump] value. *)
Definition splitProxyJump (proxyJumpRaw : string) : list string :=
  foldl (λ acc proxyJumpName,
           let proxyJumpName := strings_TrimSpace E proxyJumpName in
           if bool_decide (proxyJumpName = "")
              || bool_decide (strings_ToLower E proxyJumpName = "none")
           then acc else acc ++ [proxyJumpName])
        [] (strings_Split E proxyJumpRaw ",").

Definition findSshConfigKeywords (hostPattern : string) : M (result ConnKeywords) :=
  let getStrict key : M (result string) := mret (GetStrict E hostPattern key) in
  let getLoose key := match GetStrict E hostPattern key with
                      | inl _ => "" | inr v => v end in
  _ ← emit (EvReloadConfigs hostPattern);
  userRaw ←? getStrict "User";
  hostNameRaw ←? getStrict "HostName";
  portRaw ←? getStrict "Port";
  let identityFileRaw := TryTrimQuotes E <$> GetAll E hostPattern "IdentityFile" in
  batchModeRaw ←? getStrict "BatchMode";
  pubkeyAuthenticationRaw ←? getStrict "PubkeyAuthentication";
  passwordAuthenticationRaw ←? getStrict "PasswordAuthentication";
  kbdInteractiveAuthenticationRaw ←? getStrict "KbdInteractiveAuthentication";
  preferredAuthenticationsRaw ←? getStrict "PreferredAuthentications";
  addKeysToAgentRaw ←? getStrict "AddKeysToAgent";
  identityAgentRaw ←? getStrict "IdentityAgent";
  identityAgent ←?
    (if decide (identityAgentRaw = "") then
       match authSockCommand_Output E with
       | inr sshAuthSock =>
           mret (ExpandHomeDir E (TryTrimQuotes E (strings_TrimSpace E sshAuthSock)))
       | inl err =>
           _ ← emit (EvLog "unable to find SSH_AUTH_SOCK");
           mret (inr "")
       end
     else mret (ExpandHomeDir E (TryTrimQuotes E identityAgentRaw)));
  proxyJumpRaw ←? getStrict "ProxyJump";
  mret (inr {|
    SshUser := TryTrimQuotes E userRaw;
    SshHostName := TryTrimQuotes E hostNameRaw;
    SshPort := TryTrimQuotes E portRaw;
    SshIdentityFile := identityFileRaw;
    SshBatchMode := yes batchModeRaw;
    SshPubkeyAuthentication := notNo pubkeyAuthenticationRaw;
    SshPasswordAuthentication := notNo passwordAuthenticationRaw;
    SshKbdInteractiveAuthentication := notNo kbdInteractiveAuthenticationRaw;
    SshPreferredAuthentications :=
      strings_Split E (TryTrimQuotes E preferredAuthenticationsRaw) ",";
    SshAddKeysToAgent := yes addKeysToAgentRaw;
    SshIdentityAgent := identityAgent;
    SshProxyJump := splitProxyJump proxyJumpRaw;
    SshUserKnownHostsFile := strings_Fields E (getLoose "UserKnownHostsFile");
    SshGlobalKnownHostsFile := strings_Fields E (getLoose "GlobalKnownHostsFile");
  |}).

(** ** [createClientConfig] *)

Definition createClientConfig (connCtx : Context) (sshKeywords : ConnKeywords)
    (debugInfo : ConnectionDebugInfo) : M (result ClientConfig) :=
  let remoteName :=
    SshUser sshKeywords +:+ "@" +:+
    xknownhosts_Normalize E (SshHostName sshKeywords +:+ ":" +:+ SshPort sshKeywords) in
  _ ← emit (EvAgentDial (SshIdentityAgent sshKeywords));
  agent ← match agent_Dial E (SshIdentityAgent sshKeywords) with
          | Some err =>
              _ ← emit (EvLog "Failed to open Identity Agent Socket");
              mret ([], None)
          | None =>
              mret (agent_Signers E (SshIdentityAgent sshKeywords),
                    Some (SshIdentityAgent sshKeywords))
          end;
  let '(authSockSigners, agentClient) := agent in
  pk ← createPublicKeyCallback connCtx sshKeywords authSockSigners agentClient debugInfo;
  let publicKey :=
    RetryablePublicKeys pk.1 pk.2
      (length (SshIdentityFile sshKeywords) + length authSockSigners)%nat in
  let keyboardInteractive :=
    RetryableKeyboardInteractive
      (createInteractiveKbdInteractiveChallenge connCtx remoteName debugInfo) 1 in
  let password :=
    RetryablePassword
      (createInteractivePasswordCallbackPrompt connCtx remoteName debugInfo) 1 in
  let authMethods :=
    foldl (λ authMethods authMethodName,
             if decide (authMethodName = "publickey") then
               if SshPubkeyAuthentication sshKeywords
               then authMethods ++ [publicKey] else authMethods
             else if decide (authMethodName = "keyboard-interactive") then
               if SshKbdInteractiveAuthentication sshKeywords
                  && negb (SshBatchMode sshKeywords)
               then authMethods ++ [keyboardInteractive] else authMethods
             else if decide (authMethodName = "password") then
               if SshPasswordAuthentication sshKeywords
                  && negb (SshBatchMode sshKeywords)
               then authMethods ++ [password] else authMethods
             else authMethods)
          [] (SshPreferredAuthentications sshKeywords) in
  hk ←? createHostKeyCallback sshKeywords;
  let '(verifier, hostKeyAlgorithms) := hk in
  let networkAddr := SshHostName sshKeywords +:+ ":" +:+ SshPort sshKeywords in
  mret (inr {|
    User := SshUser sshKeywords;
    Auth := authMethods;
    HostKeyCallback := waveHostKeyCallback verifier;
    HostKeyFiles := knownHostsFiles verifier;
    HostKeyAlgorithms := hostKeyAlgorithms networkAddr;
  |}).

(** ** [connectInternal] *)

Definition connectInternal (ctx : Context) (networkAddr : string)
    (clientConfig : ClientConfig) (currentClient : option Client)
  : M (result Client) :=
  _ ← emit (EvDial networkAddr currentClient);
  match net_Dial E networkAddr currentClient with
  | Some err => mret (inl err)
  | None =>
    _ ← emit (EvHandshake networkAddr);
    err ← ssh_NewClientConn E networkAddr clientConfig;
    match err with
    | Some err => mret (inl err)
    | None =>
      mret (inr (mkClient networkAddr
                   match currentClient with
                   | None => []
                   | Some c => clientAddr c :: clientVia c
                   end))
    end
  end.

(** ** [ConnectToClient] *)

(** The three values [ConnectToClient] returns. *)
Definition ConnectResult : Type := option Client * Z * option error.

(** The loop [for _, proxyName := range sshKeywords.SshProxyJump], with the
    recursive call abstracted as [connect].  It ends with a [return] of the
    enclosing function ([inl]: the returned jump number and error) or
    normally ([inr]: the values of [debugInfo] and [jumpNum] after it).
    [None] is the recursive call running out of fuel. *)
Fixpoint proxyJumpLoop
    (connect : SSHOpts → option Client → Z → ConnKeywords → M (option ConnectResult))
    (debugInfo : ConnectionDebugInfo) (proxies : list string) (jumpNum : Z)
  : M (option (Z * error + ConnectionDebugInfo * Z)) :=
  match proxies with
  | [] => mret (Some (inr (debugInfo, jumpNum)))
  | proxyName :: proxies' =>
    match ParseOpts E proxyName with
    | inl err =>
        mret (Some (inl (JumpNum debugInfo, ConnectionError debugInfo err)))
    | inr proxyOpts =>
      let jumpNum := nextJump jumpNum in
      r ← connect proxyOpts (CurrentClient debugInfo) jumpNum emptyConnKeywords;
      match r with
      | None => mret None
      | Some (client, jumpNum, err) =>
        let debugInfo := mkDebugInfo client (NextOpts debugInfo) (JumpNum debugInfo) in
        match err with
        | Some err => mret (Some (inl (jumpNum, err)))
        | None => proxyJumpLoop connect debugInfo proxies' jumpNum
        end
      end
    end
  end.

(** [ConnectToClient].  The recursion of the Go function is bounded by the
    depth check, not by the structure of its arguments, so the embedding
    recurses on [fuel]; [None] is fuel running out. *)
Fixpoint ConnectToClient (fuel : nat) (connCtx : Context) (opts : SSHOpts)
    (currentClient : option Client) (jumpNum : Z) (connFlags : ConnKeywords)
  : M (option ConnectResult) :=
  match fuel with
  | O => mret None
  | S fuel' =>
    let debugInfo := mkDebugInfo currentClient opts jumpNum in
    if decide (jumpNum > SshProxyJumpMaxDepth) then
      mret (Some (None, jumpNum,
                  Some (ConnectionError debugInfo
                          (Errorf "ProxyJump %d exceeds Wave's max depth of %d"
                             [FInt jumpNum; FInt SshProxyJumpMaxDepth]))))
    else
      sshConfigKeywords ← findSshConfigKeywords (SSHHost opts);
      match sshConfigKeywords with
      | inl err =>
          mret (Some (None, JumpNum debugInfo, Some (ConnectionError debugInfo err)))
      | inr sshConfigKeywords =>
        let connFlags :=
          {| SshUser := SSHUser opts;
             SshHostName := SSHHost opts;
             SshPort := pretty (SSHPort opts);
             SshIdentityFile := SshIdentityFile connFlags;
             SshBatchMode := SshBatchMode connFlags;
             SshPubkeyAuthentication := SshPubkeyAuthentication connFlags;
             SshPasswordAuthentication := SshPasswordAuthentication connFlags;
             SshKbdInteractiveAuthentication := SshKbdInteractiveAuthentication connFlags;
             SshPreferredAuthentications := SshPreferredAuthentications connFlags;
             SshAddKeysToAgent := SshAddKeysToAgent connFlags;
             SshIdentityAgent := SshIdentityAgent connFlags;
             SshProxyJump := SshProxyJump connFlags;
             SshUserKnownHostsFile := SshUserKnownHostsFile connFlags;
             SshGlobalKnownHostsFile := SshGlobalKnownHostsFile connFlags |} in
        let rawName := SSHOpts_String opts in
        let savedKeywords := default emptyConnKeywords (Connections E !! rawName) in
        match combineSshKeywords (user_Current E) connFlags sshConfigKeywords
                (Some savedKeywords) with
        | inl err =>
            mret (Some (None, JumpNum debugInfo, Some (ConnectionError debugInfo err)))
        | inr sshKeywords =>
          loop ← proxyJumpLoop (ConnectToClient fuel' connCtx) debugInfo
                   (SshProxyJump sshKeywords) jumpNum;
          match loop with
          | None => mret None
          | Some (inl (jumpNum, err)) => mret (Some (None, jumpNum, Some err))
          | Some (inr (debugInfo, _)) =>
            clientConfig ← createClientConfig connCtx sshKeywords debugInfo;
            match clientConfig with
            | inl err =>
                mret (Some (None, JumpNum debugInfo,
                            Some (ConnectionError debugInfo err)))
            | inr clientConfig =>
              let networkAddr :=
                SshHostName sshKeywords +:+ ":" +:+ SshPort sshKeywords in
              client ← connectInternal connCtx networkAddr clientConfig
                         (CurrentClient debugInfo);
              match client with
              | inl err =>
                  mret (Some (None, JumpNum debugInfo,
                              Some (ConnectionError debugInfo err)))
              | inr client => mret (Some (Some client, JumpNum debugInfo, None))
              end
            end
          end
        end
      end
  end.

End Model.

(** ** Callers of the callbacks *)

(** [n] successive invocations of a closure with captured state, with the
    results in the order of the calls. *)
Fixpoint callRepeatedly {R S : Type} (n : nat) (callback : S → M (R * S)) (st : S)
  : M (list R * S) :=
  match n with
  | O => mret ([], st)
  | S n' =>
    p ← callback st;
    q ← callRepeatedly n' callback p.2;
    mret (p.1 :: q.1, q.2)
  end.

(** How an authentication method ends. *)
Inductive AuthOutcome :=
| AuthSuccess
| AuthFailure
| AuthError (err : error).

(** The loop the ssh library runs for
    [ssh.RetryableAuthMethod(ssh.PublicKeysCallback(callback), maxTries)]
    with [maxTries > 0] ([retryableAuthMethod.auth] around
    [publicKeyCallback.auth] in [golang.org/x/crypto/ssh]): the callback is
    invoked up to [maxTries] times; an error it returns ends the method, a
    signer the server accepts ends it with success, and signers the server
    rejects lead to the next try.  [accepted] is the server's decision. *)
Fixpoint retryPublicKeys (accepted : Signer → bool) (maxTries : nat)
    (callback : PubKeyState → M (result (list Signer) * PubKeyState))
    (st : PubKeyState) : M (AuthOutcome * PubKeyState) :=
  match maxTries with
  | O => mret (AuthFailure, st)
  | S tries =>
    r ← callback st;
    match r.1 with
    | inl err => mret (AuthError err, r.2)
    | inr signers =>
      if existsb accepted signers then mret (AuthSuccess, r.2)
      else retryPublicKeys accepted tries callback r.2
    end
  end.

(** ** Reading traces *)

(** The prompts shown to the human, in order. *)
Definition promptsOf (tr : list Event) : list (Context * UserInputRequest) :=
  omap (λ e, match e with EvPrompt ctx req => Some (ctx, req) | _ => None end) tr.

(** The network dials, in order. *)
Definition dialsOf (tr : list Event) : list string :=
  omap (λ e, match e with EvDial addr _ => Some addr | _ => None end) tr.

(** Looking through the [ConnectionError] wrappers for a user
    cancellation. *)
Fixpoint isUserCancel (err : error) : bool :=
  match err with
  | UserInputCancelError _ => true
  | ConnectionError _ err => isUserCancel err
  | _ => false
  end.

(** The steps of one hop of [ConnectToClient] that can fail, with the debug
    information of the hop and the error of the step. *)
Inductive FailsAt (E : Env) (connCtx : Context) : ConnectionDebugInfo → error → Prop :=
| fail_depth info :
    JumpNum info > SshProxyJumpMaxDepth →
    FailsAt E connCtx info
      (Errorf "ProxyJump %d exceeds Wave's max depth of %d"
         [FInt (JumpNum info); FInt SshProxyJumpMaxDepth])
| fail_findSshConfigKeywords info w w' err :
    findSshConfigKeywords E (SSHHost (NextOpts info)) w = (inl err, w') →
    FailsAt E connCtx info err
| fail_combineSshKeywords info connFlags sshConfigKeywords savedKeywords err :
    combineSshKeywords (user_Current E) connFlags sshConfigKeywords savedKeywords = inl err →
    FailsAt E connCtx info err
| fail_ParseOpts info proxyName err :
    ParseOpts E proxyName = inl err →
    FailsAt E connCtx info err
| fail_createClientConfig info sshKeywords w w' err :
    createClientConfig E connCtx sshKeywords info w = (inl err, w') →
    FailsAt E connCtx info err
| fail_connectInternal info networkAddr clientConfig w w' err :
    connectInternal E connCtx networkAddr clientConfig (CurrentClient info) w = (inl err, w') →
    FailsAt E connCtx info err.

(** The error the depth check of [ConnectToClient] returns. *)
Definition depthExceeded (currentClient : option Client) (opts : SSHOpts) (jumpNum : Z)
  : error :=
  ConnectionError (mkDebugInfo currentClient opts jumpNum)
    (Errorf "ProxyJump %d exceeds Wave's max depth of %d"
       [FInt jumpNum; FInt SshProxyJumpMaxDepth]).

(** The error [err] wraps the error [cause] of a step that failed at the
    hop described by [info], and that hop is the call for [opts] at depth
    [jumpNum] or a deeper one. *)
Definition WrappedAt (E : Env) (connCtx : Context) (opts : SSHOpts) (jumpNum : Z)
    (err : error) : Prop :=
  ∃ info cause,
    err = ConnectionError info cause
    ∧ FailsAt E connCtx info cause
    ∧ ((NextOpts info = opts ∧ JumpNum info = jumpNum) ∨ (jumpNum < JumpNum info)%Z)
    ∧ is_int32 (JumpNum info).

(** ** A concrete environment

    A small, executable environment on which the definitions above are
    run: a user [alice], an ssh configuration with a host [loop] that names
    itself as its proxy jump and a host [broken] with a malformed entry,
    keys that are recognised by their contents, and a line-based
    known-hosts database with the behaviour the [knownhosts] package
    documents (no error on a match, [KeyError] with the known keys of the
    host on a mismatch, [KeyError] without keys for an unknown host). *)
Module Demo.

(** [strings.Split] for a one-character separator. *)
Fixpoint splitOn (sep : ascii) (s : string) : list string :=
  match s with
  | EmptyString => [""]
  | String c s' =>
    if Ascii.eqb c sep then "" :: splitOn sep s'
    else match splitOn sep s' with
         | [] => [String c ""]
         | word :: rest => String c word :: rest
         end
  end.

Definition nonEmpty (l : list string) : list string :=
  filter (λ s, s ≠ "") l.

Definition fields (s : string) : list string := nonEmpty (splitOn " " s).

(** One entry of a known-hosts file: host pattern, key type, key. *)
Definition parseLine (file : string) (line : string) : option (string * KnownKey) :=
  match fields line with
  | [host; type; blob] => Some (host, mkKnownKey (mkPublicKey type blob) file 0)
  | _ => None
  end.

Fixpoint parseLines (file : string) (lines : list string)
  : result (list (string * KnownKey)) :=
  match lines with
  | [] => inr []
  | line :: rest =>
    match parseLine file line, parseLines file rest with
    | _, inl err => inl err
    | None, _ => inl (Errorf "knownhosts: missing key type pattern" [])
    | Some entry, inr entries => inr (entry :: entries)
    end
  end.

Fixpoint readAll (fsys : gmap string string) (files : list string)
  : result (list (string * KnownKey)) :=
  match files with
  | [] => inr []
  | file :: rest =>
    match fsys !! file with
    | None => inl (PathError file)
    | Some data =>
      match parseLines file (nonEmpty (splitOn "010" data)), readAll fsys rest with
      | inl err, _ => inl err
      | _, inl err => inl err
      | inr entries, inr more => inr (entries ++ more)
      end
    end
  end.

Definition check (db : list (string * KnownKey)) : HostKeyCallbackFn :=
  λ hostname remote key,
    let known := snd <$> filter (λ entry, entry.1 = hostname) db in
    match known with
    | [] => Some (KeyError [])
    | _ =>
      if existsb (λ k, bool_decide (keyType (kkKey k) = keyType key
                                    ∧ keyMarshal (kkKey k) = keyMarshal key)) known
      then None else Some (KeyError known)
    end.

Definition newDB (fsys : gmap string string) (files : list string)
  : result HostKeyCallbackFn :=
  match readAll fsys files with
  | inl err => inl err
  | inr db => inr (check db)
  end.

Definition getStrict (hostPattern key : string) : result string :=
  if decide (hostPattern = "broken") then inl (Errorf "ssh_config: malformed entry" [])
  else if decide (key = "ProxyJump") then
    inr (if decide (hostPattern = "loop") then "loop" else "")
  else if decide (key = "Port") then
    inr (if decide (hostPattern = "web") then "2222" else "")
  else if decide (key = "UserKnownHostsFile") then inr "/home/alice/.ssh/known_hosts"
  else if decide (key = "GlobalKnownHostsFile") then inr "/etc/ssh/ssh_known_hosts"
  else if decide (key = "PreferredAuthentications") then inr "publickey,password"
  else inr "".

Definition serverKey : PublicKey := mkPublicKey "ssh-ed25519" "AAAAC3server".

Definition env : Env := {|
  user_Current := inr "alice";
  ExpandHomeDir := λ path, inr path;
  filepath_Split := λ path, ("/", path);
  os_MkdirAll := λ _, None;
  os_OpenFile := λ path,
    if decide (path = "/etc/ssh/ssh_known_hosts") then Some (PathError path) else None;
  file_WriteString := λ _ _, None;
  file_Close := λ _, None;
  ParseRawPrivateKey := λ data,
    if decide (data = "PLAIN KEY") then inr "key-1"
    else if decide (data = "ENCRYPTED KEY") then inl PassphraseMissingError
    else if decide (data = "ENCRYPTED KEY 2") then inl PassphraseMissingError
    else inl (Errorf "ssh: no key found" []);
  ParseRawPrivateKeyWithPassphrase := λ data passphrase,
    if decide (data = "ENCRYPTED KEY" ∧ passphrase = "opensesame") then inr "key-2"
    else if decide (data = "ENCRYPTED KEY 2" ∧ passphrase = "swordfish") then inr "key-3"
    else inl (Errorf "x509: decryption password incorrect" []);
  NewSignerFromKey := λ key, inr (KeySigner key);
  rsa_GenerateKey := inr "dummy";
  agent_Dial := λ sock,
    if decide (sock = "") then Some (Errorf "dial unix: missing address" []) else None;
  agent_Signers := λ _, [AgentSigner "agent-1"; AgentSigner "agent-2"];
  knownhosts_NewDB := λ fsys files,
    match newDB fsys files with
    | inl err => inl err
    | inr cb => inr (cb, λ _, [])
    end;
  xknownhosts_New := newDB;
  xknownhosts_Line := λ hosts key,
    strings_Join hosts "," +:+ " " +:+ keyType key +:+ " " +:+ keyMarshal key;
  xknownhosts_Normalize := λ host, host;
  GetStrict := getStrict;
  GetAll := λ _ _, [];
  TryTrimQuotes := λ s, s;
  strings_ToLower := λ s, s;
  strings_Split := λ s sep, if decide (sep = ",") then splitOn "," s else [s];
  strings_TrimSpace := λ s, s;
  strings_Fields := fields;
  authSockCommand_Output := inr "";
  Connections := ∅;
  ParseOpts := λ s, inr (mkSSHOpts s "" 0);
  net_Dial := λ _ _, None;
  ssh_NewClientConn := λ addr config,
    r ← HostKeyCallback config (HostKeyFiles config) addr addr serverKey;
    mret r.1;
|}.

(** A world with the user's known-hosts file [data], the human's replies
    [replies] and nothing cancelled. *)
Definition world (files : list (string * string)) (replies : list HumanReply) : World :=
  mkWorld (list_to_map files) replies [] [].

Definition confirm : HumanReply := Answer (mkResponse "confirm" "" true).
Definition decline : HumanReply := Answer (mkResponse "confirm" "" false).
Definition typed (text : string) : HumanReply := Answer (mkResponse "text" text false).

Definition keywords (identityFiles : list string) : ConnKeywords :=
  mkConnKeywords "alice" "example.org" "22" identityFiles false true true true
    ["publickey"; "password"] false "" []
    ["/home/alice/.ssh/known_hosts"; "/home/alice/.ssh/known_hosts2"] [].

Definition info : ConnectionDebugInfo :=
  mkDebugInfo None (mkSSHOpts "example.org" "alice" 22) 0.

Definition knownHosts : string := "/home/alice/.ssh/known_hosts".
Definition knownHosts2 : string := "/home/alice/.ssh/known_hosts2".

Definition oldKey : PublicKey := mkPublicKey "ssh-ed25519" "AAAAC3old".

(** A known-hosts line for [example.org] with [oldKey], and one for an
    unrelated host. *)
Definition exampleLine : string := "example.org ssh-ed25519 AAAAC3old
".
Definition otherLine : string := "other.org ssh-ed25519 AAAAC3other
".

(** The verifier [createHostKeyCallback] builds in world [w], if any. *)
Definition verifierIn (w : World) : option HostKeyVerifier :=
  match createHostKeyCallback env (keywords []) w with
  | (inr (v, _), _) => Some v
  | _ => None
  end.

(** Running the verifier built in [w] on the key [serverKey] presented by
    [example.org]. *)
Definition verify (w : World) : option (option error * list string * World) :=
  match verifierIn w with
  | Some v =>
      Some (waveHostKeyCallback env v (knownHostsFiles v) "example.org" "192.0.2.1:22"
              serverKey w)
  | None => None
  end.

(** The public-key probe for the identity files [identityFiles], which the
    server all rejects, with no agent. *)
Definition probe (identityFiles : list string) (w : World)
  : AuthOutcome * PubKeyState * World :=
  let '((callback, st0), w0) :=
    createPublicKeyCallback env (CancelCtx 0) (keywords identityFiles) [] None info w in
  retryPublicKeys (λ _, false) (length identityFiles) callback st0 w0.

End Demo.

(** ** Further parts of [sshclient.go] and of [wshutil/wshcommands.go] *)

(** [bytes.HasPrefix] and [bytes.Contains] on byte slices; an empty
    subslice is contained in every slice. *)
Fixpoint bytes_HasPrefix (s prefix : list Byte.byte) : bool :=
  match prefix, s with
  | [], _ => true
  | _ :: _, [] => false
  | p :: prefix', b :: s' => Byte.eqb p b && bytes_HasPrefix s' prefix'
  end.

Fixpoint bytes_Contains (b subslice : list Byte.byte) : bool :=
  bytes_HasPrefix b subslice
  || match b with
     | [] => false
     | _ :: b' => bytes_Contains b' subslice
     end.

(** [lineContainsMatch] *)
Fixpoint lineContainsMatch (line : list Byte.byte) (matches : list (list Byte.byte))
  : bool :=
  match matches with
  | [] => false
  | match_ :: matches' =>
    if bytes_Contains line match_ then true else lineContainsMatch line matches'
  end.

(** The request [promptChallengeQuestion] builds. *)
Definition challengeRequest (remoteName question : string) (echo : bool)
  : UserInputRequest :=
  mkRequest "text"
    ("Keyboard Interactive Authentication requested from connection  " +:+ "
" +:+ remoteName +:+ "

" +:+ question)
    "Keyboard Interactive Authentication" true echo.

(** The keys of [authMethodMap] and the values of [authMethodActiveMap] in
    [createClientConfig]. *)
Definition authMethodName (method : AuthMethod) : string :=
  match method with
  | RetryablePublicKeys _ _ _ => "publickey"
  | RetryableKeyboardInteractive _ _ => "keyboard-interactive"
  | RetryablePassword _ _ => "password"
  end.

Definition authMethodActive (sshKeywords : ConnKeywords) (authMethodName : string)
  : bool :=
  if decide (authMethodName = "publickey") then SshPubkeyAuthentication sshKeywords
  else if decide (authMethodName = "keyboard-interactive") then
    SshKbdInteractiveAuthentication sshKeywords && negb (SshBatchMode sshKeywords)
  else if decide (authMethodName = "password") then
    SshPasswordAuthentication sshKeywords && negb (SshBatchMode sshKeywords)
  else false.

(** The keywords [findSshConfigKeywords] looks up with [GetStrict] and
    whose lookup error it returns. *)
Definition strictKeywords : list string :=
  ["User"; "HostName"; "Port"; "BatchMode"; "PubkeyAuthentication";
   "PasswordAuthentication"; "KbdInteractiveAuthentication";
   "PreferredAuthentications"; "AddKeysToAgent"; "IdentityAgent"; "ProxyJump"].

(** The addresses a transport runs through, its own first; nothing for a
    [nil] client. *)
Definition clientChain (client : option Client) : list string :=
  match client with
  | None => []
  | Some c => clientAddr c :: clientVia c
  end.

(** Files only grow: what a file held in [w] is the beginning of what it
    holds in [w']. *)
Definition appendOnly (w w' : World) : Prop :=
  ∀ path data, fs w !! path = Some data →
    ∃ added, fs w' !! path = Some (data +:+ added).

(** The least fuel that covers every depth from [jumpNum] to the maximum. *)
Definition enoughFuel (jumpNum : Z) : nat :=
  (1 + Z.to_nat (SshProxyJumpMaxDepth + 1 - jumpNum))%nat.

(** [Demo.env] for the user [root]. *)
Definition rootEnv : Env := {|
  user_Current := inr "root";
  ExpandHomeDir := ExpandHomeDir Demo.env;
  filepath_Split := filepath_Split Demo.env;
  os_MkdirAll := os_MkdirAll Demo.env;
  os_OpenFile := os_OpenFile Demo.env;
  file_WriteString := file_WriteString Demo.env;
  file_Close := file_Close Demo.env;
  ParseRawPrivateKey := ParseRawPrivateKey Demo.env;
  ParseRawPrivateKeyWithPassphrase := ParseRawPrivateKeyWithPassphrase Demo.env;
  NewSignerFromKey := NewSignerFromKey Demo.env;
  rsa_GenerateKey := rsa_GenerateKey Demo.env;
  agent_Dial := agent_Dial Demo.env;
  agent_Signers := agent_Signers Demo.env;
  knownhosts_NewDB := knownhosts_NewDB Demo.env;
  xknownhosts_New := xknownhosts_New Demo.env;
  xknownhosts_Line := xknownhosts_Line Demo.env;
  xknownhosts_Normalize := xknownhosts_Normalize Demo.env;
  GetStrict := GetStrict Demo.env;
  GetAll := GetAll Demo.env;
  TryTrimQuotes := TryTrimQuotes Demo.env;
  strings_ToLower := strings_ToLower Demo.env;
  strings_Split := strings_Split Demo.env;
  strings_TrimSpace := strings_TrimSpace Demo.env;
  strings_Fields := strings_Fields Demo.env;
  authSockCommand_Output := authSockCommand_Output Demo.env;
  Connections := Connections Demo.env;
  ParseOpts := ParseOpts Demo.env;
  net_Dial := net_Dial Demo.env;
  ssh_NewClientConn := ssh_NewClientConn Demo.env;
|}.

(** *** [wshutil]: parsing a command map *)
Module Wshutil.

Definition CommandKey : string := "command".

Definition BlockCommand_Message : string := "message".
Definition BlockCommand_SetView : string := "setview".
Definition BlockCommand_SetMeta : string := "setmeta".
Definition BlockCommand_GetMeta : string := "getmeta".
Definition BlockCommand_Input : string := "controller:input".
Definition BlockCommand_AppendBlockFile : string := "blockfile:append".
Definition BlockCommand_AppendIJson : string := "blockfile:appendijson".

(** A Go value of type [any] as [encoding/json] produces it. *)
#[warnings="-register-all"] Inductive any :=
| AnyNil
| AnyBool (b : bool)
| AnyNumber (n : Z)
| AnyString (s : string)
| AnyArray (elems : list any)
| AnyObject (fields : list (string * any)).

(** The struct types of the commands ([reflect.Type] values of
    [CommandToTypeMap]). *)
Inductive CommandType :=
| TBlockInputCommand
| TBlockSetViewCommand
| TBlockSetMetaCommand
| TBlockGetMetaCommand
| TBlockMessageCommand
| TBlockAppendFileCommand
| TBlockAppendIJsonCommand.

Definition CommandToTypeMap : gmap string CommandType :=
  <[BlockCommand_Input := TBlockInputCommand]>
  (<[BlockCommand_SetView := TBlockSetViewCommand]>
  (<[BlockCommand_SetMeta := TBlockSetMetaCommand]>
  (<[BlockCommand_GetMeta := TBlockGetMetaCommand]>
  (<[BlockCommand_Message := TBlockMessageCommand]>
  (<[BlockCommand_AppendBlockFile := TBlockAppendFileCommand]>
  (<[BlockCommand_AppendIJson := TBlockAppendIJsonCommand]> ∅)))))).

Section Commands.
(** [shellexec.TermSize], declared in another package. *)
Context (TermSize : Type).

Record BlockInputCommand := mkBlockInputCommand {
  ic_Command : string;
  ic_InputData64 : string;
  ic_SigName : string;
  ic_TermSize : option TermSize;
}.

Record BlockSetViewCommand := mkBlockSetViewCommand {
  svc_Command : string;
  svc_View : string;
}.

Record BlockGetMetaCommand := mkBlockGetMetaCommand {
  gmc_Command : string;
  gmc_RpcId : string;
  gmc_OID : string;
}.

Record BlockSetMetaCommand := mkBlockSetMetaCommand {
  smc_Command : string;
  smc_OID : string;
  smc_Meta : gmap string any;
}.

Record BlockMessageCommand := mkBlockMessageCommand {
  bmc_Command : string;
  bmc_Message : string;
}.

Record BlockAppendFileCommand := mkBlockAppendFileCommand {
  bwc_Command : string;
  bwc_FileName : string;
  bwc_Data : list Byte.byte;
}.

Record BlockAppendIJsonCommand := mkBlockAppendIJsonCommand {
  bjc_Command : string;
  bjc_FileName : string;
  bjc_Data : gmap string any;
}.

(** The interface [BlockCommand]: a pointer to one of the structs. *)
Inductive BlockCommand :=
| InputCommand (ic : BlockInputCommand)
| SetViewCommand (svc : BlockSetViewCommand)
| GetMetaCommand (gmc : BlockGetMetaCommand)
| SetMetaCommand (smc : BlockSetMetaCommand)
| MessageCommand (bmc : BlockMessageCommand)
| AppendFileCommand (bwc : BlockAppendFileCommand)
| AppendIJsonCommand (bwc : BlockAppendIJsonCommand).

(** The [GetCommand] methods. *)
Definition GetCommand (cmd : BlockCommand) : string :=
  match cmd with
  | InputCommand _ => BlockCommand_Input
  | SetViewCommand _ => BlockCommand_SetView
  | GetMetaCommand _ => BlockCommand_GetMeta
  | SetMetaCommand _ => BlockCommand_SetMeta
  | MessageCommand _ => BlockCommand_Message
  | AppendFileCommand _ => BlockCommand_AppendBlockFile
  | AppendIJsonCommand _ => BlockCommand_AppendIJson
  end.

(** [reflect.TypeOf] of the struct a command points to. *)
Definition commandType (cmd : BlockCommand) : CommandType :=
  match cmd with
  | InputCommand _ => TBlockInputCommand
  | SetViewCommand _ => TBlockSetViewCommand
  | GetMetaCommand _ => TBlockGetMetaCommand
  | SetMetaCommand _ => TBlockSetMetaCommand
  | MessageCommand _ => TBlockMessageCommand
  | AppendFileCommand _ => TBlockAppendFileCommand
  | AppendIJsonCommand _ => TBlockAppendIJsonCommand
  end.

(** [encoding/json]: [json.Marshal] of a map and [json.Unmarshal] into a
    fresh struct of each command type. *)
Record Json := mkJson {
  json_Marshal : gmap string any → result string;
  unmarshalInput : string → result BlockInputCommand;
  unmarshalSetView : string → result BlockSetViewCommand;
  unmarshalGetMeta : string → result BlockGetMetaCommand;
  unmarshalSetMeta : string → result BlockSetMetaCommand;
  unmarshalMessage : string → result BlockMessageCommand;
  unmarshalAppendFile : string → result BlockAppendFileCommand;
  unmarshalAppendIJson : string → result BlockAppendIJsonCommand;
}.

Definition asCommand {A} (wrap : A → BlockCommand) (r : result A) : result BlockCommand :=
  match r with
  | inl err => inl err
  | inr a => inr (wrap a)
  end.

(** [reflect.New(rtype).Interface()] followed by [json.Unmarshal]. *)
Definition json_Unmarshal (J : Json) (mapJson : string) (rtype : CommandType)
  : result BlockCommand :=
  match rtype with
  | TBlockInputCommand => asCommand InputCommand (unmarshalInput J mapJson)
  | TBlockSetViewCommand => asCommand SetViewCommand (unmarshalSetView J mapJson)
  | TBlockSetMetaCommand => asCommand SetMetaCommand (unmarshalSetMeta J mapJson)
  | TBlockGetMetaCommand => asCommand GetMetaCommand (unmarshalGetMeta J mapJson)
  | TBlockMessageCommand => asCommand MessageCommand (unmarshalMessage J mapJson)
  | TBlockAppendFileCommand => asCommand AppendFileCommand (unmarshalAppendFile J mapJson)
  | TBlockAppendIJsonCommand => asCommand AppendIJsonCommand (unmarshalAppendIJson J mapJson)
  end.

(** [ParseCmdMap] *)
Definition ParseCmdMap (J : Json) (cmdMap : gmap string any) : result BlockCommand :=
  match cmdMap !! CommandKey with
  | Some (AnyString cmdType) =>
    match json_Marshal J cmdMap with
    | inl err => inl (Errorf "error marshalling command map: %w" [FErr err])
    | inr mapJson =>
      match CommandToTypeMap !! cmdType with
      | None => inl (Errorf "unknown command type %q" [FStr cmdType])
      | Some rtype =>
        match json_Unmarshal J mapJson rtype with
        | inl err => inl (Errorf "error unmarshalling command: %w" [FErr err])
        | inr cmd => inr cmd
        end
      end
    end
  | _ => inl (Errorf "no %s field in command map" [FStr CommandKey])
  end.

End Commands.

(** A decoder for examples: it accepts the JSON text of a message
    command and nothing else. *)
Definition demoJson : Json unit := {|
  json_Marshal := λ cmdMap,
    match cmdMap !! "message" with
    | Some (AnyString text) => inr text
    | _ => inl (Errorf "json: unsupported value" [])
    end;
  unmarshalInput := λ _, inl (Errorf "json: cannot unmarshal" []);
  unmarshalSetView := λ _, inl (Errorf "json: cannot unmarshal" []);
  unmarshalGetMeta := λ _, inl (Errorf "json: cannot unmarshal" []);
  unmarshalSetMeta := λ _, inl (Errorf "json: cannot unmarshal" []);
  unmarshalMessage := λ text, inr (mkBlockMessageCommand "message" text);
  unmarshalAppendFile := λ _, inl (Errorf "json: cannot unmarshal" []);
  unmarshalAppendIJson := λ _, inl (Errorf "json: cannot unmarshal" []);
|}.

End Wshutil.

(** The known-hosts file [file] cannot be opened for writing: creating its
    directory or opening it fails, with an error of the operating system
    (not a cancellation). *)
Definition cannotOpen (E : Env) (file : string) : Prop :=
  ∃ err,
    (∀ cause, err ≠ UserInputCancelError cause)
    ∧ (os_MkdirAll E (filepath_Split E file).1 = Some err
       ∨ (os_MkdirAll E (filepath_Split E file).1 = None
          ∧ os_OpenFile E file = Some err)).

(** ** Outcomes of the public-key callback and of the write loops *)

(** What a call of the public-key callback returns for the identity file
    it took off the queue, whose contents are [privateKey].  A key that
    parses gives its signer; an encrypted key gives, after a prompt, the
    signer of the decrypted key, the dummy signer (batch mode, wrong
    passphrase) or the failure of the prompt; anything else gives the dummy
    signer. *)
Definition OfferOf (E : Env) (debugInfo : ConnectionDebugInfo) (privateKey : string)
    (r : result (list Signer)) : Prop :=
  match ParseRawPrivateKey E privateKey with
  | inr unencryptedPrivateKey =>
      r = match NewSignerFromKey E unencryptedPrivateKey with
          | inr signer => inr [signer]
          | inl _ => createDummySigner E
          end
  | inl PassphraseMissingError =>
      r = createDummySigner E
      ∨ (∃ cause, r = inl (ConnectionError debugInfo (UserInputCancelError cause)))
      ∨ (∃ passphrase unencryptedPrivateKey signer,
           ParseRawPrivateKeyWithPassphrase E privateKey passphrase
           = inr unencryptedPrivateKey
           ∧ NewSignerFromKey E unencryptedPrivateKey = inr signer
           ∧ r = inr [signer])
  | inl _ => r = createDummySigner E
  end.





(** ** The hops of a connection *)

(** The keywords [ConnectToClient] merges for the hop to [opts]: the
    caller's flags with user, host name and port taken from [opts], the
    keywords of the configuration files and the saved keywords of the
    connection. *)
Definition hopKeywords (E : Env) (opts : SSHOpts)
    (connFlags sshConfigKeywords : ConnKeywords) : result ConnKeywords :=
  let connFlags :=
    {| SshUser := SSHUser opts;
       SshHostName := SSHHost opts;
       SshPort := pretty (SSHPort opts);
       SshIdentityFile := SshIdentityFile connFlags;
       SshBatchMode := SshBatchMode connFlags;
       SshPubkeyAuthentication := SshPubkeyAuthentication connFlags;
       SshPasswordAuthentication := SshPasswordAuthentication connFlags;
       SshKbdInteractiveAuthentication := SshKbdInteractiveAuthentication connFlags;
       SshPreferredAuthentications := SshPreferredAuthentications connFlags;
       SshAddKeysToAgent := SshAddKeysToAgent connFlags;
       SshIdentityAgent := SshIdentityAgent connFlags;
       SshProxyJump := SshProxyJump connFlags;
       SshUserKnownHostsFile := SshUserKnownHostsFile connFlags;
       SshGlobalKnownHostsFile := SshGlobalKnownHostsFile connFlags |} in
  let rawName := SSHOpts_String opts in
  let savedKeywords := default emptyConnKeywords (Connections E !! rawName) in
  combineSshKeywords (user_Current E) connFlags sshConfigKeywords (Some savedKeywords).

(** The transports of a hop that was called with the transport [start]
    and whose proxy jumps are [proxies]: [start] itself, and every client
    that a connection to one of the proxies returned, made through an
    earlier transport of the hop. *)
Inductive Transport (E : Env) (connCtx : Context) (start : option Client)
    (proxies : list string) : option Client → Prop :=
| transport_start : Transport E connCtx start proxies start
| transport_jump proxyName proxyOpts fuel previous jumpNum w client jumpNum' w' :
    proxyName ∈ proxies →
    ParseOpts E proxyName = inr proxyOpts →
    Transport E connCtx start proxies previous →
    ConnectToClient E fuel connCtx proxyOpts previous jumpNum emptyConnKeywords w
      = (Some (client, jumpNum', None), w') →
    Transport E connCtx start proxies client.

(** A step of the hop itself fails: the call
    [ConnectToClient connCtx opts start jumpNum connFlags] fails with the
    error [cause] of one of its own steps while [via] is its current
    transport. *)
Inductive StepFails (E : Env) (connCtx : Context) (opts : SSHOpts)
    (start : option Client) (jumpNum : Z) (connFlags : ConnKeywords)
  : option Client → error → Prop :=
| step_depth :
    jumpNum > SshProxyJumpMaxDepth →
    StepFails E connCtx opts start jumpNum connFlags start
      (Errorf "ProxyJump %d exceeds Wave's max depth of %d"
         [FInt jumpNum; FInt SshProxyJumpMaxDepth])
| step_findSshConfigKeywords w w' cause :
    findSshConfigKeywords E (SSHHost opts) w = (inl cause, w') →
    StepFails E connCtx opts start jumpNum connFlags start cause
| step_combineSshKeywords w w' sshConfigKeywords cause :
    findSshConfigKeywords E (SSHHost opts) w = (inr sshConfigKeywords, w') →
    hopKeywords E opts connFlags sshConfigKeywords = inl cause →
    StepFails E connCtx opts start jumpNum connFlags start cause
| step_ParseOpts w w' sshConfigKeywords sshKeywords via proxyName cause :
    findSshConfigKeywords E (SSHHost opts) w = (inr sshConfigKeywords, w') →
    hopKeywords E opts connFlags sshConfigKeywords = inr sshKeywords →
    Transport E connCtx start (SshProxyJump sshKeywords) via →
    proxyName ∈ SshProxyJump sshKeywords →
    ParseOpts E proxyName = inl cause →
    StepFails E connCtx opts start jumpNum connFlags via cause
| step_createClientConfig w w' sshConfigKeywords sshKeywords via w2 w3 cause :
    findSshConfigKeywords E (SSHHost opts) w = (inr sshConfigKeywords, w') →
    hopKeywords E opts connFlags sshConfigKeywords = inr sshKeywords →
    Transport E connCtx start (SshProxyJump sshKeywords) via →
    createClientConfig E connCtx sshKeywords (mkDebugInfo via opts jumpNum) w2
      = (inl cause, w3) →
    StepFails E connCtx opts start jumpNum connFlags via cause
| step_connectInternal w w' sshConfigKeywords sshKeywords via w2 clientConfig w3 w4 cause :
    findSshConfigKeywords E (SSHHost opts) w = (inr sshConfigKeywords, w') →
    hopKeywords E opts connFlags sshConfigKeywords = inr sshKeywords →
    Transport E connCtx start (SshProxyJump sshKeywords) via →
    createClientConfig E connCtx sshKeywords (mkDebugInfo via opts jumpNum) w2
      = (inr clientConfig, w3) →
    connectInternal E connCtx (SshHostName sshKeywords +:+ ":" +:+ SshPort sshKeywords)
      clientConfig via w3 = (inl cause, w4) →
    StepFails E connCtx opts start jumpNum connFlags via cause.

(** The call [ConnectToClient connCtx opts start jumpNum connFlags] fails
    with [err] and the jump number [j]: a step of this hop failed, and
    [err] wraps its error with the debug information of this hop; or the
    connection to one of its proxy jumps, a hop at a greater depth, failed
    with [err] and [j]. *)
Inductive FailsWith (E : Env) (connCtx : Context)
  : SSHOpts → option Client → Z → ConnKeywords → Z → error → Prop :=
| fails_here opts start jumpNum connFlags via cause :
    StepFails E connCtx opts start jumpNum connFlags via cause →
    FailsWith E connCtx opts start jumpNum connFlags jumpNum
      (ConnectionError (mkDebugInfo via opts jumpNum) cause)
| fails_deeper opts start jumpNum connFlags w w' sshConfigKeywords sshKeywords
    proxyName proxyOpts via jumpNum' j err :
    findSshConfigKeywords E (SSHHost opts) w = (inr sshConfigKeywords, w') →
    hopKeywords E opts connFlags sshConfigKeywords = inr sshKeywords →
    proxyName ∈ SshProxyJump sshKeywords →
    ParseOpts E proxyName = inr proxyOpts →
    Transport E connCtx start (SshProxyJump sshKeywords) via →
    (jumpNum < jumpNum')%Z →
    FailsWith E connCtx proxyOpts via jumpNum' emptyConnKeywords j err →
    FailsWith E connCtx opts start jumpNum connFlags j err.

(** [Demo.env] with a further host, [behind], that is reached through the
    proxy jump [web]. *)
Definition jumpEnv : Env := {|
  user_Current := user_Current Demo.env;
  ExpandHomeDir := ExpandHomeDir Demo.env;
  filepath_Split := filepath_Split Demo.env;
  os_MkdirAll := os_MkdirAll Demo.env;
  os_OpenFile := os_OpenFile Demo.env;
  file_WriteString := file_WriteString Demo.env;
  file_Close := file_Close Demo.env;
  ParseRawPrivateKey := ParseRawPrivateKey Demo.env;
  ParseRawPrivateKeyWithPassphrase := ParseRawPrivateKeyWithPassphrase Demo.env;
  NewSignerFromKey := NewSignerFromKey Demo.env;
  rsa_GenerateKey := rsa_GenerateKey Demo.env;
  agent_Dial := agent_Dial Demo.env;
  agent_Signers := agent_Signers Demo.env;
  knownhosts_NewDB := knownhosts_NewDB Demo.env;
  xknownhosts_New := xknownhosts_New Demo.env;
  xknownhosts_Line := xknownhosts_Line Demo.env;
  xknownhosts_Normalize := xknownhosts_Normalize Demo.env;
  GetStrict := λ hostPattern key,
    if decide (hostPattern = "behind" ∧ key = "ProxyJump") then inr "web"
    else GetStrict Demo.env hostPattern key;
  GetAll := GetAll Demo.env;
  TryTrimQuotes := TryTrimQuotes Demo.env;
  strings_ToLower := strings_ToLower Demo.env;
  strings_Split := strings_Split Demo.env;
  strings_TrimSpace := strings_TrimSpace Demo.env;
  strings_Fields := strings_Fields Demo.env;
  authSockCommand_Output := authSockCommand_Output Demo.env;
  Connections := Connections Demo.env;
  ParseOpts := ParseOpts Demo.env;
  net_Dial := net_Dial Demo.env;
  ssh_NewClientConn := ssh_NewClientConn Demo.env;
|}.

(** * Properties *)

Ltac unfoldM :=
  unfold bindMR, mbind, M_bind, mret, M_ret, emit, getWorld, fsCreate, fsAppend in *.

(** ** Configuration merge *)

(** C4: the port [combineSshKeywords] settles on is the caller's port when
    that is neither "0" nor "22"; otherwise the port of the config file when
    that is set and not "22"; otherwise "22".  So a caller port of "0" or
    "22" never overrides a non-default port of the config file. *)
Theorem combineSshKeywords_port (osUser : result string)
    (userProvidedOpts configKeywords : ConnKeywords)
    (savedKeywords : option ConnKeywords) (sshKeywords : ConnKeywords) :
  combineSshKeywords osUser userProvidedOpts configKeywords savedKeywords
    = inr sshKeywords →
  let caller := SshPort userProvidedOpts in
  let config := SshPort configKeywords in
  (caller ≠ "0" → caller ≠ "22" → SshPort sshKeywords = caller)
  ∧ (caller = "0" ∨ caller = "22" → config ≠ "" → config ≠ "22" →
     SshPort sshKeywords = config)
  ∧ (caller = "0" ∨ caller = "22" → config = "" ∨ config = "22" →
     SshPort sshKeywords = "22").
Proof.
  unfold combineSshKeywords. intros Hc.
  destruct (if decide (SshUser userProvidedOpts ≠ "") then _ else _)
    as [err|user]; [discriminate|].
  injection Hc as <-. cbn [SshPort].
  destruct (decide (SshPort userProvidedOpts ≠ "0" ∧ SshPort userProvidedOpts ≠ "22"))
    as [[Hzero Hdefault]|Hcaller].
  - split_and!; [done|intros [?|?]; congruence..].
  - destruct (decide (SshPort configKeywords ≠ "" ∧ SshPort configKeywords ≠ "22"))
      as [[Hset Hnondefault]|Hconfig].
    + split_and!; [intros; by destruct Hcaller|done|intros _ [?|?]; congruence].
    + split_and!; [intros; by destruct Hcaller|intros; by destruct Hconfig|done].
Qed.

Lemma combineSshKeywords_port_witness :
  combineSshKeywords (inr "alice")
    (mkConnKeywords "" "web" "22" [] false false false false [] false "" [] [] [])
    (mkConnKeywords "" "" "2222" [] false false false false [] false "" [] [] [])
    None
  = inr (mkConnKeywords "alice" "web" "2222" [] false false false false [] false "" [] [] [])
  ∧ SshPort (mkConnKeywords "alice" "web" "2222" [] false false false false [] false "" [] [] [])
    = "2222".
Proof.
  split; [reflexivity|].
  refine (proj1 (proj2 (combineSshKeywords_port (inr "alice")
    (mkConnKeywords "" "web" "22" [] false false false false [] false "" [] [] [])
    (mkConnKeywords "" "" "2222" [] false false false false [] false "" [] [] [])
    None _ _)) _ _ _).
  - reflexivity.
  - right. reflexivity.
  - discriminate.
  - discriminate.
Defined.

Section Proofs.
Context (E : Env).

(** ** Host keys *)

(** C1: when the database reports a mismatch (a [KeyError] that lists the
    keys known for the host), the verifier returns the fatal "remote host
    identification has changed" error; it shows no prompt, consumes no
    reply of the human, writes no file and leaves [knownHostsFiles] as it
    was.  The only action is the warning that is logged. *)
Theorem changed_host_key_is_fatal (v : HostKeyVerifier) (files : list string)
    (hostname remote : string) (key : PublicKey) (want : list KnownKey) (w : World) :
  basicCallback v hostname remote key = Some (KeyError want) →
  want ≠ [] →
  ∃ w',
    waveHostKeyCallback E v files hostname remote key w
      = ((Some (Errorf "remote host identification has changed" []), files), w')
    ∧ promptsOf (trace w') = promptsOf (trace w)
    ∧ trace w' = trace w ++ [EvLog (hostChangedMessage files want key)]
    ∧ human w' = human w
    ∧ fs w' = fs w.
Proof.
  intros Hcb Hwant. unfold waveHostKeyCallback. rewrite Hcb.
  destruct want as [|k want]; [done|].
  unfoldM. simpl. eexists. split; [reflexivity|]. simpl.
  repeat split. unfold promptsOf. rewrite omap_app. simpl. by rewrite app_nil_r.
Qed.

(** C9: when no known-hosts file is left after the home directory was
    expanded (in the global files for [root], in the user files followed by
    the global files otherwise), [createHostKeyCallback] returns an error
    and no verifier, and does nothing else. *)
Theorem createHostKeyCallback_no_files (sshKeywords : ConnKeywords) (w : World) :
  (∀ osUser, user_Current E = inr osUser →
     expandKnownHostsFiles E
       (if decide (osUser = "root") then SshGlobalKnownHostsFile sshKeywords
        else SshUserKnownHostsFile sshKeywords ++ SshGlobalKnownHostsFile sshKeywords)
     = []) →
  (∃ err, createHostKeyCallback E sshKeywords w = (inl err, w))
  ∧ (∀ osUser, user_Current E = inr osUser →
       createHostKeyCallback E sshKeywords w
       = (inl (Errorf "no known_hosts files provided by ssh. defaults are overridden" []), w)).
Proof.
  intros Hempty. unfold createHostKeyCallback.
  destruct (user_Current E) as [err|osUser] eqn:Huser.
  - split; [by eexists|]. intros ? [=].
  - specialize (Hempty osUser eq_refl). rewrite Hempty. simpl.
    split; [by eexists|]. by intros ? _.
Qed.

(** The database loop ends within as many iterations as there are files:
    the fuel [createHostKeyCallback] gives it is never used up. *)
Lemma loadKnownHosts_total fuel :
  ∀ fsys knownHostsFiles unreadableFiles,
    (length knownHostsFiles ≤ fuel)%nat →
    is_Some (loadKnownHosts E fuel fsys knownHostsFiles unreadableFiles).
Proof.
  induction fuel as [|fuel IH]; intros fsys files unreadable Hfuel.
  - destruct files; [by eexists|cbn in Hfuel; lia].
  - destruct files as [|file files]; [by eexists|].
    cbn [loadKnownHosts].
    destruct (knownhosts_NewDB E fsys (file :: files)) as [err|db]; [|by eexists].
    destruct err; try by eexists.
    case_decide; [by eexists|]. apply IH. cbn [length] in *. lia.
Qed.

(** Every identity file that made it into the queue has its contents in
    [existingKeys]: the lookup in the callback cannot miss. *)
Lemma readIdentityFiles_keys fsys files identityFile :
  identityFile ∈ (readIdentityFiles E fsys files).2 →
  is_Some ((readIdentityFiles E fsys files).1 !! identityFile).
Proof.
  unfold readIdentityFiles.
  assert (Hfold : ∀ acc : gmap string string * list string,
    (∀ f, f ∈ acc.2 → is_Some (acc.1 !! f)) →
    ∀ f, f ∈ (foldl (readIdentityFile E fsys) acc files).2 →
         is_Some ((foldl (readIdentityFile E fsys) acc files).1 !! f)).
  { induction files as [|file files IH]; intros acc Hacc; cbn [foldl]; [done|].
    apply IH. unfold readIdentityFile.
    destruct (ExpandHomeDir E file) as [err|filePath]; [done|].
    destruct (fsys !! filePath) as [privateKey|]; [|done].
    cbn [fst snd]. intros f [Hf|Hf%list_elem_of_singleton]%elem_of_app.
    - destruct (decide (file = f)) as [->|Hne].
      + rewrite lookup_insert_eq. by eexists.
      + rewrite lookup_insert_ne by done. by apply Hacc.
    - subst f. rewrite lookup_insert_eq. by eexists. }
  apply Hfold. cbn. intros f Hf. by apply elem_of_nil in Hf.
Qed.

(** The queue holds the readable identity files in the configured order. *)
Lemma readIdentityFiles_sublist fsys files :
  sublist (readIdentityFiles E fsys files).2 files.
Proof.
  unfold readIdentityFiles.
  assert (Hfold : ∀ acc : gmap string string * list string,
    ∃ l, (foldl (readIdentityFile E fsys) acc files).2 = acc.2 ++ l ∧ sublist l files).
  { induction files as [|file files IH]; intros acc; cbn [foldl].
    - exists []. by rewrite app_nil_r.
    - destruct (IH (readIdentityFile E fsys acc file)) as (l & -> & Hsub).
      unfold readIdentityFile.
      destruct (ExpandHomeDir E file) as [err|filePath];
        [exists l; split; [done|by apply sublist_cons]|].
      destruct (fsys !! filePath) as [privateKey|];
        [|exists l; split; [done|by apply sublist_cons]].
      exists (file :: l). cbn [fst snd]. rewrite <- app_assoc.
      split; [done|by apply sublist_skip]. }
  destruct (Hfold (∅, [])) as (l & -> & Hsub). done.
Qed.

(** ** Proxy jumps: the depth check *)

Lemma ConnectToClient_guard fuel connCtx opts currentClient jumpNum connFlags w :
  jumpNum > SshProxyJumpMaxDepth →
  ConnectToClient E (S fuel) connCtx opts currentClient jumpNum connFlags w
  = (Some (None, jumpNum, Some (depthExceeded currentClient opts jumpNum)), w).
Proof.
  intros Hdepth. cbn [ConnectToClient]. by rewrite decide_True.
Qed.


(** ** Proxy jumps: what a call returns *)

(** An invariant [I] of [debugInfo] and [jumpNum] that every successful
    recursive call re-establishes holds when the loop ends normally, and a
    property [P] of the returned jump number and error that the failures of
    [ParseOpts] and of the recursive call have holds when the loop
    returns. *)
Lemma proxyJumpLoop_inv
    (connect : SSHOpts → option Client → Z → ConnKeywords → M (option ConnectResult))
    (I : ConnectionDebugInfo → Z → Prop) (P : Z → error → Prop) :
  (∀ info j proxyName err,
     I info j → ParseOpts E proxyName = inl err →
     P (JumpNum info) (ConnectionError info err)) →
  (∀ info j proxyOpts w client j' err w',
     I info j →
     connect proxyOpts (CurrentClient info) (nextJump j) emptyConnKeywords w
       = (Some (client, j', err), w') →
     match err with
     | Some err => P j' err
     | None => I (mkDebugInfo client (NextOpts info) (JumpNum info)) j'
     end) →
  ∀ proxies info j w r w',
    I info j →
    proxyJumpLoop E connect info proxies j w = (Some r, w') →
    match r with
    | inl (j', err) => P j' err
    | inr (info', j') => I info' j'
    end.
Proof.
  intros Hparse Hconnect proxies.
  induction proxies as [|proxyName proxies IH]; intros info j w r w' Hinv Hloop.
  - cbn in Hloop. injection Hloop as <- <-. done.
  - cbn [proxyJumpLoop] in Hloop.
    destruct (ParseOpts E proxyName) as [err|proxyOpts] eqn:Hp.
    + injection Hloop as <- <-. by eapply Hparse.
    + unfoldM.
      destruct (connect proxyOpts (CurrentClient info) (nextJump j) emptyConnKeywords w)
        as [[[[client j'] [err|]]|] w1] eqn:Hc; [| |done].
      * injection Hloop as <- <-. by apply (Hconnect _ _ _ _ _ _ _ _ Hinv Hc).
      * eapply IH; [|exact Hloop]. by apply (Hconnect _ _ _ _ _ _ _ _ Hinv Hc).
Qed.

(** The ways a call of [ConnectToClient] that passed the depth check ends,
    in terms of the loop and the steps after it. *)
Lemma ConnectToClient_inv fuel connCtx opts currentClient jumpNum connFlags w r w' :
  ConnectToClient E (S fuel) connCtx opts currentClient jumpNum connFlags w = (Some r, w') →
  let info := mkDebugInfo currentClient opts jumpNum in
  (jumpNum > SshProxyJumpMaxDepth
   ∧ r = (None, jumpNum, Some (depthExceeded currentClient opts jumpNum)))
  ∨ ((jumpNum ≤ SshProxyJumpMaxDepth)%Z
     ∧ ((∃ err, FailsAt E connCtx info err
                ∧ r = (None, jumpNum, Some (ConnectionError info err)))
        ∨ ∃ sshKeywords w1,
            (∃ j err,
               proxyJumpLoop E (ConnectToClient E fuel connCtx) info
                 (SshProxyJump sshKeywords) jumpNum w1 = (Some (inl (j, err)), w')
               ∧ r = (None, j, Some err))
            ∨ (∃ info' j w2,
                 proxyJumpLoop E (ConnectToClient E fuel connCtx) info
                   (SshProxyJump sshKeywords) jumpNum w1 = (Some (inr (info', j)), w2)
                 ∧ ((∃ err, FailsAt E connCtx info' err
                            ∧ r = (None, JumpNum info', Some (ConnectionError info' err)))
                    ∨ ∃ client, r = (Some client, JumpNum info', None))))).
Proof.
  intros Hcall info. cbn [ConnectToClient] in Hcall. fold info in Hcall.
  destruct (decide (jumpNum > SshProxyJumpMaxDepth)) as [Hdepth|Hdepth].
  { left. injection Hcall as <- <-. done. }
  right. split; [lia|]. unfoldM.
  destruct (findSshConfigKeywords E (SSHHost opts) w) as [[err|config] w1] eqn:Hfind.
  { left. injection Hcall as <- <-. eexists. split; [|done].
    by eapply (fail_findSshConfigKeywords _ _ info). }
  match type of Hcall with
  | context [combineSshKeywords ?a ?b ?c ?d] =>
      destruct (combineSshKeywords a b c d) as [err|sshKeywords] eqn:Hcombine
  end.
  { left. injection Hcall as <- <-. eexists. split; [|done].
    by eapply fail_combineSshKeywords. }
  right. exists sshKeywords, w1.
  destruct (proxyJumpLoop E (ConnectToClient E fuel connCtx) info
              (SshProxyJump sshKeywords) jumpNum w1)
    as [[[[j err]|[info' j]]|] w2] eqn:Hloop; [| |done].
  { left. injection Hcall as <- <-. by exists j, err. }
  right. exists info', j, w2. split; [done|].
  destruct (createClientConfig E connCtx sshKeywords info' w2)
    as [[err|clientConfig] w3] eqn:Hconfig.
  { left. injection Hcall as <- <-. eexists. split; [|done].
    by eapply fail_createClientConfig. }
  match type of Hcall with
  | context [connectInternal E connCtx ?addr clientConfig ?c w3] =>
      destruct (connectInternal E connCtx addr clientConfig c w3)
        as [[err|client] w4] eqn:Hconnect
  end.
  { left. injection Hcall as <- <-. eexists. split; [|done].
    by eapply fail_connectInternal. }
  right. injection Hcall as <- <-. by eexists.
Qed.

Lemma nextJump_spec jumpNum :
  is_int32 jumpNum →
  nextJump jumpNum = Z.min (jumpNum + 1) MaxInt32
  ∧ is_int32 (nextJump jumpNum)
  ∧ (jumpNum ≤ nextJump jumpNum)%Z.
Proof.
  unfold is_int32, nextJump, int32_add, wrap32, MinInt32, MaxInt32. intros Hrange.
  destruct (decide (jumpNum < 2147483647)) as [Hlt|Hge].
  - replace ((jumpNum + 1 + 2 ^ 31) `mod` 2 ^ 32) with (jumpNum + 1 + 2 ^ 31)
      by (symmetry; apply Z.mod_small; lia).
    lia.
  - lia.
Qed.

(** What every returning call returns: a jump number in range and not
    below the one it was called with; on success that very number; on
    failure no client and a wrapped error. *)
Lemma ConnectToClient_returns fuel :
  ∀ connCtx opts currentClient jumpNum connFlags w client j err w',
    is_int32 jumpNum →
    ConnectToClient E fuel connCtx opts currentClient jumpNum connFlags w
      = (Some (client, j, err), w') →
    is_int32 j ∧ (jumpNum ≤ j)%Z
    ∧ match err with
      | None => j = jumpNum ∧ (jumpNum ≤ SshProxyJumpMaxDepth)%Z
      | Some err => client = None ∧ WrappedAt E connCtx opts jumpNum err
      end.
Proof.
  induction fuel as [|fuel IH];
    intros connCtx opts currentClient jumpNum connFlags w client j err w' Hrange Hcall;
    [discriminate|].
  apply ConnectToClient_inv in Hcall.
  set (info := mkDebugInfo currentClient opts jumpNum) in Hcall.
  assert (Hhere : ∀ info' cause,
    NextOpts info' = opts → JumpNum info' = jumpNum → FailsAt E connCtx info' cause →
    WrappedAt E connCtx opts jumpNum (ConnectionError info' cause)).
  { intros info' cause Hopts Hjump Hfail. exists info', cause.
    split_and!; [done|done|by left|by rewrite Hjump]. }
  destruct Hcall as [[Hdepth [= -> -> ->]]|[Hdepth Hcall]].
  { split_and!; [done|lia|done|].
    apply (Hhere info); [done..|]. by apply (fail_depth _ _ info). }
  assert (Hloop : ∀ sshKeywords w1 r w2,
    proxyJumpLoop E (ConnectToClient E fuel connCtx) info
      (SshProxyJump sshKeywords) jumpNum w1 = (Some r, w2) →
    match r with
    | inl (j', err) => is_int32 j' ∧ (jumpNum ≤ j')%Z ∧ WrappedAt E connCtx opts jumpNum err
    | inr (info', j') => NextOpts info' = opts ∧ JumpNum info' = jumpNum
                         ∧ is_int32 j' ∧ (jumpNum ≤ j')%Z
    end).
  { intros sshKeywords w1 r w2.
    apply (proxyJumpLoop_inv (ConnectToClient E fuel connCtx)
      (λ info' j', NextOpts info' = opts ∧ JumpNum info' = jumpNum
                   ∧ is_int32 j' ∧ (jumpNum ≤ j')%Z)
      (λ j' err, is_int32 j' ∧ (jumpNum ≤ j')%Z ∧ WrappedAt E connCtx opts jumpNum err)).
    - intros info' j' proxyName perr (Hopts & Hjump & _) Hparse.
      rewrite Hjump. split_and!; [done|lia|].
      apply Hhere; [done..|]. by eapply fail_ParseOpts.
    - intros info' j0 proxyOpts wa c j' e wb (Hopts & Hjump & Hj0 & Hle) Hrec.
      destruct (nextJump_spec j0 Hj0) as (Heq & Hnext & Hmono).
      destruct (IH _ _ _ _ _ _ _ _ _ _ Hnext Hrec) as (Hj' & Hle' & Hres).
      assert (jumpNum < nextJump j0)%Z as Hlt.
      { rewrite Heq. unfold MaxInt32, SshProxyJumpMaxDepth in *. lia. }
      destruct e as [e|].
      + destruct Hres as (_ & info'' & cause & -> & Hfail & Hwhere & Hin).
        split_and!; [done|lia|]. exists info'', cause.
        split_and!; [done|done| |done].
        right. destruct Hwhere as [[_ ->]|Hdeeper]; lia.
      + destruct Hres as [-> _]. cbn. split_and!; [done|done|done|lia].
    - split_and!; [done|done|done|lia]. }
  destruct Hcall as [(cause & Hfail & [= -> -> ->])|(sshKeywords & w1 & Hcall)].
  { split_and!; [done|lia|done|]. by apply (Hhere info). }
  destruct Hcall as [(j' & err' & Hl & [= -> -> ->])|(info' & j' & w2 & Hl & Hcall)].
  { apply Hloop in Hl. destruct Hl as (? & ? & ?). by split_and!. }
  apply Hloop in Hl. destruct Hl as (Hopts & Hjump & Hj' & Hle).
  destruct Hcall as [(cause & Hfail & [= -> -> ->])|(c & [= -> -> ->])].
  - rewrite Hjump. split_and!; [done|lia|done|]. by apply Hhere.
  - rewrite Hjump. split_and!; [done|lia|done|done].
Qed.

(** The loop hands the error of a recursive call on as it is. *)
Lemma proxyJumpLoop_propagates connect info proxyName proxies proxyOpts j w client j' err w' :
  ParseOpts E proxyName = inr proxyOpts →
  connect proxyOpts (CurrentClient info) (nextJump j) emptyConnKeywords w
    = (Some (client, j', Some err), w') →
  proxyJumpLoop E connect info (proxyName :: proxies) j w = (Some (inl (j', err)), w').
Proof.
  intros Hparse Hrec. cbn [proxyJumpLoop]. rewrite Hparse. unfoldM. by rewrite Hrec.
Qed.

(** When the loop ends normally, the counter went up by one for every
    entry. *)
Lemma proxyJumpLoop_counts fuel connCtx proxies :
  ∀ info j w info' j' w',
    is_int32 j →
    proxyJumpLoop E (ConnectToClient E fuel connCtx) info proxies j w
      = (Some (inr (info', j')), w') →
    j' = j + Z.of_nat (length proxies).
Proof.
  induction proxies as [|proxyName proxies IH]; intros info j w info' j' w' Hj Hloop.
  - cbn in Hloop. injection Hloop as _ <- _. cbn. lia.
  - cbn [proxyJumpLoop] in Hloop.
    destruct (ParseOpts E proxyName) as [err|proxyOpts]; [discriminate|].
    unfoldM.
    destruct (ConnectToClient E fuel connCtx proxyOpts (CurrentClient info) (nextJump j)
                emptyConnKeywords w) as [[[[client j1] [err|]]|] w1] eqn:Hrec;
      [discriminate| |discriminate].
    destruct (nextJump_spec j Hj) as (Heq & Hnext & _).
    destruct (ConnectToClient_returns _ _ _ _ _ _ _ _ _ _ _ Hnext Hrec)
      as (Hj1 & _ & -> & Hdepth).
    apply IH in Hloop; [|done]. rewrite Hloop. cbn [length].
    rewrite Heq in Hdepth |- *. unfold MaxInt32, SshProxyJumpMaxDepth in *. lia.
Qed.

(** With fuel for every depth up to the maximum, a call returns. *)
Lemma ConnectToClient_terminates fuel :
  ∀ connCtx opts currentClient jumpNum connFlags w,
    is_int32 jumpNum →
    (1 + Z.to_nat (SshProxyJumpMaxDepth + 1 - jumpNum) ≤ fuel)%nat →
    ∃ r w', ConnectToClient E fuel connCtx opts currentClient jumpNum connFlags w
            = (Some r, w').
Proof.
  induction fuel as [|fuel IH]; intros connCtx opts currentClient jumpNum connFlags w
    Hrange Hfuel; [lia|].
  destruct (decide (jumpNum > SshProxyJumpMaxDepth)) as [Hdepth|Hdepth].
  { rewrite ConnectToClient_guard by done. by eexists _, _. }
  assert (Hloop : ∀ proxies info j w1,
    is_int32 j → (jumpNum ≤ j)%Z →
    ∃ r w2, proxyJumpLoop E (ConnectToClient E fuel connCtx) info proxies j w1
            = (Some r, w2)).
  { induction proxies as [|proxyName proxies IHp]; intros info j w1 Hj Hle.
    - by eexists _, _.
    - cbn [proxyJumpLoop].
      destruct (ParseOpts E proxyName) as [err|proxyOpts]; [by eexists _, _|].
      unfoldM. destruct (nextJump_spec j Hj) as (Heq & Hnext & Hmono).
      assert (jumpNum < nextJump j)%Z as Hlt.
      { rewrite Heq. unfold MaxInt32, SshProxyJumpMaxDepth in *. lia. }
      destruct (IH connCtx proxyOpts (CurrentClient info) (nextJump j)
                  emptyConnKeywords w1 Hnext) as ([[client j1] err] & w2 & Hrec).
      { unfold SshProxyJumpMaxDepth in *. lia. }
      rewrite Hrec.
      destruct (ConnectToClient_returns _ _ _ _ _ _ _ _ _ _ _ Hnext Hrec)
        as (Hj1 & Hle1 & _).
      destruct err as [err|]; [by eexists _, _|].
      apply IHp; [done|lia]. }
  cbn [ConnectToClient]. rewrite decide_False by done. unfoldM.
  destruct (findSshConfigKeywords E (SSHHost opts) w) as [[err|config] w1];
    [by eexists _, _|].
  match goal with
  | |- context [combineSshKeywords ?a ?b ?c ?d] =>
      destruct (combineSshKeywords a b c d) as [err|sshKeywords]
  end; [by eexists _, _|].
  destruct (Hloop (SshProxyJump sshKeywords)
              (mkDebugInfo currentClient opts jumpNum) jumpNum w1 Hrange)
    as ([[j err]|[info' j]] & w2 & ->); [lia|by eexists _, _|].
  destruct (createClientConfig E connCtx sshKeywords info' w2)
    as [[err|clientConfig] w3]; [by eexists _, _|].
  match goal with
  | |- context [connectInternal E connCtx ?addr clientConfig ?c w3] =>
      destruct (connectInternal E connCtx addr clientConfig c w3) as [[err|client] w4]
  end; by eexists _, _.
Qed.

(** C10: the jump counter never wraps around: for a counter in the range
    of [int32] the increment is [min (jumpNum + 1) MaxInt32], computed
    without overflow; a counter that reached [math.MaxInt32] keeps that
    value and the call it is passed to fails the depth check; the number a
    call returns is in range and not below the one it was called with; and
    a loop that ends normally counted one up per proxy-jump entry. *)
Theorem jump_counter_never_wraps (jumpNum : Z) :
  is_int32 jumpNum →
  nextJump jumpNum = Z.min (jumpNum + 1) MaxInt32
  ∧ is_int32 (nextJump jumpNum)
  ∧ (jumpNum ≤ nextJump jumpNum)%Z
  ∧ (∀ fuel connCtx opts currentClient connFlags w,
       ConnectToClient E (S fuel) connCtx opts currentClient (nextJump MaxInt32) connFlags w
       = (Some (None, MaxInt32, Some (depthExceeded currentClient opts MaxInt32)), w))
  ∧ (∀ fuel connCtx opts currentClient connFlags w client j err w',
       ConnectToClient E fuel connCtx opts currentClient jumpNum connFlags w
         = (Some (client, j, err), w') →
       is_int32 j ∧ (jumpNum ≤ j)%Z)
  ∧ (∀ fuel connCtx info proxies w info' j w',
       proxyJumpLoop E (ConnectToClient E fuel connCtx) info proxies jumpNum w
         = (Some (inr (info', j)), w') →
       j = jumpNum + Z.of_nat (length proxies)).
Proof.
  intros Hrange. destruct (nextJump_spec jumpNum Hrange) as (Heq & Hnext & Hmono).
  split_and!; [done|done|done| | |].
  - intros. apply ConnectToClient_guard. by vm_compute.
  - intros fuel connCtx opts currentClient connFlags w client j err w' Hcall.
    destruct (ConnectToClient_returns _ _ _ _ _ _ _ _ _ _ _ Hrange Hcall) as (? & ? & _).
    done.
  - intros fuel connCtx info proxies w info' j w' Hloop.
    by eapply proxyJumpLoop_counts.
Qed.

(** ** The public-key callback *)

Section PublicKey.
Context (connCtx : Context) (sshKeywords : ConnKeywords) (agentClient : option string)
        (debugInfo : ConnectionDebugInfo) (existingKeys : gmap string string).

Local Abbreviation callback :=
  (publicKeyCallback E connCtx sshKeywords agentClient debugInfo existingKeys).

(** While the agent has signers left, a call returns the next one and
    touches neither the identity files nor the world. *)
Lemma publicKeyCallback_agent signer signers files w :
  callback (mkPubKeyState (signer :: signers) files) w
  = ((inr [signer], mkPubKeyState signers files), w).
Proof. done. Qed.

(** Once the agent's signers are used up, a call removes the first
    identity file from the queue, whatever becomes of it. *)
Lemma publicKeyCallback_pops files w :
  (callback (mkPubKeyState [] files) w).1.2 = mkPubKeyState [] (tail files).
Proof.
  unfold publicKeyCallback. cbn [authSockSigners identityFiles].
  destruct files as [|identityFile files]; [done|]. cbn [tail].
  destruct (existingKeys !! identityFile) as [privateKey|]; [|done].
  destruct (ParseRawPrivateKey E privateKey) as [err|key].
  - destruct err; try done.
    destruct (SshBatchMode sshKeywords); [done|]. unfoldM.
    destruct (GetUserInput _ _ w) as [[err|response] w1]; [done|].
    destruct (ParseRawPrivateKeyWithPassphrase E privateKey (Text response))
      as [err|key]; [done|].
    destruct (NewSignerFromKey E key); [done|]. unfold addToAgent. unfoldM.
    by destruct (_ && _).
  - destruct (NewSignerFromKey E key); [done|]. unfold addToAgent. unfoldM.
    by destruct (_ && _).
Qed.

Lemma callRepeatedly_publicKey n :
  ∀ signers files w,
    let '((results, st), w') :=
      callRepeatedly n callback (mkPubKeyState signers files) w in
    take (length signers) results = (λ signer, inr [signer]) <$> take n signers
    ∧ authSockSigners st = drop n signers
    ∧ identityFiles st = drop (n - length signers) files
    ∧ length results = n
    ∧ ((n ≤ length signers)%nat → w' = w).
Proof.
  induction n as [|n IH]; intros signers files w.
  - cbn. split_and!; [by rewrite take_nil|done..].
  - cbn [callRepeatedly]. unfoldM. destruct signers as [|signer signers].
    + pose proof (publicKeyCallback_pops files w) as Hpop.
      destruct (callback (mkPubKeyState [] files) w) as [[r st1] w1].
      cbn in Hpop. subst st1. cbn [fst snd].
      specialize (IH [] (tail files) w1).
      destruct (callRepeatedly n callback (mkPubKeyState [] (tail files)) w1)
        as [[results st] w'].
      destruct IH as (_ & Hagents & Hfiles & Hlen & _). cbn [fst snd length] in *.
      rewrite drop_nil in Hagents. rewrite Nat.sub_0_r in Hfiles.
      split_and!; [done|done| |by rewrite Hlen|lia].
      rewrite Hfiles. destruct files; cbn; [by rewrite ?drop_nil|done].
    + rewrite publicKeyCallback_agent. cbn [fst snd].
      specialize (IH signers files w).
      destruct (callRepeatedly n callback (mkPubKeyState signers files) w)
        as [[results st] w'].
      destruct IH as (Htake & Hagents & Hfiles & Hlen & Hworld). cbn [fst snd length] in *.
      split_and!; [cbn; by rewrite Htake|done|done|by rewrite Hlen|].
      intros Hle. apply Hworld. lia.
Qed.

End PublicKey.

(** A passphrase prompt that ends in an error makes the callback return a
    [ConnectionError] around a [UserInputCancelError]. *)
Lemma publicKeyCallback_prompt_fails connCtx sshKeywords agentClient debugInfo
    existingKeys identityFile files privateKey w err w' :
  existingKeys !! identityFile = Some privateKey →
  ParseRawPrivateKey E privateKey = inl PassphraseMissingError →
  SshBatchMode sshKeywords = false →
  GetUserInput (WithTimeout connCtx 60) (passphraseRequest identityFile) w = (inl err, w') →
  publicKeyCallback E connCtx sshKeywords agentClient debugInfo existingKeys
    (mkPubKeyState [] (identityFile :: files)) w
  = ((inl (ConnectionError debugInfo (UserInputCancelError err)),
      mkPubKeyState [] files), w').
Proof.
  intros Hkey Hparse Hbatch Hprompt. unfold publicKeyCallback.
  cbn [authSockSigners identityFiles]. rewrite Hkey, Hparse, Hbatch. unfoldM.
  by rewrite Hprompt.
Qed.

(** A wrong passphrase makes the callback return the dummy signer; the
    file is gone from the queue and is not asked about again. *)
Lemma publicKeyCallback_wrong_passphrase connCtx sshKeywords agentClient debugInfo
    existingKeys identityFile files privateKey w resp w' err :
  existingKeys !! identityFile = Some privateKey →
  ParseRawPrivateKey E privateKey = inl PassphraseMissingError →
  SshBatchMode sshKeywords = false →
  GetUserInput (WithTimeout connCtx 60) (passphraseRequest identityFile) w = (inr resp, w') →
  ParseRawPrivateKeyWithPassphrase E privateKey (Text resp) = inl err →
  publicKeyCallback E connCtx sshKeywords agentClient debugInfo existingKeys
    (mkPubKeyState [] (identityFile :: files)) w
  = ((createDummySigner E, mkPubKeyState [] files), w').
Proof.
  intros Hkey Hparse Hbatch Hprompt Hwrong. unfold publicKeyCallback.
  cbn [authSockSigners identityFiles]. rewrite Hkey, Hparse, Hbatch. unfoldM.
  by rewrite Hprompt, Hwrong.
Qed.

(** ** Prompts and the connection context *)

(** The three authentication prompts run under a context derived from the
    connection context: once that is cancelled they fail without waiting
    for the human. *)
Lemma auth_prompts_follow_connection_context connCtx remoteName debugInfo
    sshKeywords agentClient existingKeys identityFile files privateKey question echo w :
  ctxDone (cancelled w) connCtx = true →
  let done := Errorf "Timed out waiting for user input" [] in
  let ctx := WithTimeout connCtx 60 in
  (∃ req, createInteractivePasswordCallbackPrompt connCtx remoteName debugInfo w
          = (inl (ConnectionError debugInfo done),
             mkWorld (fs w) (human w) (cancelled w) (trace w ++ [EvPrompt ctx req])))
  ∧ (∃ req, promptChallengeQuestion connCtx question echo remoteName w
            = (inl done,
               mkWorld (fs w) (human w) (cancelled w) (trace w ++ [EvPrompt ctx req])))
  ∧ (existingKeys !! identityFile = Some privateKey →
     ParseRawPrivateKey E privateKey = inl PassphraseMissingError →
     SshBatchMode sshKeywords = false →
     publicKeyCallback E connCtx sshKeywords agentClient debugInfo existingKeys
       (mkPubKeyState [] (identityFile :: files)) w
     = ((inl (ConnectionError debugInfo (UserInputCancelError done)),
         mkPubKeyState [] files),
        mkWorld (fs w) (human w) (cancelled w)
          (trace w ++ [EvPrompt ctx (passphraseRequest identityFile)]))).
Proof.
  intros Hdone done ctx. split_and!.
  - eexists. unfold createInteractivePasswordCallbackPrompt, GetUserInput. unfoldM.
    cbn [ctxDone]. by rewrite Hdone.
  - eexists. unfold promptChallengeQuestion, GetUserInput. unfoldM.
    cbn [ctxDone]. by rewrite Hdone.
  - intros Hkey Hparse Hbatch. eapply publicKeyCallback_prompt_fails; [done..|].
    unfold GetUserInput. cbn [ctxDone]. by rewrite Hdone.
Qed.

(** C7 fails for the host-key prompts: the prompt of
    [createUnknownKeyVerifier] (and of [createMissingKnownHostsVerifier])
    runs under [context.WithTimeout(context.Background(), 60s)], which does
    not derive from any cancellable context.  Whatever has been cancelled,
    the human is asked and the confirmation is returned. *)
Theorem host_key_prompt_ignores_connection_context (knownHostsFile hostname remote : string)
    (key : PublicKey) (resp : UserInputResponse) (replies : list HumanReply) (w : World) :
  human w = Answer resp :: replies →
  Confirm resp = true →
  let ctx := WithTimeout Background 60 in
  createUnknownKeyVerifier knownHostsFile hostname remote key w
  = (inr resp,
     mkWorld (fs w) replies (cancelled w)
       (trace w ++ [EvPrompt ctx (unknownKeyRequest knownHostsFile hostname remote key)]))
  ∧ createMissingKnownHostsVerifier knownHostsFile hostname remote key w
    = (inr resp,
       mkWorld (fs w) replies (cancelled w)
         (trace w ++ [EvPrompt ctx
                        (missingKnownHostsRequest knownHostsFile hostname remote key)]))
  ∧ ∀ id, ¬ derivesFrom (CancelCtx id) ctx.
Proof.
  intros Hhuman Hconfirm ctx.
  unfold createUnknownKeyVerifier, createMissingKnownHostsVerifier, confirmPrompt,
    GetUserInput. unfoldM. cbn [ctxDone]. rewrite Hhuman, Hconfirm. cbn.
  split_and!; [done..|]. intros id [Heq|[Heq|[]]]; discriminate.
Qed.

End Proofs.

(** * The theorems at work on the concrete environment *)

(** C1 at work: the store knows [example.org] with another key; the
    verifier reports the changed key and asks nothing, although the human
    would confirm. *)
Lemma changed_host_key_is_fatal_witness :
  let w := Demo.world [(Demo.knownHosts, Demo.exampleLine);
                       (Demo.knownHosts2, Demo.otherLine)] [Demo.confirm] in
  ∃ v, Demo.verifierIn w = Some v
    ∧ basicCallback v "example.org" "192.0.2.1:22" Demo.serverKey
      = Some (KeyError [mkKnownKey Demo.oldKey Demo.knownHosts 0])
    ∧ ∃ w', waveHostKeyCallback Demo.env v (knownHostsFiles v) "example.org"
              "192.0.2.1:22" Demo.serverKey w
            = ((Some (Errorf "remote host identification has changed" []),
                knownHostsFiles v), w')
          ∧ promptsOf (trace w') = []
          ∧ human w' = [Demo.confirm].
Proof.
  intros w. eexists. split; [vm_compute; reflexivity|].
  split; [vm_compute; reflexivity|].
  destruct (changed_host_key_is_fatal Demo.env
              (mkVerifier
                 (Demo.check [("example.org", mkKnownKey Demo.oldKey Demo.knownHosts 0);
                              ("other.org",
                               mkKnownKey (mkPublicKey "ssh-ed25519" "AAAAC3other")
                                 Demo.knownHosts2 0)])
                 [] [Demo.knownHosts; Demo.knownHosts2])
              [Demo.knownHosts; Demo.knownHosts2]
              "example.org" "192.0.2.1:22" Demo.serverKey
              [mkKnownKey Demo.oldKey Demo.knownHosts 0] w)
    as (w' & Hrun & Hprompts & _ & Hhuman & _).
  - vm_compute. reflexivity.
  - discriminate.
  - exists w'. split; [exact Hrun|]. split; [exact Hprompts|exact Hhuman].
Defined.


(** The host [loop] names itself as its proxy jump: the chain is cut at
    depth 11 with the depth error, after eleven configuration lookups and
    without a single dial. *)
Example proxy_jump_cycle_is_cut :
  let '(r, w') := ConnectToClient Demo.env 12 (CancelCtx 0) (mkSSHOpts "loop" "" 0)
                    None 0 emptyConnKeywords (Demo.world [] []) in
  r = Some (None, 11, Some (depthExceeded None (mkSSHOpts "loop" "" 0) 11))
  ∧ dialsOf (trace w') = []
  ∧ length (trace w') = 11%nat.
Proof. vm_compute. done. Qed.


(** Two agent signers and two identity files: four calls return the two
    agent signers first, then one signer per file; a fifth call finds the
    queue empty. *)
Example five_calls_of_the_callback :
  let w := Demo.world [("/id_a", "PLAIN KEY"); ("/id_b", "garbage")] [] in
  let '((callback, st0), w0) :=
    createPublicKeyCallback Demo.env (CancelCtx 0) (Demo.keywords ["/id_a"; "/missing"; "/id_b"])
      [AgentSigner "agent-1"; AgentSigner "agent-2"] None Demo.info w in
  identityFiles st0 = ["/id_a"; "/id_b"]
  ∧ (callRepeatedly 5 callback st0 w0).1.1
    = [inr [AgentSigner "agent-1"]; inr [AgentSigner "agent-2"];
       inr [KeySigner "key-1"]; inr [KeySigner "dummy"];
       inl (ConnectionError Demo.info (Errorf "no identity files remaining" []))].
Proof. vm_compute. done. Qed.

(** C6 as stated fails.  One encrypted identity file [/id_rsa], a wrong
    passphrase, and a human who cancels the next prompt: the public-key
    probe shows no second prompt.  It ends as a plain failure, without any
    error; the prompt the human cancels is the password prompt that comes
    next, and its error is no [UserInputCancelError]. *)
Lemma wrong_passphrase_is_not_asked_again :
  let w := Demo.world [("/id_rsa", "ENCRYPTED KEY")]
             [Demo.typed "guess"; NoAnswer "canceled"] in
  ∃ st w1 w2,
    Demo.probe ["/id_rsa"] w = ((AuthFailure, st), w1)
    ∧ promptsOf (trace w1) = [(WithTimeout (CancelCtx 0) 60, passphraseRequest "/id_rsa")]
    ∧ human w1 = [NoAnswer "canceled"]
    ∧ createInteractivePasswordCallbackPrompt (CancelCtx 0) "alice@example.org:22"
        Demo.info w1
      = (inl (ConnectionError Demo.info (Errorf "canceled" [])), w2)
    ∧ human w2 = []
    ∧ length (promptsOf (trace w2)) = 2%nat.
Proof.
  intros w. eexists _, _, _. split; [vm_compute; reflexivity|].
  split; [vm_compute; reflexivity|]. split; [reflexivity|].
  split; [vm_compute; reflexivity|]. split; reflexivity.
Qed.

(** C7 at work: the connection context (id 0) is cancelled; the password
    prompt fails at once and leaves the human's reply alone, but the
    unknown-host prompt still reaches the human and returns the
    confirmation. *)
Lemma host_key_prompt_ignores_connection_context_witness :
  let w := mkWorld ∅ [Demo.confirm] [0%nat] [] in
  let ctx := WithTimeout Background 60 in
  ctxDone (cancelled w) (CancelCtx 0) = true
  ∧ (createInteractivePasswordCallbackPrompt (CancelCtx 0) "alice@example.org" Demo.info w).1
    = inl (ConnectionError Demo.info (Errorf "Timed out waiting for user input" []))
  ∧ createUnknownKeyVerifier Demo.knownHosts "example.org" "192.0.2.1:22" Demo.serverKey w
    = (inr (mkResponse "confirm" "" true),
       mkWorld ∅ [] [0%nat]
         [EvPrompt ctx (unknownKeyRequest Demo.knownHosts "example.org" "192.0.2.1:22"
                          Demo.serverKey)]).
Proof.
  intros w ctx. split; [reflexivity|]. split; [reflexivity|].
  exact (proj1 (host_key_prompt_ignores_connection_context Demo.knownHosts "example.org"
                  "192.0.2.1:22" Demo.serverKey (mkResponse "confirm" "" true) [] w
                  eq_refl eq_refl)).
Defined.

(** With the connection context cancelled, the verifier still asks about
    the unknown host and, on confirmation, appends its key. *)
Example unknown_host_is_added_after_cancellation :
  let w := mkWorld {[Demo.knownHosts := Demo.otherLine]} [Demo.confirm] [0%nat] [] in
  ∃ files w',
    Demo.verify w = Some ((None, files), w')
    ∧ fs w' !! Demo.knownHosts
      = Some (Demo.otherLine +:+ "example.org ssh-ed25519 AAAAC3server
")
    ∧ fst <$> promptsOf (trace w') = [WithTimeout Background 60].
Proof.
  intros w. eexists _, _. split; [vm_compute; reflexivity|].
  split; vm_compute; reflexivity.
Qed.

(** A malformed configuration entry: the error of the lookup is wrapped
    with the debug information of the call. *)
Example broken_config_is_wrapped :
  (ConnectToClient Demo.env 12 (CancelCtx 0) (mkSSHOpts "broken" "" 0) None 0
     emptyConnKeywords (Demo.world [] [])).1
  = Some (None, 0,
          Some (ConnectionError (mkDebugInfo None (mkSSHOpts "broken" "" 0) 0)
                  (Errorf "ssh_config: malformed entry" []))).
Proof. vm_compute. reflexivity. Qed.

(** C9 at work: no known-hosts file is configured, no verifier is built. *)
Lemma createHostKeyCallback_no_files_witness :
  let sshKeywords :=
    mkConnKeywords "alice" "example.org" "22" [] false true true true [] false "" [] [] [] in
  let w := Demo.world [(Demo.knownHosts, Demo.exampleLine)] [Demo.confirm] in
  createHostKeyCallback Demo.env sshKeywords w
  = (inl (Errorf "no known_hosts files provided by ssh. defaults are overridden" []), w).
Proof.
  intros sshKeywords w.
  refine (proj2 (createHostKeyCallback_no_files Demo.env sshKeywords w _) "alice" eq_refl).
  intros osUser Huser. injection Huser as <-. reflexivity.
Defined.

(** C10 at work: the counter at depth 10 goes to 11, a counter at
    [MaxInt32] stays there, and the call it is passed to is refused. *)
Lemma jump_counter_never_wraps_witness :
  is_int32 10
  ∧ nextJump 10 = 11
  ∧ nextJump MaxInt32 = MaxInt32
  ∧ ConnectToClient Demo.env 1 (CancelCtx 0) (mkSSHOpts "web" "" 0) None
      (nextJump MaxInt32) emptyConnKeywords (Demo.world [] [])
    = (Some (None, MaxInt32, Some (depthExceeded None (mkSSHOpts "web" "" 0) MaxInt32)),
       Demo.world [] []).
Proof.
  assert (Hrange : is_int32 10) by (unfold is_int32, MinInt32, MaxInt32; lia).
  split; [exact Hrange|].
  destruct (jump_counter_never_wraps Demo.env 10 Hrange) as (Heq & _ & _ & Hmax & _).
  split; [exact Heq|]. split; [reflexivity|].
  exact (Hmax 0%nat (CancelCtx 0) (mkSSHOpts "web" "" 0) None emptyConnKeywords
           (Demo.world [] [])).
Defined.

(** * Further properties of the code *)

(** ** Configuration merge, continued *)

(** The merge reads only four fields of the caller's keywords. *)
Lemma combineSshKeywords_caller_fields osUser caller caller' configKeywords savedKeywords :
  SshUser caller = SshUser caller' →
  SshHostName caller = SshHostName caller' →
  SshPort caller = SshPort caller' →
  SshIdentityFile caller = SshIdentityFile caller' →
  combineSshKeywords osUser caller configKeywords savedKeywords
  = combineSshKeywords osUser caller' configKeywords savedKeywords.
Proof.
  intros Huser Hhost Hport Hfiles. unfold combineSshKeywords.
  by rewrite Huser, Hhost, Hport, Hfiles.
Qed.

(** X1: the merge fails only when neither the caller nor the config file
    names a user and [user.Current] fails; otherwise the user is the
    caller's, else the config file's, else the OS user; the host name is
    the config file's unless that is empty; and the identity files are the
    saved ones, then the caller's, then the config file's, duplicates
    included. *)
Theorem combineSshKeywords_user_host_identity (osUser : result string)
    (caller configKeywords : ConnKeywords) (savedKeywords : option ConnKeywords) :
  match combineSshKeywords osUser caller configKeywords savedKeywords with
  | inl err =>
      SshUser caller = "" ∧ SshUser configKeywords = ""
      ∧ ∃ cause, osUser = inl cause
                 ∧ err = Errorf "failed to get user for ssh: %+v" [FErr cause]
  | inr sshKeywords =>
      (SshUser caller ≠ "" → SshUser sshKeywords = SshUser caller)
      ∧ (SshUser caller = "" → SshUser configKeywords ≠ "" →
         SshUser sshKeywords = SshUser configKeywords)
      ∧ (SshUser caller = "" → SshUser configKeywords = "" →
         osUser = inr (SshUser sshKeywords))
      ∧ SshHostName sshKeywords
        = (if decide (SshHostName configKeywords = "") then SshHostName caller
           else SshHostName configKeywords)
      ∧ SshIdentityFile sshKeywords
        = default [] (SshIdentityFile <$> savedKeywords)
          ++ SshIdentityFile caller ++ SshIdentityFile configKeywords
  end.
Proof.
  unfold combineSshKeywords.
  destruct (decide (SshUser caller ≠ "")) as [Hcaller|Hcaller].
  - cbn [SshUser SshHostName SshIdentityFile]. split_and!; [done|done|done| |].
    + by repeat case_decide.
    + destruct savedKeywords; cbn; by rewrite <- ?app_assoc.
  - apply dec_stable in Hcaller.
    destruct (decide (SshUser configKeywords ≠ "")) as [Hconfig|Hconfig].
    + cbn [SshUser SshHostName SshIdentityFile]. split_and!; [done|done|done| |].
      * by repeat case_decide.
      * destruct savedKeywords; cbn; by rewrite <- ?app_assoc.
    + apply dec_stable in Hconfig. destruct osUser as [cause|name].
      * split_and!; [done|done|]. by exists cause.
      * cbn [SshUser SshHostName SshIdentityFile]. split_and!; [done|done|done| |].
        -- by repeat case_decide.
        -- destruct savedKeywords; cbn; by rewrite <- ?app_assoc.
Qed.

(** X2: the caller cannot set the security-relevant options: two sets of
    caller keywords that agree on user, host name, port and identity files
    give the same merge, whatever their batch mode, authentication
    switches, preferred methods, agent settings, proxy jumps and
    known-hosts files are, and those fields of the result are the config
    file's. *)
Theorem combineSshKeywords_ignores_caller_policy (osUser : result string)
    (caller caller' configKeywords : ConnKeywords) (savedKeywords : option ConnKeywords) :
  SshUser caller = SshUser caller' →
  SshHostName caller = SshHostName caller' →
  SshPort caller = SshPort caller' →
  SshIdentityFile caller = SshIdentityFile caller' →
  combineSshKeywords osUser caller configKeywords savedKeywords
  = combineSshKeywords osUser caller' configKeywords savedKeywords
  ∧ ∀ sshKeywords,
      combineSshKeywords osUser caller configKeywords savedKeywords = inr sshKeywords →
      SshBatchMode sshKeywords = SshBatchMode configKeywords
      ∧ SshPubkeyAuthentication sshKeywords = SshPubkeyAuthentication configKeywords
      ∧ SshPasswordAuthentication sshKeywords = SshPasswordAuthentication configKeywords
      ∧ SshKbdInteractiveAuthentication sshKeywords
        = SshKbdInteractiveAuthentication configKeywords
      ∧ SshPreferredAuthentications sshKeywords
        = SshPreferredAuthentications configKeywords
      ∧ SshAddKeysToAgent sshKeywords = SshAddKeysToAgent configKeywords
      ∧ SshIdentityAgent sshKeywords = SshIdentityAgent configKeywords
      ∧ SshProxyJump sshKeywords = SshProxyJump configKeywords
      ∧ SshUserKnownHostsFile sshKeywords = SshUserKnownHostsFile configKeywords
      ∧ SshGlobalKnownHostsFile sshKeywords = SshGlobalKnownHostsFile configKeywords.
Proof.
  intros Huser Hhost Hport Hfiles.
  split; [by apply combineSshKeywords_caller_fields|].
  intros sshKeywords. unfold combineSshKeywords.
  destruct (if decide (SshUser caller ≠ "") then _ else _) as [err|user]; [done|].
  by intros [= <-].
Qed.

Section MoreProofs.
Context (E : Env).

(** X3: of the keywords the caller passes to [ConnectToClient] only the
    identity files matter: user, host name and port are overwritten from
    [opts], and the merge ignores the rest. *)
Theorem ConnectToClient_ignores_caller_policy (fuel : nat) (connCtx : Context)
    (opts : SSHOpts) (currentClient : option Client) (jumpNum : Z)
    (connFlags connFlags' : ConnKeywords) (w : World) :
  SshIdentityFile connFlags = SshIdentityFile connFlags' →
  ConnectToClient E fuel connCtx opts currentClient jumpNum connFlags w
  = ConnectToClient E fuel connCtx opts currentClient jumpNum connFlags' w.
Proof.
  intros Hfiles. destruct fuel as [|fuel]; [done|]. cbn [ConnectToClient].
  case_decide; [done|]. unfoldM.
  destruct (findSshConfigKeywords E (SSHHost opts) w) as [[err|config] w1]; [done|].
  lazymatch goal with
  | |- ?lhs = ?rhs =>
    match lhs with
    | context [combineSshKeywords ?u ?a ?c ?s] =>
      match rhs with
      | context [combineSshKeywords u ?b c s] =>
          rewrite (combineSshKeywords_caller_fields u a b c s) by done
      end
    end
  end.
  done.
Qed.

End MoreProofs.

Section PromptProofs.
Context (E : Env).

(** ** Keyboard-interactive challenges *)

(** A prompt under a context that is not done, answered by the human. *)
Lemma GetUserInput_answered ctx request resp replies w :
  ctxDone (cancelled w) ctx = false →
  human w = Answer resp :: replies →
  GetUserInput ctx request w
  = (inr resp, mkWorld (fs w) replies (cancelled w) (trace w ++ [EvPrompt ctx request])).
Proof. intros Hctx Hhuman. unfold GetUserInput. by rewrite Hctx, Hhuman. Qed.

(** Every prompt leaves the files alone, adds exactly one event and takes
    at most the first reply. *)
Lemma GetUserInput_effect ctx request w :
  let '(r, w') := GetUserInput ctx request w in
  fs w' = fs w ∧ cancelled w' = cancelled w
  ∧ trace w' = trace w ++ [EvPrompt ctx request]
  ∧ (human w' = human w ∨ human w' = tail (human w)).
Proof.
  unfold GetUserInput. destruct (ctxDone _ _); [by split_and!; [..|left]|].
  destruct (human w) as [|[resp|reason] replies] eqn:Hhuman; cbn;
    split_and!; try done; by right.
Qed.

Lemma challengeLoop_answers connCtx remoteName debugInfo :
  ∀ questions echos answers resps replies w,
    length questions = length echos →
    length resps = length questions →
    ctxDone (cancelled w) connCtx = false →
    human w = (Answer <$> resps) ++ replies →
    challengeLoop connCtx remoteName debugInfo questions echos answers w
    = (inr (answers ++ (Text <$> resps)),
       mkWorld (fs w) replies (cancelled w)
         (trace w ++ ((λ qe, EvPrompt (WithTimeout connCtx 60)
                               (challengeRequest remoteName qe.1 qe.2))
                      <$> zip questions echos))).
Proof.
  induction questions as [|question questions IH];
    intros echos answers resps replies w Hlen Hresps Hctx Hhuman.
  - destruct resps; [|done]. cbn in *. rewrite !app_nil_r. by destruct w; cbn in *; subst.
  - destruct echos as [|echo echos]; [done|]. destruct resps as [|resp resps]; [done|].
    cbn [challengeLoop]. unfold promptChallengeQuestion. unfoldM.
    fold (challengeRequest remoteName question (default false (head (echo :: echos)))).
    erewrite GetUserInput_answered; [|done|exact Hhuman].
    cbn [head default tail].
    rewrite (IH echos (answers ++ [Text resp]) resps replies); cbn; try done.
    + by rewrite <- !app_assoc.
    + by injection Hlen.
    + by injection Hresps.
Qed.

(** X4: a keyboard-interactive challenge whose questions the human all
    answers returns the answers in the order of the questions; it shows one
    prompt per question, in order, each with the echo flag of its question
    as [PublicText] and under a 60 second timeout derived from the
    connection context, and takes exactly one reply per question. *)
Theorem kbd_interactive_answers_in_order (connCtx : Context) (remoteName : string)
    (debugInfo : ConnectionDebugInfo) (name instruction : string)
    (questions : list string) (echos : list bool) (resps : list UserInputResponse)
    (replies : list HumanReply) (w : World) :
  length questions = length echos →
  length resps = length questions →
  ctxDone (cancelled w) connCtx = false →
  human w = (Answer <$> resps) ++ replies →
  createInteractiveKbdInteractiveChallenge connCtx remoteName debugInfo
    name instruction questions echos w
  = (inr (Text <$> resps),
     mkWorld (fs w) replies (cancelled w)
       (trace w ++ ((λ qe, EvPrompt (WithTimeout connCtx 60)
                             (challengeRequest remoteName qe.1 qe.2))
                    <$> zip questions echos))).
Proof.
  intros Hlen Hresps Hctx Hhuman. unfold createInteractiveKbdInteractiveChallenge.
  rewrite decide_False by (by intros ?).
  by rewrite (challengeLoop_answers _ _ _ questions echos [] resps replies).
Qed.

(** X5: a mismatch between the numbers of questions and echo flags is a
    protocol error that shows no prompt at all; and when the prompt for a
    question fails, after [k] questions were answered, the challenge
    returns that error in a [ConnectionError] and the remaining questions
    are never asked. *)
Theorem kbd_interactive_stops_at_first_failure (connCtx : Context) (remoteName : string)
    (debugInfo : ConnectionDebugInfo) (name instruction : string)
    (answered : list string) (question : string) (remaining : list string)
    (echos : list bool) (resps : list UserInputResponse) (reason : string)
    (replies : list HumanReply) (w : World) :
  length (answered ++ question :: remaining) = length echos →
  length resps = length answered →
  ctxDone (cancelled w) connCtx = false →
  human w = (Answer <$> resps) ++ NoAnswer reason :: replies →
  (∀ questions' echos' w',
     length questions' ≠ length echos' →
     createInteractiveKbdInteractiveChallenge connCtx remoteName debugInfo
       name instruction questions' echos' w'
     = (inl (Errorf "bad response from server: questions has len %d, echos has len %d"
               [FInt (Z.of_nat (length questions')); FInt (Z.of_nat (length echos'))]),
        w'))
  ∧ createInteractiveKbdInteractiveChallenge connCtx remoteName debugInfo
      name instruction (answered ++ question :: remaining) echos w
    = (inl (ConnectionError debugInfo (Errorf reason [])),
       mkWorld (fs w) replies (cancelled w)
         (trace w ++ ((λ qe, EvPrompt (WithTimeout connCtx 60)
                               (challengeRequest remoteName qe.1 qe.2))
                      <$> take (S (length answered))
                            (zip (answered ++ question :: remaining) echos)))).
Proof.
  intros Hlen Hresps Hctx Hhuman. split.
  { intros questions' echos' w' Hne. unfold createInteractiveKbdInteractiveChallenge.
    by rewrite decide_True. }
  unfold createInteractiveKbdInteractiveChallenge.
  rewrite decide_False by (by intros ?).
  generalize (@nil string) as answers.
  revert echos resps w Hlen Hresps Hctx Hhuman.
  induction answered as [|first answered IH];
    intros echos resps w Hlen Hresps Hctx Hhuman answers.
  - destruct resps; [|done]. destruct echos as [|echo echos]; [done|].
    cbn [app challengeLoop]. unfold promptChallengeQuestion, GetUserInput. unfoldM.
    cbn [ctxDone]. cbn in Hhuman. rewrite Hctx, Hhuman. cbn. done.
  - destruct resps as [|resp resps]; [done|]. destruct echos as [|echo echos]; [done|].
    cbn [app challengeLoop]. unfold promptChallengeQuestion. unfoldM.
    erewrite GetUserInput_answered; [|done|exact Hhuman].
    cbn [head default tail].
    rewrite (IH echos resps); cbn; try done.
    + by rewrite <- !app_assoc.
    + by injection Hlen.
    + by injection Hresps.
Qed.

(** ** The verifier when the database knows the answer *)

(** X6: whenever the database's answer is not a [KeyError] (the key is
    trusted, the key is revoked, or the lookup failed for another reason),
    the verifier returns that answer as it is and does nothing else: no
    prompt, no write, and [knownHostsFiles] is unchanged.  In particular a
    trusted key never prompts and a revoked key is refused without a
    prompt. *)
Theorem verifier_passes_database_answer_on (v : HostKeyVerifier) (files : list string)
    (hostname remote : string) (key : PublicKey) (w : World) :
  (∀ want, basicCallback v hostname remote key ≠ Some (KeyError want)) →
  waveHostKeyCallback E v files hostname remote key w
  = ((basicCallback v hostname remote key, files), w).
Proof.
  intros Hnot. unfold waveHostKeyCallback.
  destruct (basicCallback v hostname remote key) as [err|]; [|done].
  destruct err; try done. exfalso. by eapply Hnot.
Qed.

(** ** Known-hosts files of [root] *)

(** X7: when running as [root] the user known-hosts files are never
    consulted: the result depends on the global files only. *)
Theorem root_ignores_user_known_hosts (sshKeywords sshKeywords' : ConnKeywords) (w : World) :
  user_Current E = inr "root" →
  SshGlobalKnownHostsFile sshKeywords = SshGlobalKnownHostsFile sshKeywords' →
  createHostKeyCallback E sshKeywords w = createHostKeyCallback E sshKeywords' w.
Proof.
  intros Hroot Hglobal. unfold createHostKeyCallback.
  rewrite Hroot, Hglobal. destruct (decide ("root" = "root")); done.
Qed.

End PromptProofs.

(** ** The public-key callback, continued *)

Lemma promptsOf_app tr tr' : promptsOf (tr ++ tr') = promptsOf tr ++ promptsOf tr'.
Proof. unfold promptsOf. apply omap_app. Qed.

Section CallbackProofs.
Context (E : Env) (connCtx : Context) (sshKeywords : ConnKeywords)
        (agentClient : option string) (debugInfo : ConnectionDebugInfo)
        (existingKeys : gmap string string).

Local Abbreviation callback :=
  (publicKeyCallback E connCtx sshKeywords agentClient debugInfo existingKeys).

(** What one call of the callback does to the world: it adds the events
    [evs]; among them is at most one prompt, and only for the identity file
    at the head of the queue, outside batch mode and after the agent's
    signers are used up; a key goes to the agent only when
    [AddKeysToAgent] is set and there is an agent. *)
Lemma publicKeyCallback_effect st w :
  let w' := (callback st w).2 in
  ∃ evs,
    trace w' = trace w ++ evs
    ∧ fs w' = fs w
    ∧ ((promptsOf evs = [] ∧ human w' = human w)
       ∨ (authSockSigners st = [] ∧ SshBatchMode sshKeywords = false
          ∧ ∃ identityFile, head (identityFiles st) = Some identityFile
              ∧ promptsOf evs
                = [(WithTimeout connCtx 60, passphraseRequest identityFile)]))
    ∧ (∀ key, EvAgentAdd key ∈ evs →
         SshAddKeysToAgent sshKeywords = true ∧ agentClient ≠ None).
Proof.
  assert (Hnone : ∀ w0 : World, ∃ evs,
    trace w0 = trace w0 ++ evs ∧ fs w0 = fs w0
    ∧ ((promptsOf evs = [] ∧ human w0 = human w0)
       ∨ (authSockSigners st = [] ∧ SshBatchMode sshKeywords = false
          ∧ ∃ identityFile, head (identityFiles st) = Some identityFile
              ∧ promptsOf evs
                = [(WithTimeout connCtx 60, passphraseRequest identityFile)]))
    ∧ (∀ key, EvAgentAdd key ∈ evs →
         SshAddKeysToAgent sshKeywords = true ∧ agentClient ≠ None)).
  { intros w0. exists []. split_and!; [by rewrite app_nil_r|done|by left|].
    intros key Hin. by apply elem_of_nil in Hin. }
  assert (Hadd : ∀ (w0 : World) key r, ∃ evs,
    trace (addToAgent sshKeywords agentClient key w0).2 = trace w0 ++ evs
    ∧ fs (addToAgent sshKeywords agentClient key w0).2 = fs w0
    ∧ human (addToAgent sshKeywords agentClient key w0).2 = human w0
    ∧ promptsOf evs = []
    ∧ (∀ key, EvAgentAdd key ∈ evs →
         SshAddKeysToAgent sshKeywords = true ∧ agentClient ≠ None)
    ∧ (let (_, w1) := addToAgent sshKeywords agentClient key w0 in
       (r : result (list Signer) * PubKeyState, w1)).2
      = (addToAgent sshKeywords agentClient key w0).2).
  { intros w0 key r. unfold addToAgent.
    destruct (SshAddKeysToAgent sshKeywords) eqn:Hflag; cbn [andb].
    - destruct (bool_decide (agentClient ≠ None)) eqn:Hagent.
      + apply bool_decide_eq_true in Hagent. exists [EvAgentAdd key].
        unfoldM. cbn. split_and!; try done.
      + exists []. unfoldM. cbn. split_and!; try done; [by rewrite app_nil_r|].
        intros ? Hin. by apply elem_of_nil in Hin.
    - exists []. unfoldM. cbn. split_and!; try done; [by rewrite app_nil_r|].
      intros ? Hin. by apply elem_of_nil in Hin. }
  cbv zeta. unfold publicKeyCallback.
  destruct st as [[|signer signers] files]; cbn [authSockSigners identityFiles];
    [|exact (Hnone w)].
  destruct files as [|identityFile files]; [exact (Hnone w)|].
  destruct (existingKeys !! identityFile) as [privateKey|].
  2: { unfoldM. cbn. exists [EvLog "error with existingKeys, this should never happen"].
       split_and!; [done|done|by left|].
       intros key [=]%list_elem_of_singleton. }
  destruct (ParseRawPrivateKey E privateKey) as [err|key].
  - destruct err; try exact (Hnone w).
    destruct (SshBatchMode sshKeywords) eqn:Hbatch; [exact (Hnone w)|]. unfoldM.
    pose proof (GetUserInput_effect (WithTimeout connCtx 60)
                  (passphraseRequest identityFile) w) as Hprompt.
    destruct (GetUserInput _ _ w) as [[err|response] w1].
    + destruct Hprompt as (Hfs & _ & Htrace & _). cbn.
      exists [EvPrompt (WithTimeout connCtx 60) (passphraseRequest identityFile)].
      split_and!; [done|done| |].
      * right. split_and!; [done|done|]. by exists identityFile.
      * intros key [=]%list_elem_of_singleton.
    + destruct Hprompt as (Hfs & _ & Htrace & _).
      assert (Hshown : ∃ evs,
        trace w1 = trace w ++ evs ∧ fs w1 = fs w
        ∧ ((promptsOf evs = [] ∧ human w1 = human w)
           ∨ (@nil Signer = [] ∧ false = false
              ∧ ∃ identityFile0, Some identityFile = Some identityFile0
                  ∧ promptsOf evs
                    = [(WithTimeout connCtx 60, passphraseRequest identityFile0)]))
        ∧ (∀ key, EvAgentAdd key ∈ evs →
             SshAddKeysToAgent sshKeywords = true ∧ agentClient ≠ None)).
      { exists [EvPrompt (WithTimeout connCtx 60) (passphraseRequest identityFile)].
        split_and!; [done|done| |].
        - right. split_and!; [done|done|]. by exists identityFile.
        - intros key [=]%list_elem_of_singleton. }
      destruct (ParseRawPrivateKeyWithPassphrase E privateKey (Text response))
        as [err|key]; [exact Hshown|].
      destruct (NewSignerFromKey E key) as [err|signer]; [exact Hshown|].
      destruct (Hadd w1 key (inr [signer], mkPubKeyState [] files))
        as (evs & Htr & Hfs' & Hhuman & Hprompts & Hagent & ->).
      exists (EvPrompt (WithTimeout connCtx 60) (passphraseRequest identityFile) :: evs).
      split_and!.
      * rewrite Htr, Htrace. by rewrite <- app_assoc.
      * by rewrite Hfs'.
      * right. split_and!; [done|done|]. exists identityFile. split; [done|].
        change (EvPrompt ?c ?r :: evs) with ([EvPrompt c r] ++ evs).
        rewrite promptsOf_app, Hprompts. done.
      * intros k [[=]|Hin]%elem_of_cons. by apply (Hagent k).
  - destruct (NewSignerFromKey E key) as [err|signer]; [exact (Hnone w)|]. unfoldM.
    destruct (Hadd w key (inr [signer], mkPubKeyState [] files))
      as (evs & Htr & Hfs' & Hhuman & Hprompts & Hagent & ->).
    exists evs. split_and!; [done|done|by left|done].
Qed.

(** The same for [n] successive calls. *)
Lemma callRepeatedly_effect n :
  ∀ signers files w,
    let w' := (callRepeatedly n callback (mkPubKeyState signers files) w).2 in
    ∃ evs,
      trace w' = trace w ++ evs
      ∧ fs w' = fs w
      ∧ sublist (promptsOf evs)
          ((λ identityFile, (WithTimeout connCtx 60, passphraseRequest identityFile))
           <$> files)
      ∧ ((n ≤ length signers)%nat → promptsOf evs = [])
      ∧ (SshBatchMode sshKeywords = true → promptsOf evs = [] ∧ human w' = human w)
      ∧ (∀ key, EvAgentAdd key ∈ evs →
           SshAddKeysToAgent sshKeywords = true ∧ agentClient ≠ None).
Proof.
  induction n as [|n IH]; intros signers files w; cbv zeta.
  { cbn. exists []. split_and!; [by rewrite app_nil_r|done|apply sublist_nil_l|done|done|].
    intros key Hin. by apply elem_of_nil in Hin. }
  cbn [callRepeatedly]. unfoldM.
  pose proof (publicKeyCallback_effect (mkPubKeyState signers files) w) as Hcall.
  cbv zeta in Hcall.
  assert (Hstate : (callback (mkPubKeyState signers files) w).1.2
                   = match signers with
                     | [] => mkPubKeyState [] (tail files)
                     | _ :: signers' => mkPubKeyState signers' files
                     end).
  { destruct signers; [apply publicKeyCallback_pops|done]. }
  destruct (callback (mkPubKeyState signers files) w) as [[r st1] w1].
  cbn [fst snd] in *. subst st1.
  destruct Hcall as (evs1 & Htr1 & Hfs1 & Hprompt1 & Hagent1).
  destruct signers as [|signer signers].
  - specialize (IH [] (tail files) w1). cbv zeta in IH.
    destruct (callRepeatedly n callback (mkPubKeyState [] (tail files)) w1)
      as [[results st'] w'].
    cbn [fst snd] in *.
    destruct IH as (evs2 & Htr2 & Hfs2 & Hsub2 & _ & Hbatch2 & Hagent2).
    exists (evs1 ++ evs2). rewrite promptsOf_app. split_and!.
    + by rewrite Htr2, Htr1, app_assoc.
    + by rewrite Hfs2.
    + destruct Hprompt1 as [[-> _]|(_ & _ & identityFile & Hhead & ->)].
      * destruct files; [done|]. by apply sublist_cons.
      * destruct files as [|file files]; [done|]. injection Hhead as ->.
        by apply sublist_skip.
    + cbn. lia.
    + intros Hbatch. destruct (Hbatch2 Hbatch) as [-> ->].
      destruct Hprompt1 as [[-> ->]|(_ & Hnot & _)]; [done|congruence].
    + intros key [Hin|Hin]%elem_of_app; [by apply (Hagent1 key)|by apply (Hagent2 key)].
  - specialize (IH signers files w1). cbv zeta in IH.
    destruct (callRepeatedly n callback (mkPubKeyState signers files) w1)
      as [[results st'] w'].
    cbn [fst snd] in *.
    destruct IH as (evs2 & Htr2 & Hfs2 & Hsub2 & Hagents2 & Hbatch2 & Hagent2).
    destruct Hprompt1 as [[Hp1 Hh1]|(Hnil & _)]; [|done].
    exists (evs1 ++ evs2). rewrite promptsOf_app, Hp1. split_and!.
    + by rewrite Htr2, Htr1, app_assoc.
    + by rewrite Hfs2.
    + done.
    + cbn. intros Hle. apply Hagents2. lia.
    + intros Hbatch. destruct (Hbatch2 Hbatch) as [-> ->]. done.
    + intros key [Hin|Hin]%elem_of_app; [by apply (Hagent1 key)|by apply (Hagent2 key)].
Qed.

(** X8: the passphrase of an identity file is asked for at most once:
    over any number of calls, the passphrase prompts shown are requests
    for identity files of the queue, in queue order and without
    repetition (a sublist of the requests for the whole queue); none is
    shown while the agent's signers last; and the files are left alone. *)
Theorem each_identity_file_is_asked_about_once (n : nat) (signers : list Signer)
    (files : list string) (w : World) :
  let w' := (callRepeatedly n callback (mkPubKeyState signers files) w).2 in
  ∃ asked,
    promptsOf (trace w') = promptsOf (trace w) ++ asked
    ∧ sublist asked
        ((λ identityFile, (WithTimeout connCtx 60, passphraseRequest identityFile))
         <$> files)
    ∧ ((n ≤ length signers)%nat → asked = [])
    ∧ fs w' = fs w.
Proof.
  cbv zeta.
  destruct (callRepeatedly_effect n signers files w)
    as (evs & Htr & Hfs & Hsub & Hagents & _).
  exists (promptsOf evs). by rewrite Htr, promptsOf_app.
Qed.

(** X9: in batch mode the callback never prompts, however often it is
    called and whatever the identity files are: no prompt is shown and no
    reply of the human is taken. *)
Theorem batch_mode_never_asks_for_a_passphrase (n : nat) (st : PubKeyState) (w : World) :
  SshBatchMode sshKeywords = true →
  let w' := (callRepeatedly n callback st w).2 in
  promptsOf (trace w') = promptsOf (trace w) ∧ human w' = human w.
Proof.
  intros Hbatch. cbv zeta. destruct st as [signers files].
  destruct (callRepeatedly_effect n signers files w)
    as (evs & Htr & _ & _ & _ & Hnone & _).
  destruct (Hnone Hbatch) as [Hprompts Hhuman].
  by rewrite Htr, promptsOf_app, Hprompts, app_nil_r.
Qed.

(** X10: a key is handed to the agent only when [AddKeysToAgent] is set
    and an agent is connected: otherwise no call adds an [agent.Add] to the
    trace. *)
Theorem keys_reach_the_agent_only_on_request (n : nat) (st : PubKeyState) (w : World)
    (key : PrivateKey) :
  SshAddKeysToAgent sshKeywords = false ∨ agentClient = None →
  EvAgentAdd key ∉ trace w →
  EvAgentAdd key ∉ trace (callRepeatedly n callback st w).2.
Proof.
  intros Hoff Hbefore. destruct st as [signers files].
  destruct (callRepeatedly_effect n signers files w)
    as (evs & Htr & _ & _ & _ & _ & Hagent).
  cbv zeta in Htr. rewrite Htr. intros [Hin|Hin]%elem_of_app; [done|].
  destruct (Hagent key Hin) as [Hflag Hclient]. destruct Hoff; congruence.
Qed.

End CallbackProofs.

(** ** Loading the known-hosts files *)

Section KnownHostsProofs.
Context (E : Env).

(** What the database loop leaves behind: the remaining files are a
    sublist of the given ones, every given file is kept or was dropped as
    unreadable, no dropped file is kept, and the database (if any) is the
    one the library built from exactly the remaining files. *)
Lemma loadKnownHosts_inv fuel :
  ∀ fsys files unreadable db remaining unreadable',
    loadKnownHosts E fuel fsys files unreadable
      = Some (inr (db, remaining, unreadable')) →
    sublist remaining files
    ∧ (∃ dropped,
         unreadable' = unreadable ++ dropped
         ∧ (∀ file, file ∈ files → file ∈ remaining ∨ file ∈ dropped)
         ∧ (∀ file, file ∈ dropped → file ∉ remaining))
    ∧ match db with
      | Some db => knownhosts_NewDB E fsys remaining = inr db ∧ remaining ≠ []
      | None => remaining = []
      end.
Proof.
  induction fuel as [|fuel IH];
    intros fsys files unreadable db remaining unreadable' Hload.
  - destruct files; [|done]. injection Hload as <- <- <-.
    split_and!; [done| |done]. exists []. rewrite app_nil_r.
    split_and!; [done|by left|]. intros file Hin. by apply elem_of_nil in Hin.
  - destruct files as [|file0 files].
    { injection Hload as <- <- <-.
      split_and!; [done| |done]. exists []. rewrite app_nil_r.
      split_and!; [done|by left|]. intros file Hin. by apply elem_of_nil in Hin. }
    cbn [loadKnownHosts] in Hload.
    destruct (knownhosts_NewDB E fsys (file0 :: files)) as [err|newdb] eqn:Hdb.
    + destruct err; try done.
      case_decide; [done|]. apply IH in Hload.
      destruct Hload as (Hsub & (dropped & -> & Hcover & Hdisjoint) & Hdbs).
      split_and!.
      * etrans; [exact Hsub|]. apply sublist_filter.
      * exists (path :: dropped). rewrite <- app_assoc. split_and!; [done| |].
        -- intros file Hin. destruct (decide (file = path)) as [->|Hne].
           ++ right. by left.
           ++ assert (file ∈ filter (λ filename, filename ≠ path) (file0 :: files)) as Hf
                by (apply list_elem_of_filter; by split).
              destruct (Hcover file Hf) as [?|?]; [by left|right; by right].
        -- intros file [->|Hin]%elem_of_cons; [|by apply Hdisjoint].
           intros Hkept. apply (elem_of_sublist _ _ _ Hkept) in Hsub.
           apply list_elem_of_filter in Hsub. by destruct Hsub.
      * done.
    + injection Hload as <- <- <-. split; [done|]. split; [|done].
      exists []. rewrite app_nil_r.
      split_and!; [done|by left|]. intros file Hin. by apply elem_of_nil in Hin.
Qed.

(** The result of [createHostKeyCallback], in terms of the loop. *)
Lemma createHostKeyCallback_inv sshKeywords w v algorithms w' :
  createHostKeyCallback E sshKeywords w = (inr (v, algorithms), w') →
  w' = w
  ∧ ∃ osUser db,
      user_Current E = inr osUser
      ∧ loadKnownHosts E
          (length (expandKnownHostsFiles E
             (if decide (osUser = "root") then SshGlobalKnownHostsFile sshKeywords
              else SshUserKnownHostsFile sshKeywords
                   ++ SshGlobalKnownHostsFile sshKeywords)))
          (fs w)
          (expandKnownHostsFiles E
             (if decide (osUser = "root") then SshGlobalKnownHostsFile sshKeywords
              else SshUserKnownHostsFile sshKeywords
                   ++ SshGlobalKnownHostsFile sshKeywords))
          []
        = Some (inr (db, knownHostsFiles v, unreadableFiles v))
      ∧ expandKnownHostsFiles E
          (if decide (osUser = "root") then SshGlobalKnownHostsFile sshKeywords
           else SshUserKnownHostsFile sshKeywords
                ++ SshGlobalKnownHostsFile sshKeywords) ≠ []
      ∧ match db with
        | Some db => basicCallback v = db.1 ∧ algorithms = db.2
        | None => basicCallback v = (λ _ _ _, Some (KeyError []))
                  ∧ algorithms = (λ _, [])
        end.
Proof.
  unfold createHostKeyCallback.
  destruct (user_Current E) as [err|osUser]; [done|].
  case_decide as Hlen; [done|]. unfoldM.
  assert (expandKnownHostsFiles E
            (if decide (osUser = "root") then SshGlobalKnownHostsFile sshKeywords
             else SshUserKnownHostsFile sshKeywords
                  ++ SshGlobalKnownHostsFile sshKeywords) ≠ []) as Hne.
  { intros Hnil. by rewrite Hnil in Hlen. }
  destruct (loadKnownHosts E _ (fs w) _ []) as [[err|[[[[cb algos]|] files] unread]]|]
    eqn:Hload; [done| | |done].
  - intros [= <- <- <-]. split; [done|]. by exists osUser, (Some (cb, algos)).
  - intros [= <- <- <-]. split; [done|]. by exists osUser, None.
Qed.

(** X11: [createHostKeyCallback] touches nothing, and the verifier it
    returns partitions the configured files: the files it keeps are a
    sublist of the expanded configured files (for [root] the global ones,
    otherwise the user's followed by the global ones), every configured
    file is either kept or remembered as unreadable, and no file is
    both. *)
Theorem known_hosts_files_are_partitioned (sshKeywords : ConnKeywords) (w : World)
    (v : HostKeyVerifier) (algorithms : string → list string) (w' : World)
    (osUser : string) :
  createHostKeyCallback E sshKeywords w = (inr (v, algorithms), w') →
  user_Current E = inr osUser →
  let configured :=
    expandKnownHostsFiles E
      (if decide (osUser = "root") then SshGlobalKnownHostsFile sshKeywords
       else SshUserKnownHostsFile sshKeywords ++ SshGlobalKnownHostsFile sshKeywords) in
  w' = w
  ∧ sublist (knownHostsFiles v) configured
  ∧ (∀ file, file ∈ configured →
       file ∈ knownHostsFiles v ∨ file ∈ unreadableFiles v)
  ∧ (∀ file, file ∈ unreadableFiles v → file ∉ knownHostsFiles v).
Proof.
  intros Hcreate Huser configured.
  destruct (createHostKeyCallback_inv _ _ _ _ _ Hcreate)
    as (-> & osUser' & db & Huser' & Hload & _ & _).
  rewrite Huser in Huser'. injection Huser' as <-.
  apply loadKnownHosts_inv in Hload.
  destruct Hload as (Hsub & (dropped & Hdropped & Hcover & Hdisjoint) & _).
  cbn in Hdropped. subst dropped. by split_and!.
Qed.

(** X12: there is no verifier that trusts without a database.  When the
    verifier keeps at least one file, its database is the one the library
    built from exactly the kept files; when it keeps none (every
    configured file was unreadable), its database answers "unknown host"
    ([KeyError] without keys) for every host and key, and offers no
    host-key algorithms. *)
Theorem verifier_database_is_built_from_kept_files (sshKeywords : ConnKeywords)
    (w : World) (v : HostKeyVerifier) (algorithms : string → list string) (w' : World) :
  createHostKeyCallback E sshKeywords w = (inr (v, algorithms), w') →
  (knownHostsFiles v ≠ [] →
   knownhosts_NewDB E (fs w) (knownHostsFiles v) = inr (basicCallback v, algorithms))
  ∧ (knownHostsFiles v = [] →
     (∀ hostname remote key, basicCallback v hostname remote key = Some (KeyError []))
     ∧ (∀ hostWithPort, algorithms hostWithPort = [])
     ∧ unreadableFiles v ≠ []).
Proof.
  intros Hcreate.
  destruct (createHostKeyCallback_inv _ _ _ _ _ Hcreate)
    as (-> & osUser & db & Huser & Hload & Hconfigured & Hdb).
  pose proof Hload as Hinv. apply loadKnownHosts_inv in Hinv.
  destruct Hinv as (_ & (dropped & Hdropped & Hcover & _) & Hbuilt).
  destruct db as [[cb algos]|].
  - destruct Hbuilt as [Hbuilt Hne]. destruct Hdb as [-> ->]. cbn [fst snd].
    split; [by intros _|].
    intros Hnil. by destruct Hne.
  - destruct Hdb as [-> ->]. split; [intros Hne; by destruct Hne|]. intros Hnil.
    split_and!; [done|done|]. cbn in Hdropped. subst dropped.
    destruct (expandKnownHostsFiles E _) as [|file files] eqn:Hfiles; [done|].
    destruct (Hcover file) as [Hin|Hin]; [by left| |].
    + rewrite Hnil in Hin. by apply elem_of_nil in Hin.
    + intros Hnone. rewrite Hnone in Hin. by apply elem_of_nil in Hin.
Qed.

End KnownHostsProofs.

(** ** Writing known-hosts files *)

Lemma string_app_nil_r (s : string) : s +:+ "" = s.
Proof.
  induction s as [|c s IH]; [done|].
  change (String c (s +:+ "") = String c s). by f_equal.
Qed.

Lemma string_app_assoc (s1 s2 s3 : string) : (s1 +:+ s2) +:+ s3 = s1 +:+ (s2 +:+ s3).
Proof.
  induction s1 as [|c s1 IH]; [done|].
  change (String c ((s1 +:+ s2) +:+ s3) = String c (s1 +:+ (s2 +:+ s3))). by f_equal.
Qed.

Lemma appendOnly_same_fs w w' : fs w' = fs w → appendOnly w w'.
Proof.
  intros Hfs path data Hdata. exists "". by rewrite Hfs, string_app_nil_r.
Qed.

Lemma appendOnly_trans w1 w2 w3 : appendOnly w1 w2 → appendOnly w2 w3 → appendOnly w1 w3.
Proof.
  intros H12 H23 path data Hdata.
  destruct (H12 path data Hdata) as (added & Hadded).
  destruct (H23 path _ Hadded) as (added' & Hadded').
  exists (added +:+ added'). by rewrite Hadded', string_app_assoc.
Qed.

Lemma fsCreated_lookup file fsys :
  fsCreated file fsys !! file = Some (default "" (fsys !! file)).
Proof.
  unfold fsCreated. destruct (fsys !! file) eqn:Hfile; [by rewrite Hfile|].
  by rewrite lookup_insert_eq.
Qed.

Lemma fsCreated_keeps file fsys path data :
  fsys !! path = Some data → fsCreated file fsys !! path = Some data.
Proof.
  intros Hdata. unfold fsCreated. destruct (fsys !! file) eqn:Hfile; [done|].
  rewrite lookup_insert_ne; [done|]. intros ->. congruence.
Qed.

Lemma fsAppended_lookup file data fsys :
  fsAppended file data fsys !! file = Some (default "" (fsys !! file) +:+ data).
Proof. unfold fsAppended. by rewrite lookup_insert_eq. Qed.

Lemma fsAppended_grows file added fsys path data :
  fsys !! path = Some data →
  ∃ added', fsAppended file added fsys !! path = Some (data +:+ added').
Proof.
  intros Hdata. destruct (decide (file = path)) as [->|Hne].
  - exists added. by rewrite fsAppended_lookup, Hdata.
  - exists "". unfold fsAppended. by rewrite lookup_insert_ne, string_app_nil_r.
Qed.

Section WriteProofs.
Context (E : Env).

Lemma confirmPrompt_effect request w :
  let w' := (confirmPrompt request w).2 in
  fs w' = fs w
  ∧ trace w' = trace w ++ [EvPrompt (WithTimeout Background 60) request].
Proof.
  cbv zeta. unfold confirmPrompt. unfoldM.
  pose proof (GetUserInput_effect (WithTimeout Background 60) request w) as Heffect.
  destruct (GetUserInput _ _ w) as [[err|resp] w1];
    destruct Heffect as (Hfs & _ & Htrace & _); [done|].
  by destruct (Confirm resp).
Qed.

(** One attempt to write leaves every existing file with its old contents
    in front. *)
Lemma writeToKnownHosts_appendOnly file newLine request w :
  appendOnly w (writeToKnownHosts E file newLine (Some (confirmPrompt request)) w).2.
Proof.
  unfold writeToKnownHosts. unfoldM. cbn.
  destruct (os_MkdirAll E _); [by apply appendOnly_same_fs|].
  destruct (os_OpenFile E file); [by apply appendOnly_same_fs|]. cbn.
  match goal with
  | |- context [confirmPrompt request ?w0] =>
      pose proof (confirmPrompt_effect request w0) as Hprompt;
      destruct (confirmPrompt request w0) as [[err|resp] w1]
  end; cbn in Hprompt; destruct Hprompt as [Hfs _].
  - intros path data Hdata. exists "". cbn. rewrite Hfs, string_app_nil_r.
    by apply fsCreated_keeps.
  - destruct (Confirm resp); cbn.
    + destruct (file_WriteString E file _).
      * intros path data Hdata. exists "". cbn. rewrite Hfs, string_app_nil_r.
        by apply fsCreated_keeps.
      * intros path data Hdata. cbn. rewrite Hfs.
        apply fsAppended_grows. by apply fsCreated_keeps.
    + intros path data Hdata. exists "". cbn. rewrite Hfs, string_app_nil_r.
      by apply fsCreated_keeps.
Qed.

Lemma writeLoop_appendOnly (request : string → UserInputRequest) newLine :
  ∀ files err w,
    appendOnly w (writeLoop E (λ filename, confirmPrompt (request filename))
                    newLine files err w).2.
Proof.
  induction files as [|file files IH]; intros err w.
  - by apply appendOnly_same_fs.
  - cbn [writeLoop]. unfoldM.
    pose proof (writeToKnownHosts_appendOnly file newLine (request file) w) as Hwrite.
    destruct (writeToKnownHosts E file newLine _ w) as [[e|] w1]; [|done].
    destruct e; try done; (eapply appendOnly_trans; [exact Hwrite|apply IH]).
Qed.

(** X13: the verifier only ever appends to known-hosts files: whatever
    the database answers, whatever the human does and whichever file
    operations fail, afterwards every file that existed still begins with
    its old contents.  No entry is rewritten or removed. *)
Theorem verifier_only_appends (v : HostKeyVerifier) (files : list string)
    (hostname remote : string) (key : PublicKey) (w : World) :
  appendOnly w (waveHostKeyCallback E v files hostname remote key w).2.
Proof.
  unfold waveHostKeyCallback.
  destruct (basicCallback v hostname remote key) as [err|];
    [|by apply appendOnly_same_fs].
  destruct err; try by apply appendOnly_same_fs.
  destruct want as [|k want]; [|by apply appendOnly_same_fs].
  unfoldM.
  pose proof (writeLoop_appendOnly (λ filename, unknownKeyRequest filename hostname remote key)
                (xknownhosts_Line E [xknownhosts_Normalize E hostname] key) files
                (Some (Errorf "placeholder, should not be returned" [])) w) as Hfirst.
  match type of Hfirst with
  | appendOnly _ (?run).2 =>
      change (writeLoop E (λ filename, createUnknownKeyVerifier filename hostname remote key)
                (xknownhosts_Line E [xknownhosts_Normalize E hostname] key) files
                (Some (Errorf "placeholder, should not be returned" [])) w) with run;
      destruct run as [[serr|err written] w1]
  end; [done|]. cbn [snd] in Hfirst.
  destruct err as [err|].
  - pose proof (writeLoop_appendOnly
                  (λ filename, missingKnownHostsRequest filename hostname remote key)
                  (xknownhosts_Line E [xknownhosts_Normalize E hostname] key)
                  (unreadableFiles v) (Some err) w1) as Hsecond.
    match type of Hsecond with
    | appendOnly _ (?run).2 =>
        change (writeLoop E
                  (λ filename, createMissingKnownHostsVerifier filename hostname remote key)
                  (xknownhosts_Line E [xknownhosts_Normalize E hostname] key)
                  (unreadableFiles v) (Some err) w1) with run;
        destruct run as [[serr|err' written'] w2]
    end; cbn [snd] in Hsecond.
    + by eapply appendOnly_trans.
    + destruct err'; [by eapply appendOnly_trans|].
      destruct (xknownhosts_New E _ _); by eapply appendOnly_trans.
  - destruct (xknownhosts_New E _ _); done.
Qed.

(** A file that can be opened and written, and a human who confirms. *)
Lemma writeToKnownHosts_confirmed file newLine request resp replies w :
  os_MkdirAll E (filepath_Split E file).1 = None →
  os_OpenFile E file = None →
  human w = Answer resp :: replies →
  Confirm resp = true →
  file_WriteString E file (newLine +:+ "
") = None →
  file_Close E file = None →
  writeToKnownHosts E file newLine (Some (confirmPrompt request)) w
  = (None,
     mkWorld (fsAppended file (newLine +:+ "
") (fsCreated file (fs w))) replies (cancelled w)
       (trace w ++ [EvMkdirAll (filepath_Split E file).1; EvOpenFile file;
                    EvPrompt (WithTimeout Background 60) request;
                    EvWriteString file (newLine +:+ "
")])).
Proof.
  intros Hmkdir Hopen Hhuman Hconfirm Hwrite Hclose.
  unfold writeToKnownHosts, confirmPrompt, GetUserInput. unfoldM.
  rewrite Hmkdir, Hopen. cbn. rewrite Hhuman. cbn. rewrite Hconfirm. cbn.
  rewrite Hconfirm. cbn. rewrite Hwrite, Hclose. cbn. by rewrite <- !app_assoc.
Qed.

(** A loop over files none of which can be opened shows no prompt, writes
    nothing and ends with an error. *)
Lemma writeLoop_cannotOpen verifier newLine :
  ∀ files err w,
    (∀ file, file ∈ files → cannotOpen E file) →
    ∃ err' w',
      writeLoop E verifier newLine files (Some err) w = (LoopEnd (Some err') None, w')
      ∧ fs w' = fs w ∧ human w' = human w
      ∧ promptsOf (trace w') = promptsOf (trace w).
Proof.
  induction files as [|file files IH]; intros err w Hfiles.
  - by exists err, w.
  - destruct (Hfiles file) as (e & Hnot & Hfail); [by left|].
    assert (∃ w1, writeToKnownHosts E file newLine (Some (verifier file)) w = (Some e, w1)
                  ∧ fs w1 = fs w ∧ human w1 = human w
                  ∧ promptsOf (trace w1) = promptsOf (trace w)) as (w1 & Hwrite & Hfs & Hh & Hp).
    { unfold writeToKnownHosts. unfoldM. cbn.
      destruct Hfail as [Hmkdir|[Hmkdir Hopen]].
      - rewrite Hmkdir. eexists. split; [done|]. cbn.
        rewrite promptsOf_app. cbn. by rewrite app_nil_r.
      - rewrite Hmkdir, Hopen. eexists. split; [done|]. cbn.
        rewrite !promptsOf_app. cbn. by rewrite !app_nil_r. }
    destruct (IH e w1) as (err' & w' & Hloop & Hfs' & Hh' & Hp').
    { intros f Hf. apply Hfiles. by right. }
    exists err', w'. cbn [writeLoop]. unfoldM. rewrite Hwrite.
    split; [|by rewrite Hfs', Hh', Hp'].
    destruct e; try done. exfalso. by eapply Hnot.
Qed.

(** X14: for an unknown host, when none of the known-hosts files, readable
    or not, can be opened for writing, the verifier refuses the host with
    the error "unable to create new knownhost key" and never asks the
    human: no prompt, no reply taken, nothing written. *)
Theorem unknown_host_without_writable_file (v : HostKeyVerifier) (files : list string)
    (hostname remote : string) (key : PublicKey) (w : World) :
  basicCallback v hostname remote key = Some (KeyError []) →
  (∀ file, file ∈ files ++ unreadableFiles v → cannotOpen E file) →
  ∃ err w',
    waveHostKeyCallback E v files hostname remote key w
    = ((Some (Errorf "unable to create new knownhost key: %e" [FErr err]), files), w')
    ∧ promptsOf (trace w') = promptsOf (trace w)
    ∧ human w' = human w
    ∧ fs w' = fs w.
Proof.
  intros Hunknown Hfiles. unfold waveHostKeyCallback. rewrite Hunknown. unfoldM.
  edestruct (writeLoop_cannotOpen
               (λ filename, createUnknownKeyVerifier filename hostname remote key)
               (xknownhosts_Line E [xknownhosts_Normalize E hostname] key) files)
    as (err1 & w1 & -> & Hfs1 & Hh1 & Hp1).
  { intros file Hin. apply Hfiles. apply elem_of_app. by left. }
  edestruct (writeLoop_cannotOpen
               (λ filename, createMissingKnownHostsVerifier filename hostname remote key)
               (xknownhosts_Line E [xknownhosts_Normalize E hostname] key)
               (unreadableFiles v))
    as (err2 & w2 & -> & Hfs2 & Hh2 & Hp2).
  { intros file Hin. apply Hfiles. apply elem_of_app. by right. }
  exists err2, w2. split; [done|]. by rewrite Hp2, Hp1, Hh2, Hh1, Hfs2, Hfs1.
Qed.

(** X15: the fall-back to a missing file.  For an unknown host, when no
    readable file can be opened for writing and the human confirms the
    prompt for the first unreadable file, that file is created with the
    new line as its last line, it becomes the only known-hosts file of the
    verifier, and the result is the answer of a database rebuilt from that
    file alone. *)
Theorem missing_file_becomes_sole_trust_source (v : HostKeyVerifier)
    (files : list string) (missing : string) (others : list string)
    (hostname remote : string) (key : PublicKey)
    (resp : UserInputResponse) (replies : list HumanReply) (w : World) :
  basicCallback v hostname remote key = Some (KeyError []) →
  unreadableFiles v = missing :: others →
  (∀ file, file ∈ files → cannotOpen E file) →
  os_MkdirAll E (filepath_Split E missing).1 = None →
  os_OpenFile E missing = None →
  human w = Answer resp :: replies →
  Confirm resp = true →
  let data := xknownhosts_Line E [xknownhosts_Normalize E hostname] key +:+ "
" in
  file_WriteString E missing data = None →
  file_Close E missing = None →
  ∃ w',
    waveHostKeyCallback E v files hostname remote key w
    = ((match xknownhosts_New E (fs w') [missing] with
        | inl err => Some err
        | inr updatedCallback => updatedCallback hostname remote key
        end, [missing]), w')
    ∧ fs w' = fsAppended missing data (fsCreated missing (fs w))
    ∧ promptsOf (trace w')
      = promptsOf (trace w)
        ++ [(WithTimeout Background 60,
             missingKnownHostsRequest missing hostname remote key)]
    ∧ human w' = replies.
Proof.
  intros Hunknown Hunreadable Hfiles Hmkdir Hopen Hhuman Hconfirm data Hwrite Hclose.
  unfold waveHostKeyCallback. rewrite Hunknown, Hunreadable. unfoldM.
  edestruct (writeLoop_cannotOpen
               (λ filename, createUnknownKeyVerifier filename hostname remote key)
               (xknownhosts_Line E [xknownhosts_Normalize E hostname] key) files)
    as (err1 & w1 & -> & Hfs1 & Hh1 & Hp1); [exact Hfiles|].
  cbn [writeLoop]. unfoldM. unfold createMissingKnownHostsVerifier.
  erewrite writeToKnownHosts_confirmed; [|done|done|by rewrite Hh1|done|done|done].
  exists (mkWorld (fsAppended missing data (fsCreated missing (fs w1))) replies
            (cancelled w1)
            (trace w1 ++ [EvMkdirAll (filepath_Split E missing).1; EvOpenFile missing;
                          EvPrompt (WithTimeout Background 60)
                            (missingKnownHostsRequest missing hostname remote key);
                          EvWriteString missing data])).
  split.
  - cbn. by destruct (xknownhosts_New E _ _).
  - cbn. rewrite Hfs1. split_and!; [done| |done].
    rewrite promptsOf_app, Hp1. done.
Qed.

(** X16: a verifier does not learn from its own writes.  Its database is
    the one loaded when it was built, so when the same verifier is asked
    about the same unknown host again, it prompts again and, on
    confirmation, appends the same line a second time. *)
Theorem verifier_asks_again_and_appends_twice (v : HostKeyVerifier) (file : string)
    (files : list string) (hostname remote : string) (key : PublicKey)
    (resp resp' : UserInputResponse) (replies : list HumanReply) (w : World) :
  basicCallback v hostname remote key = Some (KeyError []) →
  os_MkdirAll E (filepath_Split E file).1 = None →
  os_OpenFile E file = None →
  human w = Answer resp :: Answer resp' :: replies →
  Confirm resp = true → Confirm resp' = true →
  let data := xknownhosts_Line E [xknownhosts_Normalize E hostname] key +:+ "
" in
  file_WriteString E file data = None →
  file_Close E file = None →
  let first := waveHostKeyCallback E v (file :: files) hostname remote key w in
  let second := waveHostKeyCallback E v first.1.2 hostname remote key first.2 in
  first.1.2 = file :: files
  ∧ fs second.2 !! file = Some ((default "" (fs w !! file) +:+ data) +:+ data)
  ∧ promptsOf (trace second.2)
    = promptsOf (trace w)
      ++ [(WithTimeout Background 60, unknownKeyRequest file hostname remote key);
          (WithTimeout Background 60, unknownKeyRequest file hostname remote key)]
  ∧ human second.2 = replies.
Proof.
  intros Hunknown Hmkdir Hopen Hhuman Hconfirm Hconfirm' data Hwrite Hclose.
  assert (Hcall : ∀ w0 r rest,
    human w0 = Answer r :: rest → Confirm r = true →
    ∃ res,
      waveHostKeyCallback E v (file :: files) hostname remote key w0
      = ((res, file :: files),
         mkWorld (fsAppended file data (fsCreated file (fs w0))) rest (cancelled w0)
           (trace w0 ++ [EvMkdirAll (filepath_Split E file).1; EvOpenFile file;
                         EvPrompt (WithTimeout Background 60)
                           (unknownKeyRequest file hostname remote key);
                         EvWriteString file data]))).
  { intros w0 r rest Hh Hc. unfold waveHostKeyCallback. rewrite Hunknown. unfoldM.
    cbn [writeLoop]. unfoldM. unfold createUnknownKeyVerifier.
    erewrite writeToKnownHosts_confirmed; [|done..].
    cbn. destruct (xknownhosts_New E _ _); by eexists. }
  cbv zeta.
  destruct (Hcall w resp (Answer resp' :: replies) Hhuman Hconfirm) as (res1 & ->).
  cbn [fst snd].
  destruct (Hcall (mkWorld (fsAppended file data (fsCreated file (fs w)))
                     (Answer resp' :: replies) (cancelled w)
                     (trace w ++ [EvMkdirAll (filepath_Split E file).1; EvOpenFile file;
                                  EvPrompt (WithTimeout Background 60)
                                    (unknownKeyRequest file hostname remote key);
                                  EvWriteString file data]))
              resp' replies eq_refl Hconfirm') as (res2 & ->).
  cbn [fst snd fs human trace].
  split_and!; [done| |  |done].
  - rewrite fsAppended_lookup, fsCreated_lookup, fsAppended_lookup, fsCreated_lookup.
    done.
  - rewrite !promptsOf_app. cbn. by rewrite <- app_assoc.
Qed.

End WriteProofs.

(** ** The client configuration *)

Section ConfigProofs.
Context (E : Env).

(** The loop over [SshPreferredAuthentications] keeps, in order, the
    names that are active. *)
Lemma authMethods_names sshKeywords (publicKey keyboardInteractive password : AuthMethod) :
  authMethodName publicKey = "publickey" →
  authMethodName keyboardInteractive = "keyboard-interactive" →
  authMethodName password = "password" →
  ∀ preferred authMethods,
    authMethodName <$>
      foldl (λ authMethods authMethodName,
               if decide (authMethodName = "publickey") then
                 if SshPubkeyAuthentication sshKeywords
                 then authMethods ++ [publicKey] else authMethods
               else if decide (authMethodName = "keyboard-interactive") then
                 if SshKbdInteractiveAuthentication sshKeywords
                    && negb (SshBatchMode sshKeywords)
                 then authMethods ++ [keyboardInteractive] else authMethods
               else if decide (authMethodName = "password") then
                 if SshPasswordAuthentication sshKeywords
                    && negb (SshBatchMode sshKeywords)
                 then authMethods ++ [password] else authMethods
               else authMethods)
            authMethods preferred
    = (authMethodName <$> authMethods)
      ++ filter (λ name, authMethodActive sshKeywords name = true) preferred.
Proof.
  intros Hpk Hkbd Hpw preferred.
  induction preferred as [|name preferred IH]; intros authMethods.
  - cbn. by rewrite app_nil_r.
  - cbn [foldl]. rewrite IH, filter_cons.
    set (rest := filter _ preferred).
    destruct (decide (name = "publickey")) as [->|Hn1].
    { change (authMethodActive sshKeywords "publickey")
        with (SshPubkeyAuthentication sshKeywords).
      destruct (SshPubkeyAuthentication sshKeywords).
      - rewrite decide_True by done. rewrite fmap_app. cbn. rewrite Hpk.
        by rewrite <- app_assoc.
      - by rewrite decide_False. }
    destruct (decide (name = "keyboard-interactive")) as [->|Hn2].
    { change (authMethodActive sshKeywords "keyboard-interactive")
        with (SshKbdInteractiveAuthentication sshKeywords
              && negb (SshBatchMode sshKeywords)).
      destruct (SshKbdInteractiveAuthentication sshKeywords
                && negb (SshBatchMode sshKeywords)).
      - rewrite decide_True by done. rewrite fmap_app. cbn. rewrite Hkbd.
        by rewrite <- app_assoc.
      - by rewrite decide_False. }
    destruct (decide (name = "password")) as [->|Hn3].
    { change (authMethodActive sshKeywords "password")
        with (SshPasswordAuthentication sshKeywords
              && negb (SshBatchMode sshKeywords)).
      destruct (SshPasswordAuthentication sshKeywords
                && negb (SshBatchMode sshKeywords)).
      - rewrite decide_True by done. rewrite fmap_app. cbn. rewrite Hpw.
        by rewrite <- app_assoc.
      - by rewrite decide_False. }
    assert (authMethodActive sshKeywords name = false) as Hoff.
    { unfold authMethodActive. by rewrite !decide_False. }
    rewrite decide_False; [done|]. by rewrite Hoff.
Qed.

(** [createHostKeyCallback] reads the files and nothing else of the
    world. *)
Lemma createHostKeyCallback_reads_fs sshKeywords w w' :
  fs w = fs w' →
  (createHostKeyCallback E sshKeywords w).1 = (createHostKeyCallback E sshKeywords w').1
  ∧ (createHostKeyCallback E sshKeywords w).2 = w.
Proof.
  intros Hfs. unfold createHostKeyCallback.
  destruct (user_Current E); [done|]. case_decide; [done|]. unfoldM. cbn. rewrite Hfs.
  destruct (loadKnownHosts E _ _ _ _) as [[err|[[[[cb algos]|] files] unreadable]]|];
    done.
Qed.

(** [createClientConfig] up to the host-key setup, which decides its
    result. *)
Lemma createClientConfig_inv connCtx sshKeywords debugInfo w :
  ∃ w1,
    fs w1 = fs w ∧ human w1 = human w
    ∧ promptsOf (trace w1) = promptsOf (trace w)
    ∧ (createClientConfig E connCtx sshKeywords debugInfo w).2 = w1
    ∧ match (createHostKeyCallback E sshKeywords w1).1 with
      | inl err => (createClientConfig E connCtx sshKeywords debugInfo w).1 = inl err
      | inr (verifier, hostKeyAlgorithms) =>
        ∃ authMethods,
          authMethodName <$> authMethods
          = filter (λ name, authMethodActive sshKeywords name = true)
              (SshPreferredAuthentications sshKeywords)
          ∧ (createClientConfig E connCtx sshKeywords debugInfo w).1
            = inr (mkClientConfig (SshUser sshKeywords) authMethods
                     (waveHostKeyCallback E verifier) (knownHostsFiles verifier)
                     (hostKeyAlgorithms
                        (SshHostName sshKeywords +:+ ":" +:+ SshPort sshKeywords)))
      end.
Proof.
  unfold createClientConfig, createPublicKeyCallback. unfoldM.
  cbn -[createHostKeyCallback readIdentityFiles].
  destruct (agent_Dial E (SshIdentityAgent sshKeywords)) as [err|];
    cbn -[createHostKeyCallback readIdentityFiles];
    destruct (readIdentityFiles E (fs w) (SshIdentityFile sshKeywords))
      as [existingKeys files]; cbn -[createHostKeyCallback];
    match goal with
    | |- context [createHostKeyCallback E sshKeywords ?w1] =>
        destruct (createHostKeyCallback_reads_fs sshKeywords w1 w1 eq_refl) as [_ Hsame];
        exists w1;
        destruct (createHostKeyCallback E sshKeywords w1) as [[e|[v algos]] w2];
        cbn in Hsame; subst w2
    end;
    (split_and!;
     [done|done|cbn; rewrite !promptsOf_app; cbn; by rewrite ?app_nil_r|done|]);
    cbn [fst]; try done;
    (eexists; split; [|reflexivity]; by rewrite authMethods_names).
Qed.

(** X17: the authentication methods of the client configuration are the
    preferred methods that are active, in the preferred order: "publickey"
    when public-key authentication is on, "keyboard-interactive" and
    "password" when they are on and batch mode is off; any other name is
    skipped.  In batch mode only "publickey" can remain.  Building the
    configuration shows no prompt. *)
Theorem auth_methods_follow_preferences (connCtx : Context) (sshKeywords : ConnKeywords)
    (debugInfo : ConnectionDebugInfo) (w : World) (clientConfig : ClientConfig)
    (w' : World) :
  createClientConfig E connCtx sshKeywords debugInfo w = (inr clientConfig, w') →
  authMethodName <$> Auth clientConfig
  = filter (λ name, authMethodActive sshKeywords name = true)
      (SshPreferredAuthentications sshKeywords)
  ∧ (SshBatchMode sshKeywords = true →
     ∀ method, method ∈ Auth clientConfig → authMethodName method = "publickey")
  ∧ User clientConfig = SshUser sshKeywords
  ∧ promptsOf (trace w') = promptsOf (trace w)
  ∧ human w' = human w.
Proof.
  intros Hconfig.
  destruct (createClientConfig_inv connCtx sshKeywords debugInfo w)
    as (w1 & Hfs & Hhuman & Hprompts & Hworld & Hrun).
  rewrite Hconfig in Hworld, Hrun. cbn [fst snd] in *. subst w1.
  destruct (createHostKeyCallback E sshKeywords w').1 as [err|[v algos]]; [done|].
  destruct Hrun as (authMethods & Hnames & [= ->]). cbn [Auth User].
  split_and!; [done| |done|done|done].
  intros Hbatch method Hin.
  assert (authMethodName method ∈ authMethodName <$> authMethods) as Hname
    by (by apply list_elem_of_fmap_2).
  rewrite Hnames in Hname. apply list_elem_of_filter in Hname as [Hactive _].
  unfold authMethodActive in Hactive. rewrite Hbatch in Hactive.
  repeat case_decide; try done; by rewrite andb_false_r in Hactive.
Qed.

(** X18: [createClientConfig] fails exactly when the host-key setup fails,
    and with its error: an identity agent that cannot be reached and
    identity files that cannot be read do not fail it. *)
Theorem client_config_fails_only_for_host_keys (connCtx : Context)
    (sshKeywords : ConnKeywords) (debugInfo : ConnectionDebugInfo) (w : World)
    (err : error) :
  (createClientConfig E connCtx sshKeywords debugInfo w).1 = inl err
  ↔ (createHostKeyCallback E sshKeywords w).1 = inl err.
Proof.
  destruct (createClientConfig_inv connCtx sshKeywords debugInfo w)
    as (w1 & Hfs & _ & _ & _ & Hrun).
  destruct (createHostKeyCallback_reads_fs sshKeywords w1 w Hfs) as [Heq _].
  rewrite Heq in Hrun.
  destruct (createHostKeyCallback E sshKeywords w).1 as [e|[v algos]].
  - rewrite Hrun. split; by intros [= ->].
  - destruct Hrun as (authMethods & _ & ->). split; intros [=].
Qed.

End ConfigProofs.

(** ** The keywords of the configuration files *)

Section KeywordProofs.
Context (E : Env).

(** The loop over the [ProxyJump] value keeps the trimmed entries that are
    neither empty nor "none". *)
Lemma splitProxyJump_filter proxyJumpRaw :
  splitProxyJump E proxyJumpRaw
  = filter (λ name, name ≠ "" ∧ strings_ToLower E name ≠ "none")
      (strings_TrimSpace E <$> strings_Split E proxyJumpRaw ",").
Proof.
  unfold splitProxyJump.
  enough (∀ parts acc,
    foldl (λ acc proxyJumpName,
             let proxyJumpName := strings_TrimSpace E proxyJumpName in
             if bool_decide (proxyJumpName = "")
                || bool_decide (strings_ToLower E proxyJumpName = "none")
             then acc else acc ++ [proxyJumpName]) acc parts
    = acc ++ filter (λ name, name ≠ "" ∧ strings_ToLower E name ≠ "none")
               (strings_TrimSpace E <$> parts)) as Hfold by apply (Hfold _ []).
  induction parts as [|part parts IH]; intros acc.
  - cbn. by rewrite app_nil_r.
  - cbn [foldl]. rewrite IH, fmap_cons, filter_cons. cbv zeta.
    case_bool_decide as Hempty; cbn [orb].
    { rewrite decide_False; [done|]. by intros [? _]. }
    case_bool_decide as Hnone.
    { rewrite decide_False; [done|]. by intros [_ ?]. }
    rewrite decide_True by done. by rewrite <- app_assoc.
Qed.

(** X19: when [findSshConfigKeywords] succeeds, each of the eleven
    keywords it looks up strictly was found; the proxy jumps it returns are
    the trimmed, comma-separated entries of the [ProxyJump] value that are
    neither empty nor "none" (in any letter case), in their order; and the
    lookup asked nobody and left the files alone. *)
Theorem findSshConfigKeywords_success (hostPattern : string) (w : World)
    (sshKeywords : ConnKeywords) (w' : World) :
  findSshConfigKeywords E hostPattern w = (inr sshKeywords, w') →
  (∀ key, key ∈ strictKeywords → ∃ raw, GetStrict E hostPattern key = inr raw)
  ∧ (∃ proxyJumpRaw,
       GetStrict E hostPattern "ProxyJump" = inr proxyJumpRaw
       ∧ SshProxyJump sshKeywords
         = filter (λ name, name ≠ "" ∧ strings_ToLower E name ≠ "none")
             (strings_TrimSpace E <$> strings_Split E proxyJumpRaw ","))
  ∧ fs w' = fs w ∧ human w' = human w
  ∧ promptsOf (trace w') = promptsOf (trace w).
Proof.
  unfold findSshConfigKeywords. unfoldM. cbn. intros Hfind.
  destruct (GetStrict E hostPattern "User") as [?|userRaw] eqn:HUser; [done|].
  destruct (GetStrict E hostPattern "HostName") as [?|hostNameRaw] eqn:HHostName; [done|].
  destruct (GetStrict E hostPattern "Port") as [?|portRaw] eqn:HPort; [done|].
  destruct (GetStrict E hostPattern "BatchMode") as [?|batchModeRaw] eqn:HBatchMode; [done|].
  destruct (GetStrict E hostPattern "PubkeyAuthentication") as [?|pubkeyRaw] eqn:HPubkey;
    [done|].
  destruct (GetStrict E hostPattern "PasswordAuthentication") as [?|passwordRaw]
    eqn:HPassword; [done|].
  destruct (GetStrict E hostPattern "KbdInteractiveAuthentication") as [?|kbdRaw] eqn:HKbd;
    [done|].
  destruct (GetStrict E hostPattern "PreferredAuthentications") as [?|preferredRaw]
    eqn:HPreferred; [done|].
  destruct (GetStrict E hostPattern "AddKeysToAgent") as [?|addKeysRaw] eqn:HAddKeys;
    [done|].
  destruct (GetStrict E hostPattern "IdentityAgent") as [?|identityAgentRaw] eqn:HAgent;
    [done|].
  assert (∀ key, key ∈ strictKeywords → key ≠ "ProxyJump" →
            ∃ raw, GetStrict E hostPattern key = inr raw) as Hfound.
  { intros key Hkey Hnot. unfold strictKeywords in Hkey.
    repeat (apply elem_of_cons in Hkey as [->|Hkey]; [first [done|by eexists]|]).
    by apply elem_of_nil in Hkey. }
  assert (∀ proxyJumpRaw, GetStrict E hostPattern "ProxyJump" = inr proxyJumpRaw →
            ∀ key, key ∈ strictKeywords → ∃ raw, GetStrict E hostPattern key = inr raw)
    as Hall.
  { intros proxyJumpRaw Hproxy key Hkey.
    destruct (decide (key = "ProxyJump")) as [->|Hnot]; [by eexists|by apply Hfound]. }
  destruct (decide (identityAgentRaw = "")) as [Hempty|Hset].
  - destruct (authSockCommand_Output E) as [?|sshAuthSock]; cbn in Hfind.
    + destruct (GetStrict E hostPattern "ProxyJump") as [?|proxyJumpRaw] eqn:HProxy;
        [done|].
      injection Hfind as <- <-. cbn.
      split_and!; [by eapply Hall| |done|done|].
      * eexists. split; [done|]. apply splitProxyJump_filter.
      * rewrite !promptsOf_app. cbn. by rewrite !app_nil_r.
    + destruct (ExpandHomeDir E _) as [?|identityAgent]; [done|].
      destruct (GetStrict E hostPattern "ProxyJump") as [?|proxyJumpRaw] eqn:HProxy;
        [done|].
      injection Hfind as <- <-. cbn.
      split_and!; [by eapply Hall| |done|done|].
      * eexists. split; [done|]. apply splitProxyJump_filter.
      * rewrite !promptsOf_app. cbn. by rewrite !app_nil_r.
  - destruct (ExpandHomeDir E _) as [?|identityAgent]; [done|].
    destruct (GetStrict E hostPattern "ProxyJump") as [?|proxyJumpRaw] eqn:HProxy;
      [done|].
    injection Hfind as <- <-. cbn.
    split_and!; [by eapply Hall| |done|done|].
    + eexists. split; [done|]. apply splitProxyJump_filter.
    + rewrite !promptsOf_app. cbn. by rewrite !app_nil_r.
Qed.

(** X20: [findSshConfigKeywords] fails only with the error of a strict
    lookup of one of the eleven keywords or of the expansion of the
    identity agent's path.  A failing [SSH_AUTH_SOCK] query and missing
    known-hosts keywords do not fail it. *)
Theorem findSshConfigKeywords_failure (hostPattern : string) (w : World) (err : error)
    (w' : World) :
  findSshConfigKeywords E hostPattern w = (inl err, w') →
  (∃ key, key ∈ strictKeywords ∧ GetStrict E hostPattern key = inl err)
  ∨ (∃ path, ExpandHomeDir E path = inl err).
Proof.
  unfold findSshConfigKeywords. unfoldM. cbn. intros Hfind.
  assert (∀ key, key ∈ strictKeywords → GetStrict E hostPattern key = inl err →
            (∃ key, key ∈ strictKeywords ∧ GetStrict E hostPattern key = inl err)
            ∨ (∃ path, ExpandHomeDir E path = inl err)) as Hstrict.
  { intros key Hkey Hget. left. by exists key. }
  assert (∀ key, In key strictKeywords → key ∈ strictKeywords) as Hin.
  { intros key Hkey. by apply list_elem_of_In. }
  destruct (GetStrict E hostPattern "User") as [e|userRaw] eqn:HUser.
  { injection Hfind as -> _. eapply Hstrict; [|done]. apply Hin. cbn. tauto. }
  destruct (GetStrict E hostPattern "HostName") as [e|hostNameRaw] eqn:HHostName.
  { injection Hfind as -> _. eapply Hstrict; [|done]. apply Hin. cbn. tauto. }
  destruct (GetStrict E hostPattern "Port") as [e|portRaw] eqn:HPort.
  { injection Hfind as -> _. eapply Hstrict; [|done]. apply Hin. cbn. tauto. }
  destruct (GetStrict E hostPattern "BatchMode") as [e|batchModeRaw] eqn:HBatchMode.
  { injection Hfind as -> _. eapply Hstrict; [|done]. apply Hin. cbn. tauto. }
  destruct (GetStrict E hostPattern "PubkeyAuthentication") as [e|pubkeyRaw] eqn:HPubkey.
  { injection Hfind as -> _. eapply Hstrict; [|done]. apply Hin. cbn. tauto. }
  destruct (GetStrict E hostPattern "PasswordAuthentication") as [e|passwordRaw]
    eqn:HPassword.
  { injection Hfind as -> _. eapply Hstrict; [|done]. apply Hin. cbn. tauto. }
  destruct (GetStrict E hostPattern "KbdInteractiveAuthentication") as [e|kbdRaw] eqn:HKbd.
  { injection Hfind as -> _. eapply Hstrict; [|done]. apply Hin. cbn. tauto. }
  destruct (GetStrict E hostPattern "PreferredAuthentications") as [e|preferredRaw]
    eqn:HPreferred.
  { injection Hfind as -> _. eapply Hstrict; [|done]. apply Hin. cbn. tauto. }
  destruct (GetStrict E hostPattern "AddKeysToAgent") as [e|addKeysRaw] eqn:HAddKeys.
  { injection Hfind as -> _. eapply Hstrict; [|done]. apply Hin. cbn. tauto. }
  destruct (GetStrict E hostPattern "IdentityAgent") as [e|identityAgentRaw] eqn:HAgent.
  { injection Hfind as -> _. eapply Hstrict; [|done]. apply Hin. cbn. tauto. }
  destruct (decide (identityAgentRaw = "")) as [Hempty|Hset].
  - destruct (authSockCommand_Output E) as [sockErr|sshAuthSock]; cbn in Hfind.
    + destruct (GetStrict E hostPattern "ProxyJump") as [e|proxyJumpRaw] eqn:HProxy;
        [|done].
      injection Hfind as -> _. eapply Hstrict; [|done]. apply Hin. cbn. tauto.
    + destruct (ExpandHomeDir E _) as [e|identityAgent] eqn:Hexpand.
      { injection Hfind as -> _. right. by eexists. }
      destruct (GetStrict E hostPattern "ProxyJump") as [e|proxyJumpRaw] eqn:HProxy;
        [|done].
      injection Hfind as -> _. eapply Hstrict; [|done]. apply Hin. cbn. tauto.
  - destruct (ExpandHomeDir E _) as [e|identityAgent] eqn:Hexpand.
    { injection Hfind as -> _. right. by eexists. }
    destruct (GetStrict E hostPattern "ProxyJump") as [e|proxyJumpRaw] eqn:HProxy;
      [|done].
    injection Hfind as -> _. eapply Hstrict; [|done]. apply Hin. cbn. tauto.
Qed.

End KeywordProofs.

(** ** The chain of proxy jumps *)

Section ChainProofs.
Context (E : Env).

(** A successful [connectInternal] returns a client that runs through the
    current one. *)
Lemma connectInternal_chain ctx networkAddr clientConfig currentClient w client w' :
  connectInternal E ctx networkAddr clientConfig currentClient w = (inr client, w') →
  clientChain (Some client) = networkAddr :: clientChain currentClient.
Proof.
  unfold connectInternal. unfoldM. cbn.
  destruct (net_Dial E networkAddr currentClient); [done|].
  destruct (ssh_NewClientConn E networkAddr clientConfig _) as [[err|] w1]; [done|].
  intros [= <- _]. by destruct currentClient.
Qed.

(** Of the client and the error a call returns, exactly one is [nil]; a
    returned client runs through the client the call was given. *)
Lemma ConnectToClient_chain fuel :
  ∀ connCtx opts currentClient jumpNum connFlags w client j err w',
    ConnectToClient E fuel connCtx opts currentClient jumpNum connFlags w
      = (Some (client, j, err), w') →
    match client with
    | Some c =>
        err = None
        ∧ ∃ hops, hops ≠ [] ∧ clientChain (Some c) = hops ++ clientChain currentClient
    | None => err ≠ None
    end.
Proof.
  induction fuel as [|fuel IH];
    intros connCtx opts currentClient jumpNum connFlags w client j err w' Hcall;
    [discriminate|].
  cbn [ConnectToClient] in Hcall.
  set (info := mkDebugInfo currentClient opts jumpNum) in Hcall.
  destruct (decide (jumpNum > SshProxyJumpMaxDepth)) as [Hdepth|Hdepth].
  { by injection Hcall as <- <- <- <-. }
  unfoldM.
  destruct (findSshConfigKeywords E (SSHHost opts) w) as [[e|config] w1].
  { by injection Hcall as <- <- <- <-. }
  match type of Hcall with
  | context [combineSshKeywords ?a ?b ?c ?d] =>
      destruct (combineSshKeywords a b c d) as [e|sshKeywords]
  end.
  { by injection Hcall as <- <- <- <-. }
  destruct (proxyJumpLoop E (ConnectToClient E fuel connCtx) info
              (SshProxyJump sshKeywords) jumpNum w1)
    as [[[[j' e]|[info' j']]|] w2] eqn:Hloop; [| |done].
  { by injection Hcall as <- <- <- <-. }
  assert (∃ hops, clientChain (CurrentClient info') = hops ++ clientChain currentClient)
    as [hops Hhops].
  { apply (proxyJumpLoop_inv E (ConnectToClient E fuel connCtx)
             (λ info' _, ∃ hops, clientChain (CurrentClient info')
                                  = hops ++ clientChain currentClient)
             (λ _ _, True)) in Hloop; [done|done| |by exists []].
    intros info0 j0 proxyOpts wa c j1 e wb [hops0 Hhops0] Hrec.
    destruct e as [e|]; [done|].
    apply IH in Hrec. destruct c as [c|]; [|done].
    destruct Hrec as (_ & hops1 & _ & Hhops1). cbn [CurrentClient].
    exists (hops1 ++ hops0). by rewrite Hhops1, Hhops0, app_assoc. }
  destruct (createClientConfig E connCtx sshKeywords info' w2) as [[e|clientConfig] w3].
  { by injection Hcall as <- <- <- <-. }
  match type of Hcall with
  | context [connectInternal E connCtx ?addr clientConfig ?c w3] =>
      destruct (connectInternal E connCtx addr clientConfig c w3)
        as [[e|newClient] w4] eqn:Hconnect
  end.
  { by injection Hcall as <- <- <- <-. }
  injection Hcall as <- <- <- <-. split; [done|].
  apply connectInternal_chain in Hconnect. rewrite Hconnect, Hhops.
  by eexists (_ :: hops).
Qed.

(** X21: of the client and the error that [ConnectToClient] returns,
    exactly one is [nil]; and a returned client is a new transport that
    runs through the client the call was given: its chain of addresses is
    that client's chain with at least one hop in front. *)
Theorem new_client_runs_through_current_client (fuel : nat) (connCtx : Context)
    (opts : SSHOpts) (currentClient : option Client) (jumpNum : Z)
    (connFlags : ConnKeywords) (w : World) (client : option Client) (j : Z)
    (err : option error) (w' : World) :
  ConnectToClient E fuel connCtx opts currentClient jumpNum connFlags w
    = (Some (client, j, err), w') →
  (client = None ↔ err ≠ None)
  ∧ ∀ c, client = Some c →
      ∃ hops, hops ≠ [] ∧ clientChain (Some c) = hops ++ clientChain currentClient.
Proof.
  intros Hcall. apply ConnectToClient_chain in Hcall.
  destruct client as [c|].
  - destruct Hcall as [-> Hhops]. split; [done|]. by intros ? [= <-].
  - done.
Qed.

(** ** Fuel *)

(** More fuel for the recursive call does not change what the loop
    returns. *)
Lemma proxyJumpLoop_mono
    (connect connect' : SSHOpts → option Client → Z → ConnKeywords → M (option ConnectResult)) :
  (∀ proxyOpts client j flags w r w',
     connect proxyOpts client j flags w = (Some r, w') →
     connect' proxyOpts client j flags w = (Some r, w')) →
  ∀ proxies info j w r w',
    proxyJumpLoop E connect info proxies j w = (Some r, w') →
    proxyJumpLoop E connect' info proxies j w = (Some r, w').
Proof.
  intros Hmono proxies.
  induction proxies as [|proxyName proxies IH]; intros info j w r w' Hloop; [done|].
  cbn [proxyJumpLoop] in *.
  destruct (ParseOpts E proxyName) as [err|proxyOpts]; [done|].
  unfoldM.
  destruct (connect proxyOpts (CurrentClient info) (nextJump j) emptyConnKeywords w)
    as [[[[client j'] err]|] w1] eqn:Hrec; [|done].
  rewrite (Hmono _ _ _ _ _ _ _ Hrec).
  destruct err as [err|]; [done|]. by apply IH.
Qed.

(** A call that returns with some fuel returns the same with more. *)
Lemma ConnectToClient_mono fuel :
  ∀ fuel' connCtx opts currentClient jumpNum connFlags w r w',
    (fuel ≤ fuel')%nat →
    ConnectToClient E fuel connCtx opts currentClient jumpNum connFlags w = (Some r, w') →
    ConnectToClient E fuel' connCtx opts currentClient jumpNum connFlags w = (Some r, w').
Proof.
  induction fuel as [|fuel IH];
    intros fuel' connCtx opts currentClient jumpNum connFlags w r w' Hle Hcall;
    [discriminate|].
  destruct fuel' as [|fuel']; [lia|].
  cbn [ConnectToClient] in *.
  destruct (decide (jumpNum > SshProxyJumpMaxDepth)); [done|].
  unfoldM.
  destruct (findSshConfigKeywords E (SSHHost opts) w) as [[e|config] w1]; [done|].
  match type of Hcall with
  | context [combineSshKeywords ?a ?b ?c ?d] =>
      destruct (combineSshKeywords a b c d) as [e|sshKeywords]
  end; [done|].
  match type of Hcall with
  | context [proxyJumpLoop E ?connect ?info ?proxies jumpNum w1] =>
      destruct (proxyJumpLoop E connect info proxies jumpNum w1)
        as [[loop|] w2] eqn:Hloop; [|done]
  end.
  apply (proxyJumpLoop_mono _ (ConnectToClient E fuel' connCtx)) in Hloop.
  - by rewrite Hloop.
  - intros. apply IH; [lia|done].
Qed.

(** X22: the recursion of [ConnectToClient] is bounded by the depth
    check: for a jump number in the range of [int32], the call returns, and
    returns the same result and world, with every amount of fuel that
    covers the depths from [jumpNum] to [SshProxyJumpMaxDepth + 1]. *)
Theorem ConnectToClient_result_is_independent_of_fuel (connCtx : Context) (opts : SSHOpts)
    (currentClient : option Client) (jumpNum : Z) (connFlags : ConnKeywords) (w : World) :
  is_int32 jumpNum →
  ∃ r w', ∀ fuel,
    (enoughFuel jumpNum ≤ fuel)%nat →
    ConnectToClient E fuel connCtx opts currentClient jumpNum connFlags w = (Some r, w').
Proof.
  intros Hrange.
  destruct (ConnectToClient_terminates E (enoughFuel jumpNum) connCtx opts currentClient
              jumpNum connFlags w Hrange) as (r & w' & Hcall); [done|].
  exists r, w'. intros fuel Hfuel. by eapply ConnectToClient_mono.
Qed.

End ChainProofs.

(** ** Matching lines of a known-hosts file *)

Lemma bytes_HasPrefix_spec (s prefix : list Byte.byte) :
  bytes_HasPrefix s prefix = true ↔ ∃ after, s = prefix ++ after.
Proof.
  revert s. induction prefix as [|p prefix IH]; intros s.
  - split; [by exists s|by destruct s].
  - destruct s as [|b s]; cbn.
    + split; [done|]. by intros [after [=]].
    + rewrite andb_true_iff, IH. split.
      * intros [Heq [after ->]]. apply Byte.byte_dec_bl in Heq as ->. by exists after.
      * intros [after [= -> ->]]. split; [by apply Byte.byte_dec_lb|by exists after].
Qed.

Lemma bytes_Contains_spec (b subslice : list Byte.byte) :
  bytes_Contains b subslice = true ↔ ∃ before after, b = before ++ subslice ++ after.
Proof.
  induction b as [|c b IH]; cbn [bytes_Contains].
  - rewrite orb_false_r, bytes_HasPrefix_spec. split.
    + intros [after ->]. by exists [], after.
    + intros ([|? before] & after & Heq); [by exists after|done].
  - rewrite orb_true_iff, bytes_HasPrefix_spec, IH. split.
    + intros [[after ->]|(before & after & ->)].
      * by exists [], after.
      * by exists (c :: before), after.
    + intros ([|c' before] & after & Heq).
      * left. by exists after.
      * injection Heq as -> ->. right. by exists before, after.
Qed.

(** X23: [lineContainsMatch] is true exactly when one of the matches
    occurs in the line as a run of consecutive bytes.  So it is false for
    an empty list of matches, and true for every line as soon as one match
    is empty. *)
Theorem lineContainsMatch_spec (line : list Byte.byte) (matches : list (list Byte.byte)) :
  (lineContainsMatch line matches = true
   ↔ ∃ match_ before after, match_ ∈ matches ∧ line = before ++ match_ ++ after)
  ∧ lineContainsMatch line [] = false
  ∧ ([] ∈ matches → lineContainsMatch line matches = true).
Proof.
  assert (lineContainsMatch line matches = true
          ↔ ∃ match_ before after, match_ ∈ matches ∧ line = before ++ match_ ++ after)
    as Hspec.
  { induction matches as [|m matches IH]; cbn [lineContainsMatch].
    - split; [done|]. intros (? & ? & ? & Hin & _). by apply elem_of_nil in Hin.
    - destruct (bytes_Contains line m) eqn:Hm.
      + apply bytes_Contains_spec in Hm as (before & after & ->).
        split; [|done]. intros _. exists m, before, after. split; [|done].
        apply elem_of_cons. by left.
      + rewrite IH. split.
        * intros (m' & before & after & Hin & ->). exists m', before, after.
          split; [|done]. apply elem_of_cons. by right.
        * intros (m' & before & after & Hin & ->).
          apply elem_of_cons in Hin as [->|Hin]; [|by exists m', before, after].
          assert (bytes_Contains (before ++ m ++ after) m = true) as Hyes
            by (apply bytes_Contains_spec; by exists before, after).
          by rewrite Hyes in Hm. }
  split_and!; [done|done|].
  intros Hempty. apply Hspec. exists [], [], line. by split.
Qed.

(** ** Commands of [wshutil] *)

Section CommandProofs.
Context {TermSize : Type}.

(** X24: the command [ParseCmdMap] returns is of the type registered for
    the string under the key "command": a map is parsed only when that
    field is a string, the string is a key of [CommandToTypeMap], and the
    [GetCommand] method of the result answers that very string. *)
Theorem ParseCmdMap_command (J : Wshutil.Json TermSize) (cmdMap : gmap string Wshutil.any)
    (cmd : Wshutil.BlockCommand TermSize) :
  Wshutil.ParseCmdMap TermSize J cmdMap = inr cmd →
  cmdMap !! Wshutil.CommandKey = Some (Wshutil.AnyString (Wshutil.GetCommand TermSize cmd))
  ∧ Wshutil.CommandToTypeMap !! Wshutil.GetCommand TermSize cmd
    = Some (Wshutil.commandType TermSize cmd).
Proof.
  unfold Wshutil.ParseCmdMap. intros Hparse.
  destruct (cmdMap !! Wshutil.CommandKey) as [[| | |cmdType| |]|]; try done.
  destruct (Wshutil.json_Marshal TermSize J cmdMap) as [?|mapJson]; [done|].
  destruct (Wshutil.CommandToTypeMap !! cmdType) as [rtype|] eqn:Htype; [|done].
  destruct (Wshutil.json_Unmarshal TermSize J mapJson rtype) as [?|cmd'] eqn:Hun; [done|].
  injection Hparse as ->.
  unfold Wshutil.CommandToTypeMap in Htype.
  repeat (apply lookup_insert_Some in Htype as [[<- <-]|[_ Htype]];
          [cbn in Hun; unfold Wshutil.asCommand in Hun;
           repeat case_match; simplify_eq; done|]).
  done.
Qed.

(** X25: every command type is registered in [CommandToTypeMap] under the
    string its [GetCommand] method answers; so two commands with the same
    command string are of the same type. *)
Theorem GetCommand_registered (cmd cmd' : Wshutil.BlockCommand TermSize) :
  Wshutil.CommandToTypeMap !! Wshutil.GetCommand TermSize cmd
  = Some (Wshutil.commandType TermSize cmd)
  ∧ (Wshutil.GetCommand TermSize cmd = Wshutil.GetCommand TermSize cmd' →
     Wshutil.commandType TermSize cmd = Wshutil.commandType TermSize cmd').
Proof.
  split; [by destruct cmd|]. by destruct cmd, cmd'.
Qed.

End CommandProofs.

(** * The callbacks, the write loops and the hops, call by call *)

(** ** The public-key callback: what each call offers *)

Section OfferProofs.
Context (E : Env).

(** The contents [existingKeys] holds for an identity file are those of
    the file, read when the callback was created. *)
Lemma readIdentityFiles_contents fsys files identityFile privateKey :
  (readIdentityFiles E fsys files).1 !! identityFile = Some privateKey →
  ∃ filePath,
    ExpandHomeDir E identityFile = inr filePath ∧ fsys !! filePath = Some privateKey.
Proof.
  unfold readIdentityFiles.
  assert (Hfold : ∀ acc : gmap string string * list string,
    (∀ f k, acc.1 !! f = Some k →
       ∃ filePath, ExpandHomeDir E f = inr filePath ∧ fsys !! filePath = Some k) →
    ∀ f k, (foldl (readIdentityFile E fsys) acc files).1 !! f = Some k →
      ∃ filePath, ExpandHomeDir E f = inr filePath ∧ fsys !! filePath = Some k).
  { induction files as [|file files IH]; intros acc Hacc; cbn [foldl]; [done|].
    apply IH. unfold readIdentityFile.
    destruct (ExpandHomeDir E file) as [err|filePath] eqn:Hexpand; [done|].
    destruct (fsys !! filePath) as [contents|] eqn:Hread; [|done].
    cbn [fst snd]. intros f k Hlookup.
    destruct (decide (file = f)) as [->|Hne].
    - rewrite lookup_insert_eq in Hlookup. injection Hlookup as <-. by exists filePath.
    - rewrite lookup_insert_ne in Hlookup by done. by apply Hacc. }
  apply Hfold. cbn. intros f k Hlookup. by rewrite lookup_empty in Hlookup.
Qed.

Section Callback.
Context (connCtx : Context) (sshKeywords : ConnKeywords) (agentClient : option string)
        (debugInfo : ConnectionDebugInfo) (existingKeys : gmap string string).

Local Abbreviation callback :=
  (publicKeyCallback E connCtx sshKeywords agentClient debugInfo existingKeys).

(** A call that finds the agent's signers used up offers the identity
    file at the head of the queue, and nothing else. *)
Lemma publicKeyCallback_offer identityFile files privateKey w :
  existingKeys !! identityFile = Some privateKey →
  OfferOf E debugInfo privateKey
    (callback (mkPubKeyState [] (identityFile :: files)) w).1.1.
Proof.
  intros Hkey. unfold OfferOf, publicKeyCallback.
  cbn [authSockSigners identityFiles]. rewrite Hkey.
  destruct (ParseRawPrivateKey E privateKey) as [err|key].
  - destruct err; try done.
    destruct (SshBatchMode sshKeywords); [by left|]. unfoldM.
    destruct (GetUserInput _ _ w) as [[err|response] w1]; [right; left; by eexists|].
    destruct (ParseRawPrivateKeyWithPassphrase E privateKey (Text response))
      as [err|key] eqn:Hdecrypt; [by left|].
    destruct (NewSignerFromKey E key) as [err|signer] eqn:Hsigner; [by left|].
    right. right. exists (Text response), key, signer. split_and!; [done|done|].
    unfold addToAgent. unfoldM. by destruct (_ && _).
  - destruct (NewSignerFromKey E key) as [err|signer]; [done|].
    unfold addToAgent. unfoldM. by destruct (_ && _).
Qed.

(** With nothing left to offer, a call fails and changes nothing. *)
Lemma publicKeyCallback_empty w :
  callback (mkPubKeyState [] []) w
  = ((inl (ConnectionError debugInfo (Errorf "no identity files remaining" [])),
      mkPubKeyState [] []), w).
Proof. done. Qed.

(** The results of [n] successive calls, call by call. *)
Lemma callRepeatedly_results n :
  ∀ signers files w,
    let results := (callRepeatedly n callback (mkPubKeyState signers files) w).1.1 in
    (∀ i signer, signers !! i = Some signer → (i < n)%nat →
       results !! i = Some (inr [signer]))
    ∧ (∀ i identityFile privateKey,
         files !! i = Some identityFile →
         existingKeys !! identityFile = Some privateKey →
         (length signers + i < n)%nat →
         ∃ r, results !! (length signers + i)%nat = Some r
              ∧ OfferOf E debugInfo privateKey r)
    ∧ (∀ i, (length signers + length files ≤ i)%nat → (i < n)%nat →
         results !! i
         = Some (inl (ConnectionError debugInfo (Errorf "no identity files remaining" [])))).
Proof.
  induction n as [|n IH]; intros signers files w; cbv zeta.
  { split_and!; intros; lia. }
  cbn [callRepeatedly]. unfoldM.
  destruct signers as [|signer signers].
  - destruct files as [|file files].
    + rewrite publicKeyCallback_empty. cbn [fst snd].
      specialize (IH [] [] w). cbv zeta in IH.
      destruct (callRepeatedly n callback (mkPubKeyState [] []) w) as [[results st] w'].
      cbn [fst snd] in *. destruct IH as (_ & _ & Hrest).
      split_and!; [done|done|].
      intros [|i] _ Hlt; [done|]. cbn. apply Hrest; cbn; lia.
    + pose proof (publicKeyCallback_pops E connCtx sshKeywords agentClient debugInfo
                    existingKeys (file :: files) w) as Hpop.
      pose proof (λ privateKey,
        publicKeyCallback_offer file files privateKey w) as Hoffer.
      destruct (callback (mkPubKeyState [] (file :: files)) w) as [[r st1] w1].
      cbn [fst snd tail] in *. subst st1.
      specialize (IH [] files w1). cbv zeta in IH.
      destruct (callRepeatedly n callback (mkPubKeyState [] files) w1)
        as [[results st] w'].
      cbn [fst snd length] in *. destruct IH as (_ & Hfiles & Hrest).
      split_and!; [done| |].
      * intros [|i] identityFile privateKey Hfile Hkey Hlt; cbn in Hfile.
        -- injection Hfile as ->. exists r. split; [done|]. by apply Hoffer.
        -- cbn. eapply Hfiles; [done|done|lia].
      * intros [|i] Hge Hlt; [lia|]. cbn. apply Hrest; cbn; lia.
  - rewrite publicKeyCallback_agent. cbn [fst snd].
    specialize (IH signers files w). cbv zeta in IH.
    destruct (callRepeatedly n callback (mkPubKeyState signers files) w)
      as [[results st] w'].
    cbn [fst snd length] in *. destruct IH as (Hsigners & Hfiles & Hrest).
    split_and!.
    + intros [|i] s Hs Hlt; cbn in Hs; [by injection Hs as ->|].
      cbn. apply Hsigners; [done|lia].
    + intros i identityFile privateKey Hfile Hkey Hlt. cbn.
      eapply Hfiles; [done|done|lia].
    + intros [|i] Hge Hlt; [lia|]. cbn. apply Hrest; lia.
Qed.

(** The prompts of [n] successive calls are requests for the entries of
    the queue these calls took, in order and at most one per entry. *)
Lemma callRepeatedly_prompts n :
  ∀ signers files w,
    let w' := (callRepeatedly n callback (mkPubKeyState signers files) w).2 in
    ∃ asked,
      promptsOf (trace w') = promptsOf (trace w) ++ asked
      ∧ sublist asked
          ((λ identityFile, (WithTimeout connCtx 60, passphraseRequest identityFile))
           <$> take (n - length signers) files).
Proof.
  induction n as [|n IH]; intros signers files w; cbv zeta.
  { exists []. cbn. split; [by rewrite app_nil_r|apply sublist_nil_l]. }
  cbn [callRepeatedly]. unfoldM.
  pose proof (publicKeyCallback_effect E connCtx sshKeywords agentClient debugInfo
                existingKeys (mkPubKeyState signers files) w) as Hcall.
  cbv zeta in Hcall.
  assert (Hstate : (callback (mkPubKeyState signers files) w).1.2
                   = match signers with
                     | [] => mkPubKeyState [] (tail files)
                     | _ :: signers' => mkPubKeyState signers' files
                     end).
  { destruct signers; [apply publicKeyCallback_pops|done]. }
  destruct (callback (mkPubKeyState signers files) w) as [[r st1] w1].
  cbn [fst snd] in *. subst st1.
  destruct Hcall as (evs1 & Htr1 & _ & Hprompt1 & _).
  destruct signers as [|signer signers].
  - specialize (IH [] (tail files) w1). cbv zeta in IH.
    destruct (callRepeatedly n callback (mkPubKeyState [] (tail files)) w1)
      as [[results st'] w'].
    cbn [fst snd length] in *. rewrite Nat.sub_0_r in *.
    destruct IH as (asked & Hasked & Hsub).
    exists (promptsOf evs1 ++ asked). split.
    + by rewrite Hasked, Htr1, promptsOf_app, app_assoc.
    + destruct Hprompt1 as [[-> _]|(_ & _ & identityFile & Hhead & ->)].
      * destruct files as [|file files]; cbn in *; [by rewrite take_nil in Hsub|].
        by apply sublist_cons.
      * destruct files as [|file files]; [done|]. injection Hhead as ->.
        cbn. by apply sublist_skip.
  - specialize (IH signers files w1). cbv zeta in IH.
    destruct (callRepeatedly n callback (mkPubKeyState signers files) w1)
      as [[results st'] w'].
    cbn [fst snd length] in *.
    destruct IH as (asked & Hasked & Hsub).
    destruct Hprompt1 as [[Hp1 _]|(Hnil & _)]; [|done].
    exists asked. split; [|done].
    by rewrite Hasked, Htr1, promptsOf_app, Hp1, app_nil_r.
Qed.

End Callback.

(** C5: in any number [n] of successive invocations of the callback that
    [createPublicKeyCallback] returns, the first results are the agent's
    signers, one per call and in the agent's order, and as long as only
    those have been returned the queue of identity files (the readable
    ones among the configured files, in their order) and the world are
    untouched: no key is parsed into a signer, no passphrase is asked for.
    Each later call takes exactly one identity file off the front of the
    queue and offers that file and no other: the call number
    [length agents + i] returns what the contents of the entry number [i]
    of the queue give (its signer, the dummy signer, or the failure of its
    passphrase prompt), and the prompts shown are requests for the entries
    taken, in their order and at most one per entry.  Once the queue is
    empty every call fails with "no identity files remaining". *)
Theorem agent_signers_before_identity_files (connCtx : Context)
    (sshKeywords : ConnKeywords) (authSockSignersExt : list Signer)
    (agentClient : option string) (debugInfo : ConnectionDebugInfo)
    (n : nat) (w : World) :
  let '((callback, st0), w0) :=
    createPublicKeyCallback E connCtx sshKeywords authSockSignersExt agentClient
      debugInfo w in
  let '((results, st), w') := callRepeatedly n callback st0 w0 in
  let agents := authSockSignersExt in
  let queue := identityFiles st0 in
  authSockSigners st0 = agents
  ∧ sublist queue (SshIdentityFile sshKeywords)
  ∧ take (length agents) results = (λ signer, inr [signer]) <$> take n agents
  ∧ authSockSigners st = drop n agents
  ∧ identityFiles st = drop (n - length agents) queue
  ∧ length results = n
  ∧ ((n ≤ length agents)%nat → w' = w0)
  ∧ (∀ i signer, agents !! i = Some signer → (i < n)%nat →
       results !! i = Some (inr [signer]))
  ∧ (∀ i identityFile,
       queue !! i = Some identityFile → (length agents + i < n)%nat →
       ∃ filePath privateKey r,
         ExpandHomeDir E identityFile = inr filePath
         ∧ fs w !! filePath = Some privateKey
         ∧ results !! (length agents + i)%nat = Some r
         ∧ OfferOf E debugInfo privateKey r)
  ∧ (∀ i, (length agents + length queue ≤ i)%nat → (i < n)%nat →
       results !! i
       = Some (inl (ConnectionError debugInfo (Errorf "no identity files remaining" []))))
  ∧ (∃ asked,
       promptsOf (trace w') = promptsOf (trace w0) ++ asked
       ∧ sublist asked
           ((λ identityFile, (WithTimeout connCtx 60, passphraseRequest identityFile))
            <$> take (n - length agents) queue)).
Proof.
  unfold createPublicKeyCallback. unfoldM.
  pose proof (readIdentityFiles_sublist E (fs w) (SshIdentityFile sshKeywords)) as Hsub.
  pose proof (readIdentityFiles_keys E (fs w) (SshIdentityFile sshKeywords)) as Hkeys.
  pose proof (readIdentityFiles_contents (fs w) (SshIdentityFile sshKeywords)) as Hcontents.
  destruct (readIdentityFiles E (fs w) (SshIdentityFile sshKeywords))
    as [existingKeys files].
  cbn [fst snd] in *.
  pose proof (callRepeatedly_publicKey E connCtx sshKeywords agentClient debugInfo
                existingKeys n authSockSignersExt files w) as Hcalls.
  pose proof (callRepeatedly_results connCtx sshKeywords agentClient debugInfo
                existingKeys n authSockSignersExt files w) as Hresults.
  pose proof (callRepeatedly_prompts connCtx sshKeywords agentClient debugInfo
                existingKeys n authSockSignersExt files w) as Hprompts.
  cbv zeta in Hcalls, Hresults, Hprompts.
  destruct (callRepeatedly n _ _ w) as [[results st] w'].
  cbn [fst snd identityFiles authSockSigners] in *.
  destruct Hcalls as (Htake & Hagents & Hfiles & Hlen & Hworld).
  destruct Hresults as (Hsigners & Hoffers & Hrest).
  split_and!; try done.
  intros i identityFile Hfile Hlt.
  destruct (Hkeys identityFile) as [privateKey Hkey].
  { by eapply list_elem_of_lookup_2. }
  destruct (Hcontents identityFile privateKey Hkey) as (filePath & Hexpand & Hread).
  destruct (Hoffers i identityFile privateKey Hfile Hkey Hlt) as (r & Hr & Hoffer).
  by exists filePath, privateKey, r.
Qed.

End OfferProofs.

(** ** The public-key probe *)

Lemma string_app_inj (prefix s t : string) : prefix +:+ s = prefix +:+ t → s = t.
Proof.
  induction prefix as [|c prefix IH]; [done|].
  change (String c (prefix +:+ s) = String c (prefix +:+ t) → s = t).
  intros [= Heq]. by apply IH.
Qed.

Lemma passphraseRequest_inj (identityFile identityFile' : string) :
  passphraseRequest identityFile = passphraseRequest identityFile' →
  identityFile = identityFile'.
Proof. unfold passphraseRequest. intros [= Heq]. by eapply string_app_inj. Qed.

Section ProbeProofs.
Context (E : Env) (accepted : Signer → bool) (connCtx : Context)
        (sshKeywords : ConnKeywords) (agentClient : option string)
        (debugInfo : ConnectionDebugInfo) (existingKeys : gmap string string).

Local Abbreviation callback :=
  (publicKeyCallback E connCtx sshKeywords agentClient debugInfo existingKeys).

(** The prompts of a probe are requests for entries of the queue, in
    order and at most one per entry. *)
Lemma retryPublicKeys_prompts maxTries :
  ∀ files w,
    let w' := (retryPublicKeys accepted maxTries callback (mkPubKeyState [] files) w).2 in
    ∃ asked,
      promptsOf (trace w') = promptsOf (trace w) ++ asked
      ∧ sublist asked
          ((λ identityFile, (WithTimeout connCtx 60, passphraseRequest identityFile))
           <$> files).
Proof.
  induction maxTries as [|maxTries IH]; intros files w; cbv zeta.
  { exists []. cbn. split; [by rewrite app_nil_r|apply sublist_nil_l]. }
  cbn [retryPublicKeys]. unfoldM.
  pose proof (publicKeyCallback_effect E connCtx sshKeywords agentClient debugInfo
                existingKeys (mkPubKeyState [] files) w) as Hcall.
  pose proof (publicKeyCallback_pops E connCtx sshKeywords agentClient debugInfo
                existingKeys files w) as Hpop.
  cbv zeta in Hcall.
  destruct (callback (mkPubKeyState [] files) w) as [[r st1] w1].
  cbn [fst snd] in *. subst st1.
  destruct Hcall as (evs1 & Htr1 & _ & Hprompt1 & _).
  assert (sublist (promptsOf evs1)
            ((λ identityFile, (WithTimeout connCtx 60, passphraseRequest identityFile))
             <$> take 1 files)) as Hfirst.
  { destruct Hprompt1 as [[-> _]|(_ & _ & identityFile & Hhead & ->)];
      [apply sublist_nil_l|].
    destruct files as [|file files]; [done|]. by injection Hhead as ->. }
  assert (∀ asked,
    sublist asked
      ((λ identityFile, (WithTimeout connCtx 60, passphraseRequest identityFile))
       <$> tail files) →
    sublist (promptsOf evs1 ++ asked)
      ((λ identityFile, (WithTimeout connCtx 60, passphraseRequest identityFile))
       <$> files)) as Hboth.
  { intros asked Hasked. rewrite <- (take_drop 1 files), fmap_app.
    apply sublist_app; [done|]. by destruct files. }
  destruct r as [err|signers]; cbn.
  { exists (promptsOf evs1). split; [by rewrite Htr1, promptsOf_app|].
    rewrite <- (app_nil_r (promptsOf evs1)). apply Hboth, sublist_nil_l. }
  destruct (existsb accepted signers); cbn.
  { exists (promptsOf evs1). split; [by rewrite Htr1, promptsOf_app|].
    rewrite <- (app_nil_r (promptsOf evs1)). apply Hboth, sublist_nil_l. }
  specialize (IH (tail files) w1). cbv zeta in IH.
  destruct IH as (asked & Hasked & Hsub).
  exists (promptsOf evs1 ++ asked). split; [|by apply Hboth].
  by rewrite Hasked, Htr1, promptsOf_app, app_assoc.
Qed.

(** A probe over a queue without encrypted files asks nothing, and it
    ends with success, with a plain failure, or with the queue empty. *)
Lemma retryPublicKeys_plain dummy maxTries :
  createDummySigner E = inr dummy →
  ∀ files w,
    (∀ identityFile privateKey,
       identityFile ∈ files → existingKeys !! identityFile = Some privateKey →
       ParseRawPrivateKey E privateKey ≠ inl PassphraseMissingError) →
    let '((outcome, st), w') :=
      retryPublicKeys accepted maxTries callback (mkPubKeyState [] files) w in
    promptsOf (trace w') = promptsOf (trace w)
    ∧ human w' = human w
    ∧ (outcome = AuthSuccess ∨ outcome = AuthFailure
       ∨ outcome = AuthError (ConnectionError debugInfo
                                (Errorf "no identity files remaining" []))).
Proof.
  intros Hdummy.
  induction maxTries as [|maxTries IH]; intros files w Hplain.
  { cbn. split_and!; [done|done|by right; left]. }
  cbn [retryPublicKeys]. unfoldM.
  destruct files as [|file files].
  { cbn. split_and!; [done|done|by right; right]. }
  assert (∃ signers w1,
    callback (mkPubKeyState [] (file :: files)) w = ((inr signers, mkPubKeyState [] files), w1)
    ∧ promptsOf (trace w1) = promptsOf (trace w)
    ∧ human w1 = human w) as (signers & w1 & -> & Hp1 & Hh1).
  { unfold publicKeyCallback. cbn [authSockSigners identityFiles].
    destruct (existingKeys !! file) as [privateKey|] eqn:Hkey.
    2: { unfoldM. rewrite Hdummy. eexists _, _. split; [done|]. cbn.
         rewrite promptsOf_app. cbn. by rewrite app_nil_r. }
    pose proof (Hplain file privateKey (list_elem_of_here _ _) Hkey) as Hnot.
    destruct (ParseRawPrivateKey E privateKey) as [err|key].
    - rewrite Hdummy. destruct err; try done; by eexists _, _.
    - destruct (NewSignerFromKey E key) as [err|signer];
        [rewrite Hdummy; by eexists _, _|].
      unfold addToAgent. unfoldM. destruct (_ && _); eexists _, _; (split; [done|]); cbn;
        [|done]. rewrite promptsOf_app. cbn. by rewrite app_nil_r. }
  cbn [fst snd].
  destruct (existsb accepted signers); [by split_and!; [..|left]|].
  specialize (IH files w1).
  destruct (retryPublicKeys accepted maxTries callback (mkPubKeyState [] files) w1)
    as [[outcome st] w'].
  destruct IH as (Hp & Hh & Hout).
  { intros f k Hf. apply Hplain. by right. }
  split_and!; [by rewrite Hp|by rewrite Hh|done].
Qed.

(** C6, as the code has it.  An encrypted identity file is asked about
    once per entry of the queue: after a wrong passphrase the call returns
    the dummy signer, the entry is gone from the queue and the probe goes
    on with the rest; unless the same file is listed again, no later prompt
    asks for its passphrase.  When the next entry is encrypted as well and
    its prompt fails (the human dismisses it or lets it time out, or the
    connection context is done), the probe ends with a [ConnectionError]
    around a [UserInputCancelError]; the rest of the queue is left as it
    was and no further prompt is shown.  When no remaining
    entry is encrypted, there is no further prompt, and the probe ends with
    success, a plain failure or "no identity files remaining", never with a
    [UserInputCancelError]. *)
Theorem cancelled_passphrase_prompt_ends_probe (first firstKey : string)
    (resp : UserInputResponse) (replies : list HumanReply) (wrong : error)
    (dummy : list Signer) (w : World) :
  SshBatchMode sshKeywords = false →
  existingKeys !! first = Some firstKey →
  ParseRawPrivateKey E firstKey = inl PassphraseMissingError →
  ctxDone (cancelled w) connCtx = false →
  human w = Answer resp :: replies →
  ParseRawPrivateKeyWithPassphrase E firstKey (Text resp) = inl wrong →
  createDummySigner E = inr dummy →
  existsb accepted dummy = false →
  let ctx := WithTimeout connCtx 60 in
  let w1 := mkWorld (fs w) replies (cancelled w)
              (trace w ++ [EvPrompt ctx (passphraseRequest first)]) in
  (∀ files,
     callback (mkPubKeyState [] (first :: files)) w
     = ((inr dummy, mkPubKeyState [] files), w1))
  ∧ (∀ maxTries files,
       retryPublicKeys accepted (S maxTries) callback (mkPubKeyState [] (first :: files)) w
       = retryPublicKeys accepted maxTries callback (mkPubKeyState [] files) w1)
  ∧ (∀ maxTries files,
       first ∉ files →
       let w' := (retryPublicKeys accepted (S maxTries) callback
                    (mkPubKeyState [] (first :: files)) w).2 in
       ∃ later,
         promptsOf (trace w')
         = promptsOf (trace w) ++ (ctx, passphraseRequest first) :: later
         ∧ ∀ ctx', (ctx', passphraseRequest first) ∉ later)
  ∧ (∀ maxTries second secondKey files reason rest,
       existingKeys !! second = Some secondKey →
       ParseRawPrivateKey E secondKey = inl PassphraseMissingError →
       replies = NoAnswer reason :: rest →
       retryPublicKeys accepted (S (S maxTries)) callback
         (mkPubKeyState [] (first :: second :: files)) w
       = ((AuthError (ConnectionError debugInfo (UserInputCancelError (Errorf reason []))),
           mkPubKeyState [] files),
          mkWorld (fs w) rest (cancelled w)
            (trace w ++ [EvPrompt ctx (passphraseRequest first);
                         EvPrompt ctx (passphraseRequest second)])))
  ∧ (∀ maxTries second secondKey files cause w2,
       existingKeys !! second = Some secondKey →
       ParseRawPrivateKey E secondKey = inl PassphraseMissingError →
       GetUserInput ctx (passphraseRequest second) w1 = (inl cause, w2) →
       retryPublicKeys accepted (S (S maxTries)) callback
         (mkPubKeyState [] (first :: second :: files)) w
       = ((AuthError (ConnectionError debugInfo (UserInputCancelError cause)),
           mkPubKeyState [] files), w2)
       ∧ promptsOf (trace w2)
         = promptsOf (trace w)
           ++ [(ctx, passphraseRequest first); (ctx, passphraseRequest second)])
  ∧ (∀ maxTries files,
       (∀ identityFile privateKey,
          identityFile ∈ files → existingKeys !! identityFile = Some privateKey →
          ParseRawPrivateKey E privateKey ≠ inl PassphraseMissingError) →
       let '((outcome, st), w') :=
         retryPublicKeys accepted (S maxTries) callback
           (mkPubKeyState [] (first :: files)) w in
       promptsOf (trace w') = promptsOf (trace w) ++ [(ctx, passphraseRequest first)]
       ∧ human w' = replies
       ∧ (outcome = AuthSuccess ∨ outcome = AuthFailure
          ∨ outcome = AuthError (ConnectionError debugInfo
                                   (Errorf "no identity files remaining" [])))).
Proof.
  intros Hbatch Hfirst Henc Hctx Hhuman Hwrong Hdummy Hrejected ctx w1.
  assert (Hcall : ∀ files,
    callback (mkPubKeyState [] (first :: files)) w
    = ((inr dummy, mkPubKeyState [] files), w1)).
  { intros files. rewrite <- Hdummy.
    eapply publicKeyCallback_wrong_passphrase; [done..| |exact Hwrong].
    unfold GetUserInput. cbn [ctxDone]. by rewrite Hctx, Hhuman. }
  assert (Hprobe : ∀ maxTries files,
    retryPublicKeys accepted (S maxTries) callback (mkPubKeyState [] (first :: files)) w
    = retryPublicKeys accepted maxTries callback (mkPubKeyState [] files) w1).
  { intros maxTries files. cbn [retryPublicKeys]. unfoldM. rewrite Hcall.
    cbn [fst snd]. by rewrite Hrejected. }
  split_and!; [done|done| | | |].
  - intros maxTries files Hnot. cbv zeta. rewrite Hprobe.
    destruct (retryPublicKeys_prompts maxTries files w1) as (later & Hlater & Hsub).
    exists later. split.
    + rewrite Hlater. subst w1. cbn [trace]. rewrite promptsOf_app. cbn.
      by rewrite <- app_assoc.
    + intros ctx' Hin. eapply elem_of_sublist in Hin; [|exact Hsub].
      apply list_elem_of_fmap in Hin as (identityFile & Heq & Hfile).
      assert (passphraseRequest first = passphraseRequest identityFile) as Hsame
        by congruence.
      apply passphraseRequest_inj in Hsame as <-. done.
  - intros maxTries second secondKey files reason rest Hsecond Henc2 ->.
    rewrite Hprobe. cbn [retryPublicKeys]. unfoldM.
    erewrite publicKeyCallback_prompt_fails; [|done..|].
    2: { unfold GetUserInput. subst w1. cbn [ctxDone cancelled human].
         rewrite Hctx. reflexivity. }
    cbn. by rewrite <- app_assoc.
  - intros maxTries second secondKey files cause w2 Hsecond Henc2 Hprompt.
    rewrite Hprobe. cbn [retryPublicKeys]. unfoldM.
    erewrite publicKeyCallback_prompt_fails; [|done..]. split; [done|].
    pose proof (GetUserInput_effect ctx (passphraseRequest second) w1) as Heffect.
    rewrite Hprompt in Heffect. destruct Heffect as (_ & _ & -> & _).
    subst w1. cbn [trace]. rewrite !promptsOf_app. cbn. by rewrite <- app_assoc.
  - intros maxTries files Hplain. rewrite Hprobe.
    pose proof (retryPublicKeys_plain dummy maxTries Hdummy files w1 Hplain) as Hrest.
    destruct (retryPublicKeys accepted maxTries callback (mkPubKeyState [] files) w1)
      as [[outcome st] w'].
    destruct Hrest as (Hp & Hh & Hout). split_and!; [|done|done].
    rewrite Hp. subst w1. cbn [trace]. by rewrite promptsOf_app.
Qed.

End ProbeProofs.

(** ** Unknown hosts: the write loops, file by file *)

Section UnknownHostProofs.
Context (E : Env).






End UnknownHostProofs.

(** ** Errors of a connection: the failing hop *)

Section HopProofs.
Context (E : Env).

(** The hop at the end of the chain: the error of a failed call is the
    [ConnectionError] of a hop whose own step failed, and the returned jump
    number is the depth of that hop. *)
Lemma FailsWith_info connCtx opts start jumpNum connFlags j err :
  FailsWith E connCtx opts start jumpNum connFlags j err →
  (jumpNum ≤ j)%Z
  ∧ ∃ hopOpts hopStart hopFlags via cause,
      err = ConnectionError (mkDebugInfo via hopOpts j) cause
      ∧ StepFails E connCtx hopOpts hopStart j hopFlags via cause
      ∧ ((hopOpts = opts ∧ hopStart = start ∧ hopFlags = connFlags ∧ j = jumpNum)
         ∨ (hopFlags = emptyConnKeywords ∧ (jumpNum < j)%Z)).
Proof.
  induction 1 as [opts start jumpNum connFlags via cause Hstep
                 |opts start jumpNum connFlags w w' config sshKeywords proxyName
                    proxyOpts via jumpNum' j err _ _ _ _ _ Hlt _ IH].
  - split; [lia|]. exists opts, start, connFlags, via, cause.
    split_and!; [done|done|by left].
  - destruct IH as (Hle & hopOpts & hopStart & hopFlags & via' & cause & -> & Hstep
                    & Hwhere).
    split; [lia|]. exists hopOpts, hopStart, hopFlags, via', cause.
    split_and!; [done|done|]. right. destruct Hwhere as [(_ & _ & -> & _)|[-> _]];
      (split; [done|lia]).
Qed.

(** Every failed call fails as [FailsWith] describes. *)
Lemma ConnectToClient_fails fuel :
  ∀ connCtx opts currentClient jumpNum connFlags w client j err w',
    is_int32 jumpNum →
    ConnectToClient E fuel connCtx opts currentClient jumpNum connFlags w
      = (Some (client, j, Some err), w') →
    FailsWith E connCtx opts currentClient jumpNum connFlags j err.
Proof.
  induction fuel as [|fuel IH];
    intros connCtx opts currentClient jumpNum connFlags w client j err w' Hrange Hcall;
    [discriminate|].
  cbn [ConnectToClient] in Hcall.
  destruct (decide (jumpNum > SshProxyJumpMaxDepth)) as [Hdepth|Hdepth].
  { injection Hcall as <- <- <- <-. apply fails_here. by apply step_depth. }
  unfoldM.
  destruct (findSshConfigKeywords E (SSHHost opts) w) as [[cause|config] w1] eqn:Hfind.
  { injection Hcall as <- <- <- <-. apply fails_here.
    by eapply step_findSshConfigKeywords. }
  change (combineSshKeywords (user_Current E) _ config _)
    with (hopKeywords E opts connFlags config) in Hcall.
  destruct (hopKeywords E opts connFlags config) as [cause|sshKeywords] eqn:Hmerge.
  { injection Hcall as <- <- <- <-. apply fails_here.
    by eapply step_combineSshKeywords. }
  assert (Hloop : ∀ proxies info j0 wa r wb,
    (∀ proxyName, proxyName ∈ proxies → proxyName ∈ SshProxyJump sshKeywords) →
    NextOpts info = opts → JumpNum info = jumpNum →
    Transport E connCtx currentClient (SshProxyJump sshKeywords) (CurrentClient info) →
    is_int32 j0 → (jumpNum ≤ j0)%Z →
    proxyJumpLoop E (ConnectToClient E fuel connCtx) info proxies j0 wa = (Some r, wb) →
    match r with
    | inl (j', err') => FailsWith E connCtx opts currentClient jumpNum connFlags j' err'
    | inr (info', _) =>
        NextOpts info' = opts ∧ JumpNum info' = jumpNum
        ∧ Transport E connCtx currentClient (SshProxyJump sshKeywords) (CurrentClient info')
    end).
  { induction proxies as [|proxyName proxies IHp];
      intros info j0 wa r wb Hin Hopts Hjump Hvia Hj0 Hle Hrun.
    - cbn in Hrun. by injection Hrun as <- <-.
    - cbn [proxyJumpLoop] in Hrun.
      destruct (ParseOpts E proxyName) as [cause|proxyOpts] eqn:Hparse.
      + injection Hrun as <- <-. destruct info as [via o d]. cbn in *. subst o d.
        apply fails_here. eapply step_ParseOpts; [done|done|done| |done].
        apply Hin. by left.
      + unfoldM.
        destruct (ConnectToClient E fuel connCtx proxyOpts (CurrentClient info)
                    (nextJump j0) emptyConnKeywords wa)
          as [[[[c j1] [e|]]|] wc] eqn:Hrec; [| |done].
        * injection Hrun as <- <-.
          destruct (nextJump_spec j0 Hj0) as (Heq & Hnext & Hmono).
          eapply fails_deeper with (jumpNum' := nextJump j0); [done|done| |done|done| |].
          -- apply Hin. by left.
          -- rewrite Heq. unfold MaxInt32, SshProxyJumpMaxDepth in *. lia.
          -- by eapply IH.
        * destruct (nextJump_spec j0 Hj0) as (Heq & Hnext & Hmono).
          destruct (ConnectToClient_returns E _ _ _ _ _ _ _ _ _ _ _ Hnext Hrec)
            as (Hj1 & Hle1 & _).
          eapply IHp; [| | | | | |exact Hrun]; cbn; try done.
          -- intros p Hp. apply Hin. by right.
          -- eapply transport_jump; [|done|done|done]. apply Hin. by left.
          -- lia. }
  specialize (Hloop (SshProxyJump sshKeywords) (mkDebugInfo currentClient opts jumpNum)
                jumpNum w1).
  destruct (proxyJumpLoop E (ConnectToClient E fuel connCtx)
              (mkDebugInfo currentClient opts jumpNum) (SshProxyJump sshKeywords)
              jumpNum w1) as [[r|] w2] eqn:Hrun; [|done].
  specialize (Hloop r w2).
  assert (Hstart : Transport E connCtx currentClient (SshProxyJump sshKeywords)
                     currentClient) by constructor.
  specialize (Hloop ltac:(done) eq_refl eq_refl Hstart Hrange ltac:(lia) eq_refl).
  destruct r as [[j' e]|[info' j']].
  { by injection Hcall as <- <- <- <-. }
  destruct Hloop as (Hopts & Hjump & Hvia).
  destruct info' as [via o d]. cbn in Hopts, Hjump, Hvia. subst o d.
  destruct (createClientConfig E connCtx sshKeywords _ w2)
    as [[cause|clientConfig] w3] eqn:Hconfig.
  { injection Hcall as <- <- <- <-. apply fails_here.
    by eapply step_createClientConfig. }
  cbn [CurrentClient JumpNum] in Hcall.
  destruct (connectInternal E connCtx _ clientConfig via w3)
    as [[cause|newClient] w4] eqn:Hconnect; [|done].
  injection Hcall as <- <- <- <-. apply fails_here.
  by eapply step_connectInternal.
Qed.

(** C8: every error [ConnectToClient] returns is a [ConnectionError]
    made at the hop where a step failed, with the debug information of
    that hop: its current transport (the transport the hop was called
    with, or the client of the last proxy jump it connected), the options
    of the hop and its depth, around the error of the step as it was.  The
    hop is this call, or a call for one of the proxy jumps, found by
    following proxy-jump entries that parse, each at a greater depth; the
    returned jump number is the depth of the failing hop, and no client is
    returned.  Conversely, the failure of each step of a call makes the
    call return that error: a failed lookup of the configuration, a failed
    merge, a proxy-jump entry that does not parse, a failed client
    configuration and a failed connection are wrapped with the debug
    information of the call, and the error of a recursive call for a proxy
    jump is returned as it is, without another wrapper. *)
Theorem connect_errors_are_wrapped (fuel : nat) (connCtx : Context) (opts : SSHOpts)
    (currentClient : option Client) (jumpNum : Z) (connFlags : ConnKeywords)
    (w : World) :
  is_int32 jumpNum →
  let call := ConnectToClient E (S fuel) connCtx opts currentClient jumpNum connFlags w in
  let info := mkDebugInfo currentClient opts jumpNum in
  (∀ client j err w',
     call = (Some (client, j, Some err), w') →
     client = None ∧ is_int32 j ∧ (jumpNum ≤ j)%Z
     ∧ FailsWith E connCtx opts currentClient jumpNum connFlags j err
     ∧ ∃ hopOpts hopStart hopFlags via cause,
         err = ConnectionError (mkDebugInfo via hopOpts j) cause
         ∧ StepFails E connCtx hopOpts hopStart j hopFlags via cause
         ∧ ((hopOpts = opts ∧ hopStart = currentClient ∧ hopFlags = connFlags
             ∧ j = jumpNum)
            ∨ (hopFlags = emptyConnKeywords ∧ (jumpNum < j)%Z))
         ∧ isUserCancel err = isUserCancel cause)
  ∧ ((jumpNum ≤ SshProxyJumpMaxDepth)%Z →
     (∀ cause w1,
        findSshConfigKeywords E (SSHHost opts) w = (inl cause, w1) →
        call = (Some (None, jumpNum, Some (ConnectionError info cause)), w1))
     ∧ (∀ sshConfigKeywords w1 cause,
          findSshConfigKeywords E (SSHHost opts) w = (inr sshConfigKeywords, w1) →
          hopKeywords E opts connFlags sshConfigKeywords = inl cause →
          call = (Some (None, jumpNum, Some (ConnectionError info cause)), w1))
     ∧ (∀ sshConfigKeywords w1 sshKeywords r w2,
          findSshConfigKeywords E (SSHHost opts) w = (inr sshConfigKeywords, w1) →
          hopKeywords E opts connFlags sshConfigKeywords = inr sshKeywords →
          proxyJumpLoop E (ConnectToClient E fuel connCtx) info
            (SshProxyJump sshKeywords) jumpNum w1 = (Some r, w2) →
          match r with
          | inl (j, err) => call = (Some (None, j, Some err), w2)
          | inr (info', _) =>
            (∀ cause w3,
               createClientConfig E connCtx sshKeywords info' w2 = (inl cause, w3) →
               call = (Some (None, JumpNum info', Some (ConnectionError info' cause)), w3))
            ∧ (∀ clientConfig w3 cause w4,
                 createClientConfig E connCtx sshKeywords info' w2
                   = (inr clientConfig, w3) →
                 connectInternal E connCtx
                   (SshHostName sshKeywords +:+ ":" +:+ SshPort sshKeywords)
                   clientConfig (CurrentClient info') w3 = (inl cause, w4) →
                 call = (Some (None, JumpNum info', Some (ConnectionError info' cause)),
                         w4))
          end))
  ∧ (∀ connect hop proxyName proxies j w0,
       (∀ cause,
          ParseOpts E proxyName = inl cause →
          proxyJumpLoop E connect hop (proxyName :: proxies) j w0
          = (Some (inl (JumpNum hop, ConnectionError hop cause)), w0))
       ∧ (∀ proxyOpts client j' err w1,
            ParseOpts E proxyName = inr proxyOpts →
            connect proxyOpts (CurrentClient hop) (nextJump j) emptyConnKeywords w0
              = (Some (client, j', Some err), w1) →
            proxyJumpLoop E connect hop (proxyName :: proxies) j w0
            = (Some (inl (j', err)), w1))
       ∧ (∀ proxyOpts client j' w1,
            ParseOpts E proxyName = inr proxyOpts →
            connect proxyOpts (CurrentClient hop) (nextJump j) emptyConnKeywords w0
              = (Some (client, j', None), w1) →
            proxyJumpLoop E connect hop (proxyName :: proxies) j w0
            = proxyJumpLoop E connect (mkDebugInfo client (NextOpts hop) (JumpNum hop))
                proxies j' w1)).
Proof.
  intros Hrange call info. split_and!.
  - intros client j err w' Hcall.
    destruct (ConnectToClient_returns E _ _ _ _ _ _ _ _ _ _ _ Hrange Hcall)
      as (Hj & Hle & -> & _).
    pose proof (ConnectToClient_fails _ _ _ _ _ _ _ _ _ _ _ Hrange Hcall) as Hfails.
    destruct (FailsWith_info _ _ _ _ _ _ _ Hfails)
      as (_ & hopOpts & hopStart & hopFlags & via & cause & -> & Hstep & Hwhere).
    split_and!; [done..|]. by exists hopOpts, hopStart, hopFlags, via, cause.
  - intros Hdepth.
    assert (Hstart : ∀ k,
      call = (let '(r, w1) := findSshConfigKeywords E (SSHHost opts) w in
              match r with
              | inl cause =>
                  (Some (None, jumpNum, Some (ConnectionError info cause)), w1)
              | inr sshConfigKeywords =>
                match hopKeywords E opts connFlags sshConfigKeywords with
                | inl cause =>
                    (Some (None, jumpNum, Some (ConnectionError info cause)), w1)
                | inr sshKeywords => k sshKeywords w1
                end
              end) →
      (∀ cause w1,
         findSshConfigKeywords E (SSHHost opts) w = (inl cause, w1) →
         call = (Some (None, jumpNum, Some (ConnectionError info cause)), w1))
      ∧ (∀ sshConfigKeywords w1 cause,
           findSshConfigKeywords E (SSHHost opts) w = (inr sshConfigKeywords, w1) →
           hopKeywords E opts connFlags sshConfigKeywords = inl cause →
           call = (Some (None, jumpNum, Some (ConnectionError info cause)), w1))
      ∧ (∀ sshConfigKeywords w1 sshKeywords,
           findSshConfigKeywords E (SSHHost opts) w = (inr sshConfigKeywords, w1) →
           hopKeywords E opts connFlags sshConfigKeywords = inr sshKeywords →
           call = k sshKeywords w1)).
    { intros k ->. split_and!.
      - intros cause w1 Hfind. by rewrite Hfind.
      - intros config w1 cause Hfind Hmerge. by rewrite Hfind, Hmerge.
      - intros config w1 sshKeywords Hfind Hmerge. by rewrite Hfind, Hmerge. }
    edestruct Hstart as (Hfind & Hmerge & Hrest).
    { subst call. cbn [ConnectToClient]. rewrite decide_False by lia. unfoldM.
      destruct (findSshConfigKeywords E (SSHHost opts) w) as [[cause|config] w1];
        [done|].
      change (combineSshKeywords (user_Current E) _ config _)
        with (hopKeywords E opts connFlags config).
      destruct (hopKeywords E opts connFlags config) as [cause|sshKeywords]; [done|].
      fold info.
      instantiate (1 := λ sshKeywords w1,
        let '(loop, w2) :=
          proxyJumpLoop E (ConnectToClient E fuel connCtx) info
            (SshProxyJump sshKeywords) jumpNum w1 in
        match loop with
        | None => (None, w2)
        | Some (inl (j, err)) => (Some (None, j, Some err), w2)
        | Some (inr (info', _)) =>
          let '(clientConfig, w3) :=
            createClientConfig E connCtx sshKeywords info' w2 in
          match clientConfig with
          | inl err =>
              (Some (None, JumpNum info', Some (ConnectionError info' err)), w3)
          | inr clientConfig =>
            let '(client, w4) :=
              connectInternal E connCtx
                (SshHostName sshKeywords +:+ ":" +:+ SshPort sshKeywords)
                clientConfig (CurrentClient info') w3 in
            match client with
            | inl err =>
                (Some (None, JumpNum info', Some (ConnectionError info' err)), w4)
            | inr client => (Some (Some client, JumpNum info', None), w4)
            end
          end
        end).
      cbv beta.
      destruct (proxyJumpLoop E _ info _ jumpNum w1) as [[[[j e]|[info' j']]|] w2];
        [done| |done].
      destruct (createClientConfig E connCtx sshKeywords info' w2)
        as [[e|clientConfig] w3]; [done|].
      by destruct (connectInternal E connCtx _ clientConfig _ w3) as [[e|client] w4]. }
    split_and!; [done|done|].
    intros config w1 sshKeywords r w2 Hf Hm Hloop.
    rewrite (Hrest _ _ _ Hf Hm), Hloop.
    destruct r as [[j err]|[info' j']]; [done|]. split.
    + intros cause w3 Hconfig. by rewrite Hconfig.
    + intros clientConfig w3 cause w4 Hconfig Hconnect. by rewrite Hconfig, Hconnect.
  - intros connect hop proxyName proxies j w0. split_and!.
    + intros cause Hparse. cbn [proxyJumpLoop]. by rewrite Hparse.
    + intros proxyOpts client j' err w1 Hparse Hrec.
      by eapply proxyJumpLoop_propagates.
    + intros proxyOpts client j' w1 Hparse Hrec.
      cbn [proxyJumpLoop]. rewrite Hparse. unfoldM. by rewrite Hrec.
Qed.

End HopProofs.

(** * The further theorems at work on the concrete environment *)

(** X2 at work: a caller that asks for batch mode and for its own
    known-hosts file gets the merge of a caller that asks for neither. *)
Lemma combineSshKeywords_ignores_caller_policy_witness :
  let caller :=
    mkConnKeywords "bob" "example.org" "2200" ["/id_bob"] true false false false
      ["password"] true "/tmp/agent" ["evil"] ["/tmp/known_hosts"] [] in
  let caller' :=
    mkConnKeywords "bob" "example.org" "2200" ["/id_bob"] false true true true
      [] false "" [] [] [] in
  combineSshKeywords (inr "alice") caller (Demo.keywords []) None
  = combineSshKeywords (inr "alice") caller' (Demo.keywords []) None.
Proof.
  intros caller caller'.
  exact (proj1 (combineSshKeywords_ignores_caller_policy (inr "alice") caller caller'
                  (Demo.keywords []) None eq_refl eq_refl eq_refl eq_refl)).
Defined.

(** X3 at work: the caller's proxy jumps and batch mode do not reach the
    connection. *)
Lemma ConnectToClient_ignores_caller_policy_witness :
  let connFlags :=
    mkConnKeywords "bob" "other.org" "2200" [] true false false false
      ["password"] true "/tmp/agent" ["evil"] ["/tmp/known_hosts"] [] in
  let opts := mkSSHOpts "web" "" 0 in
  ConnectToClient Demo.env 3 (CancelCtx 0) opts None 0 connFlags (Demo.world [] [])
  = ConnectToClient Demo.env 3 (CancelCtx 0) opts None 0 emptyConnKeywords
      (Demo.world [] []).
Proof.
  intros connFlags opts.
  exact (ConnectToClient_ignores_caller_policy Demo.env 3 (CancelCtx 0) opts None 0
           connFlags emptyConnKeywords (Demo.world [] []) eq_refl).
Defined.

(** X4 at work: two questions, the second with echo, both answered. *)
Lemma kbd_interactive_answers_in_order_witness :
  let w := Demo.world [] [Demo.typed "hunter2"; Demo.typed "123456"; Demo.confirm] in
  ∃ w',
    createInteractiveKbdInteractiveChallenge (CancelCtx 0) "alice@example.org:22"
      Demo.info "" "" ["Password: "; "Code: "] [false; true] w
    = (inr ["hunter2"; "123456"], w')
    ∧ human w' = [Demo.confirm]
    ∧ length (promptsOf (trace w')) = 2%nat.
Proof.
  intros w. eexists. split.
  - exact (kbd_interactive_answers_in_order (CancelCtx 0) "alice@example.org:22"
             Demo.info "" "" ["Password: "; "Code: "] [false; true]
             [mkResponse "text" "hunter2" false; mkResponse "text" "123456" false]
             [Demo.confirm] w eq_refl eq_refl eq_refl eq_refl).
  - split; reflexivity.
Defined.

(** X5 at work: the first question is answered, the prompt for the second
    is dismissed, the third is never asked. *)
Lemma kbd_interactive_stops_at_first_failure_witness :
  let w := Demo.world [] [Demo.typed "hunter2"; NoAnswer "canceled"; Demo.typed "unused"] in
  ∃ w',
    createInteractiveKbdInteractiveChallenge (CancelCtx 0) "alice@example.org:22"
      Demo.info "" "" ["Password: "; "Code: "; "Pin: "] [false; true; false] w
    = (inl (ConnectionError Demo.info (Errorf "canceled" [])), w')
    ∧ human w' = [Demo.typed "unused"]
    ∧ length (promptsOf (trace w')) = 2%nat.
Proof.
  intros w. eexists. split.
  - exact (proj2 (kbd_interactive_stops_at_first_failure (CancelCtx 0)
                    "alice@example.org:22" Demo.info "" "" ["Password: "] "Code: "
                    ["Pin: "] [false; true; false] [mkResponse "text" "hunter2" false]
                    "canceled" [Demo.typed "unused"] w eq_refl eq_refl eq_refl eq_refl)).
  - split; reflexivity.
Defined.

(** X6 at work: the store knows [example.org] with the key it presents;
    the verifier accepts it without a prompt. *)
Lemma verifier_passes_database_answer_on_witness :
  let w := Demo.world [] [Demo.confirm] in
  let v := mkVerifier
             (Demo.check [("example.org", mkKnownKey Demo.serverKey Demo.knownHosts 0)])
             [] [Demo.knownHosts] in
  waveHostKeyCallback Demo.env v [Demo.knownHosts] "example.org" "192.0.2.1:22"
    Demo.serverKey w
  = ((None, [Demo.knownHosts]), w).
Proof.
  intros w v.
  refine (verifier_passes_database_answer_on Demo.env v [Demo.knownHosts] "example.org"
            "192.0.2.1:22" Demo.serverKey w _).
  intros want. vm_compute. discriminate.
Defined.

(** X7 at work: for [root], keywords that differ in the user known-hosts
    files give the same verifier. *)
Lemma root_ignores_user_known_hosts_witness :
  let w := Demo.world [("/etc/ssh/ssh_known_hosts", Demo.exampleLine)] [] in
  let sshKeywords :=
    mkConnKeywords "root" "example.org" "22" [] false true true true [] false "" []
      [Demo.knownHosts] ["/etc/ssh/ssh_known_hosts"] in
  let sshKeywords' :=
    mkConnKeywords "root" "example.org" "22" [] false true true true [] false "" []
      [] ["/etc/ssh/ssh_known_hosts"] in
  createHostKeyCallback rootEnv sshKeywords w = createHostKeyCallback rootEnv sshKeywords' w.
Proof.
  intros w sshKeywords sshKeywords'.
  exact (root_ignores_user_known_hosts rootEnv sshKeywords sshKeywords' w eq_refl eq_refl).
Defined.

(** X9 at work: in batch mode an encrypted identity file is skipped
    without a prompt. *)
Lemma batch_mode_never_asks_for_a_passphrase_witness :
  let sshKeywords :=
    mkConnKeywords "alice" "example.org" "22" ["/id_rsa"] true true true true
      ["publickey"] false "" [] [Demo.knownHosts] [] in
  let keys : gmap string string := {["/id_rsa" := "ENCRYPTED KEY"]} in
  let w := Demo.world [] [Demo.typed "opensesame"] in
  let w' := (callRepeatedly 2
               (publicKeyCallback Demo.env (CancelCtx 0) sshKeywords None Demo.info keys)
               (mkPubKeyState [] ["/id_rsa"]) w).2 in
  promptsOf (trace w') = promptsOf (trace w) ∧ human w' = human w.
Proof.
  intros sshKeywords keys w.
  exact (batch_mode_never_asks_for_a_passphrase Demo.env (CancelCtx 0) sshKeywords None
           Demo.info keys 2 (mkPubKeyState [] ["/id_rsa"]) w eq_refl).
Defined.

(** X10 at work: [AddKeysToAgent] is off; after two calls, one of which
    reads a key, the trace holds no [agent.Add]. *)
Lemma keys_reach_the_agent_only_on_request_witness :
  let keys : gmap string string := {["/id_a" := "PLAIN KEY"]} in
  let w := Demo.world [] [] in
  EvAgentAdd "key-1"
    ∉ trace (callRepeatedly 2
               (publicKeyCallback Demo.env (CancelCtx 0) (Demo.keywords ["/id_a"])
                  (Some "/tmp/agent") Demo.info keys)
               (mkPubKeyState [] ["/id_a"]) w).2.
Proof.
  intros keys w.
  refine (keys_reach_the_agent_only_on_request Demo.env (CancelCtx 0)
            (Demo.keywords ["/id_a"]) (Some "/tmp/agent") Demo.info keys 2
            (mkPubKeyState [] ["/id_a"]) w "key-1" (or_introl eq_refl) _).
  apply not_elem_of_nil.
Defined.

(** X11 at work: of the two configured files the first exists; the
    verifier keeps it and remembers the second as unreadable. *)
Lemma known_hosts_files_are_partitioned_witness :
  let w := Demo.world [(Demo.knownHosts, Demo.exampleLine)] [] in
  ∃ v algorithms,
    createHostKeyCallback Demo.env (Demo.keywords []) w = (inr (v, algorithms), w)
    ∧ sublist (knownHostsFiles v) [Demo.knownHosts; Demo.knownHosts2]
    ∧ (∀ file, file ∈ unreadableFiles v → file ∉ knownHostsFiles v).
Proof.
  intros w.
  assert (∃ v algorithms,
            createHostKeyCallback Demo.env (Demo.keywords []) w = (inr (v, algorithms), w))
    as (v & algorithms & Hrun) by (eexists _, _; vm_compute; reflexivity).
  exists v, algorithms. split; [exact Hrun|].
  destruct (known_hosts_files_are_partitioned Demo.env (Demo.keywords []) w v algorithms w
              "alice" Hrun eq_refl) as (_ & Hkept & _ & Hdisjoint).
  split; [exact Hkept|exact Hdisjoint].
Defined.

(** X12 at work: the database of the verifier is the one built from the
    file it kept. *)
Lemma verifier_database_is_built_from_kept_files_witness :
  let w := Demo.world [(Demo.knownHosts, Demo.exampleLine)] [] in
  ∃ v algorithms,
    createHostKeyCallback Demo.env (Demo.keywords []) w = (inr (v, algorithms), w)
    ∧ knownHostsFiles v = [Demo.knownHosts]
    ∧ knownhosts_NewDB Demo.env (fs w) [Demo.knownHosts] = inr (basicCallback v, algorithms).
Proof.
  intros w.
  assert (∃ v algorithms,
            createHostKeyCallback Demo.env (Demo.keywords []) w = (inr (v, algorithms), w)
            ∧ knownHostsFiles v = [Demo.knownHosts])
    as (v & algorithms & Hrun & Hkept)
    by (eexists _, _; split; vm_compute; reflexivity).
  exists v, algorithms. split; [exact Hrun|]. split; [exact Hkept|].
  rewrite <- Hkept.
  apply (proj1 (verifier_database_is_built_from_kept_files Demo.env (Demo.keywords []) w v
                  algorithms w Hrun)).
  rewrite Hkept. discriminate.
Defined.

(** X14 at work: the only known-hosts file is the global one, which
    cannot be opened for writing; the unknown host is refused and the human,
    who would confirm, is not asked. *)
Lemma unknown_host_without_writable_file_witness :
  let w := Demo.world [] [Demo.confirm] in
  let v := mkVerifier (Demo.check []) [] ["/etc/ssh/ssh_known_hosts"] in
  ∃ err w',
    waveHostKeyCallback Demo.env v ["/etc/ssh/ssh_known_hosts"] "example.org"
      "192.0.2.1:22" Demo.serverKey w
    = ((Some (Errorf "unable to create new knownhost key: %e" [FErr err]),
        ["/etc/ssh/ssh_known_hosts"]), w')
    ∧ promptsOf (trace w') = []
    ∧ human w' = [Demo.confirm].
Proof.
  intros w v.
  destruct (unknown_host_without_writable_file Demo.env v ["/etc/ssh/ssh_known_hosts"]
              "example.org" "192.0.2.1:22" Demo.serverKey w eq_refl)
    as (err & w' & Hrun & Hprompts & Hhuman & _).
  - intros file Hfile. apply list_elem_of_singleton in Hfile as ->.
    exists (PathError "/etc/ssh/ssh_known_hosts"). split; [discriminate|].
    right. split; reflexivity.
  - exists err, w'. split; [exact Hrun|]. split; [exact Hprompts|exact Hhuman].
Defined.

(** X15 at work: the global file cannot be opened, the user's file does
    not exist; the human confirms, the user's file is created with the key
    of the host and becomes the only known-hosts file. *)
Lemma missing_file_becomes_sole_trust_source_witness :
  let w := Demo.world [] [Demo.confirm] in
  let v := mkVerifier (Demo.check []) [Demo.knownHosts] ["/etc/ssh/ssh_known_hosts"] in
  ∃ w',
    waveHostKeyCallback Demo.env v ["/etc/ssh/ssh_known_hosts"] "example.org"
      "192.0.2.1:22" Demo.serverKey w
    = ((None, [Demo.knownHosts]), w')
    ∧ fs w' !! Demo.knownHosts = Some "example.org ssh-ed25519 AAAAC3server
"
    ∧ human w' = [].
Proof.
  intros w v.
  destruct (missing_file_becomes_sole_trust_source Demo.env v ["/etc/ssh/ssh_known_hosts"]
              Demo.knownHosts [] "example.org" "192.0.2.1:22" Demo.serverKey
              (mkResponse "confirm" "" true) [] w eq_refl eq_refl)
    as (w' & Hrun & Hfs & _ & Hhuman); try reflexivity.
  - intros file Hfile. apply list_elem_of_singleton in Hfile as ->.
    exists (PathError "/etc/ssh/ssh_known_hosts"). split; [discriminate|].
    right. split; reflexivity.
  - exists w'. rewrite Hfs in Hrun |- *. split; [exact Hrun|].
    split; [vm_compute; reflexivity|exact Hhuman].
Defined.

(** X16 at work: the same verifier is asked twice about the same unknown
    host; the human confirms twice and the file holds the line twice. *)
Lemma verifier_asks_again_and_appends_twice_witness :
  let w := Demo.world [] [Demo.confirm; Demo.confirm] in
  let v := mkVerifier (Demo.check []) [] [Demo.knownHosts] in
  let first := waveHostKeyCallback Demo.env v [Demo.knownHosts] "example.org"
                 "192.0.2.1:22" Demo.serverKey w in
  let second := waveHostKeyCallback Demo.env v first.1.2 "example.org" "192.0.2.1:22"
                  Demo.serverKey first.2 in
  fs second.2 !! Demo.knownHosts
  = Some "example.org ssh-ed25519 AAAAC3server
example.org ssh-ed25519 AAAAC3server
"
  ∧ human second.2 = [].
Proof.
  intros w v.
  destruct (verifier_asks_again_and_appends_twice Demo.env v Demo.knownHosts []
              "example.org" "192.0.2.1:22" Demo.serverKey (mkResponse "confirm" "" true)
              (mkResponse "confirm" "" true) [] w
              eq_refl eq_refl eq_refl eq_refl eq_refl eq_refl eq_refl eq_refl)
    as (_ & Hfs & _ & Hhuman).
  split; [exact Hfs|exact Hhuman].
Defined.

(** X17 at work: the preferred methods are "publickey" and "password" and
    both are on. *)
Lemma auth_methods_follow_preferences_witness :
  let w := Demo.world [(Demo.knownHosts, Demo.exampleLine)] [Demo.confirm] in
  ∃ clientConfig w',
    createClientConfig Demo.env (CancelCtx 0) (Demo.keywords []) Demo.info w
    = (inr clientConfig, w')
    ∧ authMethodName <$> Auth clientConfig = ["publickey"; "password"]
    ∧ human w' = [Demo.confirm].
Proof.
  intros w.
  assert (∃ clientConfig w',
            createClientConfig Demo.env (CancelCtx 0) (Demo.keywords []) Demo.info w
            = (inr clientConfig, w'))
    as (clientConfig & w' & Hrun) by (eexists _, _; vm_compute; reflexivity).
  exists clientConfig, w'. split; [exact Hrun|].
  destruct (auth_methods_follow_preferences Demo.env (CancelCtx 0) (Demo.keywords [])
              Demo.info w clientConfig w' Hrun) as (Hnames & _ & _ & _ & Hhuman).
  split; [exact Hnames|exact Hhuman].
Defined.

(** X19 at work: the lookup for the host [web] succeeds, so each strict
    keyword was found; its [ProxyJump] value is empty. *)
Lemma findSshConfigKeywords_success_witness :
  let w := Demo.world [] [] in
  ∃ sshKeywords w',
    findSshConfigKeywords Demo.env "web" w = (inr sshKeywords, w')
    ∧ (∀ key, key ∈ strictKeywords → ∃ raw, GetStrict Demo.env "web" key = inr raw)
    ∧ fs w' = fs w.
Proof.
  intros w.
  assert (∃ sshKeywords w',
            findSshConfigKeywords Demo.env "web" w = (inr sshKeywords, w'))
    as (sshKeywords & w' & Hrun) by (eexists _, _; vm_compute; reflexivity).
  exists sshKeywords, w'. split; [exact Hrun|].
  destruct (findSshConfigKeywords_success Demo.env "web" w sshKeywords w' Hrun)
    as (Hfound & _ & Hfs & _).
  split; [exact Hfound|exact Hfs].
Defined.

(** X20 at work: the configuration of the host [broken] is malformed;
    the error is that of a strict lookup. *)
Lemma findSshConfigKeywords_failure_witness :
  let err := Errorf "ssh_config: malformed entry" [] in
  (∃ key, key ∈ strictKeywords ∧ GetStrict Demo.env "broken" key = inl err)
  ∨ (∃ path, ExpandHomeDir Demo.env path = inl err).
Proof.
  intros err.
  refine (findSshConfigKeywords_failure Demo.env "broken" (Demo.world [] []) err _ _).
  vm_compute. reflexivity.
Defined.

(** X21 at work: a direct connection to the host [web], whose key the
    user's known-hosts file holds. *)
Lemma new_client_runs_through_current_client_witness :
  let w := Demo.world [(Demo.knownHosts, "web:2222 ssh-ed25519 AAAAC3server
")] [] in
  let client := mkClient "web:2222" [] in
  ∃ w',
    ConnectToClient Demo.env 3 (CancelCtx 0) (mkSSHOpts "web" "" 0) None 0
      emptyConnKeywords w
    = (Some (Some client, 0, None), w')
    ∧ ∃ hops, hops ≠ [] ∧ clientChain (Some client) = hops ++ clientChain None.
Proof.
  intros w client. eexists. split; [vm_compute; reflexivity|].
  refine (proj2 (new_client_runs_through_current_client Demo.env 3 (CancelCtx 0)
                   (mkSSHOpts "web" "" 0) None 0 emptyConnKeywords w (Some client) 0 None
                   _ _) client eq_refl).
  vm_compute. reflexivity.
Defined.

(** X22 at work: a call at depth 0 returns the same with every fuel from
    [enoughFuel 0], which is 12. *)
Lemma ConnectToClient_result_is_independent_of_fuel_witness :
  is_int32 0
  ∧ enoughFuel 0 = 12%nat
  ∧ ∃ r w', ∀ fuel,
      (12 ≤ fuel)%nat →
      ConnectToClient Demo.env fuel (CancelCtx 0) (mkSSHOpts "loop" "" 0) None 0
        emptyConnKeywords (Demo.world [] [])
      = (Some r, w').
Proof.
  assert (Hrange : is_int32 0) by (unfold is_int32, MinInt32, MaxInt32; lia).
  split; [exact Hrange|]. split; [reflexivity|].
  exact (ConnectToClient_result_is_independent_of_fuel Demo.env (CancelCtx 0)
           (mkSSHOpts "loop" "" 0) None 0 emptyConnKeywords (Demo.world [] []) Hrange).
Defined.

(** X24 at work: a map with the command "message" is parsed into a
    message command. *)
Lemma ParseCmdMap_command_witness :
  let cmdMap : gmap string Wshutil.any :=
    {["command" := Wshutil.AnyString "message"; "message" := Wshutil.AnyString "hello"]} in
  let cmd := Wshutil.MessageCommand unit (Wshutil.mkBlockMessageCommand "message" "hello") in
  Wshutil.ParseCmdMap unit Wshutil.demoJson cmdMap = inr cmd
  ∧ cmdMap !! Wshutil.CommandKey = Some (Wshutil.AnyString "message").
Proof.
  intros cmdMap cmd.
  assert (Wshutil.ParseCmdMap unit Wshutil.demoJson cmdMap = inr cmd) as Hparse
    by (vm_compute; reflexivity).
  split; [exact Hparse|].
  exact (proj1 (ParseCmdMap_command Wshutil.demoJson cmdMap cmd Hparse)).
Defined.


(** C6 at work: two encrypted identity files, a wrong passphrase for the
    first, the prompt for the second dismissed; the third file is never
    looked at. *)
Lemma cancelled_passphrase_prompt_ends_probe_witness :
  let keys : gmap string string :=
    {["/id_rsa" := "ENCRYPTED KEY"; "/id_ed25519" := "ENCRYPTED KEY 2";
      "/id_ecdsa" := "PLAIN KEY"]} in
  let w := Demo.world [] [Demo.typed "guess"; NoAnswer "canceled"; Demo.typed "unused"] in
  retryPublicKeys (λ _, false) 3
    (publicKeyCallback Demo.env (CancelCtx 0) (Demo.keywords []) None Demo.info keys)
    (mkPubKeyState [] ["/id_rsa"; "/id_ed25519"; "/id_ecdsa"]) w
  = ((AuthError (ConnectionError Demo.info (UserInputCancelError (Errorf "canceled" []))),
      mkPubKeyState [] ["/id_ecdsa"]),
     mkWorld (fs w) [Demo.typed "unused"] []
       [EvPrompt (WithTimeout (CancelCtx 0) 60) (passphraseRequest "/id_rsa");
        EvPrompt (WithTimeout (CancelCtx 0) 60) (passphraseRequest "/id_ed25519")]).
Proof.
  intros keys w.
  destruct (cancelled_passphrase_prompt_ends_probe Demo.env (λ _, false) (CancelCtx 0)
              (Demo.keywords []) None Demo.info keys "/id_rsa" "ENCRYPTED KEY"
              (mkResponse "text" "guess" false)
              [NoAnswer "canceled"; Demo.typed "unused"]
              (Errorf "x509: decryption password incorrect" [])
              [KeySigner "dummy"] w
              eq_refl eq_refl eq_refl eq_refl eq_refl eq_refl eq_refl eq_refl)
    as (_ & _ & _ & Hcancel & _).
  exact (Hcancel 1%nat "/id_ed25519" "ENCRYPTED KEY 2" ["/id_ecdsa"] "canceled"
           [Demo.typed "unused"] eq_refl eq_refl eq_refl).
Defined.

(** C8 at work: the host [behind] is reached through the proxy jump
    [web], whose key is unknown; the human declines the host-key prompt of
    that hop.  The cancellation comes out of the outermost call as the hop
    at depth 1 wrapped it, with the options and the depth of that hop. *)
Lemma connect_errors_are_wrapped_witness :
  let opts := mkSSHOpts "behind" "" 0 in
  let w := Demo.world [] [Demo.decline] in
  let err := ConnectionError (mkDebugInfo None (mkSSHOpts "web" "" 0) 1)
               (UserInputCancelError (Errorf "user selected no" [])) in
  is_int32 0
  ∧ (ConnectToClient jumpEnv 3 (CancelCtx 0) opts None 0 emptyConnKeywords w).1
    = Some (None, 1, Some err)
  ∧ FailsWith jumpEnv (CancelCtx 0) opts None 0 emptyConnKeywords 1 err
  ∧ isUserCancel err = true.
Proof.
  intros opts w err.
  assert (Hrange : is_int32 0) by (unfold is_int32, MinInt32, MaxInt32; lia).
  split; [exact Hrange|]. split; [vm_compute; reflexivity|].
  destruct (proj1 (connect_errors_are_wrapped jumpEnv 2 (CancelCtx 0) opts None 0
                     emptyConnKeywords w Hrange)
              None 1 err
              ((ConnectToClient jumpEnv 3 (CancelCtx 0) opts None 0 emptyConnKeywords
                  w).2))
    as (_ & _ & _ & Hfails & _); [vm_compute; reflexivity|].
  split; [exact Hfails|reflexivity].
Defined.
